(** * EntityItem: wire codec, acceptance policy, kinematic extrapolation
      and action ledger of libraries/entities/src/EntityItem.cpp

    The development is a shallow embedding of [EntityItem.cpp].  C++ [float]
    is IEEE binary32, taken from the Standard Library's [SpecFloat]
    (precision 24, emax 128), so every definition below evaluates.  [quint64]
    is [Z] with the wrap-around modulo 2^64 written out, [QUuid] is a 128-bit
    number, [QString] a [string], [QByteArray] a list of bytes, [QHash] a
    [gmap].  Headers of the repository that are not part of the sources at
    hand (flag constants, protocol versions, the packet writer, the property
    flag codec) are interfaces: type classes whose instances are arguments of
    everything below. *)

From Stdlib Require Import ZArith List Bool Lia String Ascii.
From Stdlib Require Import Floats.SpecFloat.
From stdpp Require Import gmap.

Local Open Scope Z_scope.

(** ** Machine numbers *)

Definition quint64 := Z.
Definition wrap64 (z : Z) : Z := z mod 2 ^ 64.
Definition wrap8 (z : Z) : Z := z mod 2 ^ 8.

Definition byte := Byte.byte.
Definition QByteArray := list byte.

Definition byte_of_Z (z : Z) : byte :=
  match Byte.of_N (Z.to_N (z mod 256)) with
  | Some b => b
  | None => Byte.x00
  end.
Definition Z_of_byte (b : byte) : Z := Z.of_N (Byte.to_N b).

(** A 128-bit identifier; the null id is 0. *)
Definition QUuid := N.
Definition QUuid_isNull (id : QUuid) : bool := (id =? 0)%N.

(** ** binary32 arithmetic *)

Definition float := spec_float.

(** GLM answers [glm::min] and [glm::max] with a comparison and a choice,
    and its releases do not make the same one: the later ones have
    [min(x, y) = (y < x) ? y : x] and [max(x, y) = (x < y) ? y : x], the
    earlier ones [min(x, y) = (x < y) ? x : y] and
    [max(x, y) = (x > y) ? x : y].  The two agree on operands of which
    one is below the other; they differ on operands that compare equal
    or do not compare (a NaN), where the first form answers [x] and the
    second [y].  [glm::clamp(x, lo, hi)] is [min(max(x, lo), hi)] in some
    releases and [min(hi, max(lo, x))] in others.  GLM is not among the
    sources: which forms the build has are parameters. *)
Class GlmCommon := {
  glm_answers_first_operand : bool;
  glm_clamp_takes_value_first : bool
}.

Module Float32.
Definition prec : Z := 24.
Definition emax : Z := 128.

Definition add : float -> float -> float := SFadd prec emax.
Definition sub : float -> float -> float := SFsub prec emax.
Definition mul : float -> float -> float := SFmul prec emax.
Definition div : float -> float -> float := SFdiv prec emax.
Definition sqrt : float -> float := SFsqrt prec emax.
Definition eqb : float -> float -> bool := SFeqb.
Definition ltb : float -> float -> bool := SFltb.
Definition leb : float -> float -> bool := SFleb.
(** C++ [a != b] and [a > b]. *)
Definition neb (a b : float) : bool := negb (eqb a b).
Definition gtb (a b : float) : bool := ltb b a.

(** [(float) z] for an integer [z], rounded to nearest even. *)
Definition of_Z (z : Z) : float := binary_normalize prec emax z 0 false.
(** The literal [n/d] with [n] and [d] exactly representable: the decimal
    literals of the source ([0.001f] is [ratio 1 1000]). *)
Definition ratio (n d : Z) : float := div (of_Z n) (of_Z d).

Definition zero : float := S754_zero false.
Definition one : float := of_Z 1.

(** glm::max, glm::min and glm::clamp on scalars. *)
Definition max `{GlmCommon} (x y : float) : float :=
  if glm_answers_first_operand
  then (if ltb x y then y else x)
  else (if gtb x y then x else y).
Definition min `{GlmCommon} (x y : float) : float :=
  if glm_answers_first_operand
  then (if ltb y x then y else x)
  else (if ltb x y then x else y).
Definition clamp `{GlmCommon} (x lo hi : float) : float :=
  if glm_clamp_takes_value_first
  then min (max x lo) hi
  else min hi (max lo x).
End Float32.

(** ** glm vectors *)

Record vec3 := mkVec3 { vx : float; vy : float; vz : float }.
Record quat := mkQuat { qx : float; qy : float; qz : float; qw : float }.

Module Vec3.
Definition zero : vec3 := mkVec3 Float32.zero Float32.zero Float32.zero.
Definition add (a b : vec3) : vec3 :=
  mkVec3 (Float32.add (vx a) (vx b)) (Float32.add (vy a) (vy b))
         (Float32.add (vz a) (vz b)).
Definition scale (a : vec3) (s : float) : vec3 :=
  mkVec3 (Float32.mul (vx a) s) (Float32.mul (vy a) s) (Float32.mul (vz a) s).
(** [operator!=]: some component differs. *)
Definition neb (a b : vec3) : bool :=
  Float32.neb (vx a) (vx b) || Float32.neb (vy a) (vy b)
  || Float32.neb (vz a) (vz b).
Definition dot (a b : vec3) : float :=
  Float32.add (Float32.add (Float32.mul (vx a) (vx b))
                           (Float32.mul (vy a) (vy b)))
              (Float32.mul (vz a) (vz b)).
(** glm::length *)
Definition length (a : vec3) : float := Float32.sqrt (dot a a).
Definition sub (a b : vec3) : vec3 :=
  mkVec3 (Float32.sub (vx a) (vx b)) (Float32.sub (vy a) (vy b))
         (Float32.sub (vz a) (vz b)).
(** component-wise product and glm::max *)
Definition mulv (a b : vec3) : vec3 :=
  mkVec3 (Float32.mul (vx a) (vx b)) (Float32.mul (vy a) (vy b))
         (Float32.mul (vz a) (vz b)).
Definition maxv `{GlmCommon} (a b : vec3) : vec3 :=
  mkVec3 (Float32.max (vx a) (vx b)) (Float32.max (vy a) (vy b))
         (Float32.max (vz a) (vz b)).
Definition splat (x : float) : vec3 := mkVec3 x x x.
End Vec3.

Module Quat.
Definition neb (a b : quat) : bool :=
  Float32.neb (qx a) (qx b) || Float32.neb (qy a) (qy b)
  || Float32.neb (qz a) (qz b) || Float32.neb (qw a) (qw b).
End Quat.

Definition ENTITY_ITEM_ZERO_VEC3 : vec3 := Vec3.zero.

Record AACube := mkAACube { cube_corner : vec3; cube_scale : float }.

(** ** Loops

    [while_pos fuel body s] runs [body] from [s] until it answers [inl]
    (finished), for at most [fuel] rounds; the fuel is binary, so a large
    bound costs nothing.  [inr] is a run that used all its fuel. *)

Fixpoint while_pos {S : Type} (fuel : positive) (body : S -> S + S) (s : S)
  : S + S :=
  match fuel with
  | xH => body s
  | xO p =>
      match while_pos p body s with
      | inl r => inl r
      | inr s' => while_pos p body s'
      end
  | xI p =>
      match body s with
      | inl r => inl r
      | inr s1 =>
          match while_pos p body s1 with
          | inl r => inl r
          | inr s2 => while_pos p body s2
          end
      end
  end.

Definition out_of {S : Type} (r : S + S) : S :=
  match r with inl s => s | inr s => s end.

(** ** Interfaces of headers that are not among the sources *)

(** SimulationFlags.h: the dirty bits of [_dirtyFlags]. *)
Class SimulationFlags := {
  DIRTY_POSITION : Z;
  DIRTY_ROTATION : Z;
  DIRTY_LINEAR_VELOCITY : Z;
  DIRTY_ANGULAR_VELOCITY : Z;
  DIRTY_MASS : Z;
  DIRTY_COLLISION_GROUP : Z;
  DIRTY_MOTION_TYPE : Z;
  DIRTY_SHAPE : Z;
  DIRTY_LIFETIME : Z;
  DIRTY_MATERIAL : Z;
  DIRTY_PHYSICS_ACTIVATION : Z;
  DIRTY_SIMULATOR_ID : Z;
  DIRTY_TRANSFORM : Z;
  DIRTY_VELOCITIES : Z
}.

(** PhysicsCollisionGroups.h *)
Class PhysicsCollisionGroups := {
  BULLET_COLLISION_GROUP_STATIC : Z;
  BULLET_COLLISION_GROUP_DYNAMIC : Z;
  BULLET_COLLISION_GROUP_KINEMATIC : Z;
  BULLET_COLLISION_GROUP_COLLISIONLESS : Z;
  USER_COLLISION_GROUP_MY_AVATAR : Z;
  USER_COLLISION_GROUP_OTHER_AVATAR : Z;
  USER_COLLISION_MASK_AVATARS : Z;
  ENTITY_COLLISION_MASK_DEFAULT : Z;
  (** Physics::getDefaultCollisionMask, an [int16_t] *)
  getDefaultCollisionMask : Z -> Z
}.

(** EntityItemPropertiesDefaults.h and EntityItem.h constants. *)
Class EntityItemPropertiesDefaults := {
  ENTITY_ITEM_MAX_DENSITY : float;
  ENTITY_ITEM_MIN_DENSITY : float;
  ENTITY_ITEM_MAX_RESTITUTION : float;
  ENTITY_ITEM_MIN_RESTITUTION : float;
  ENTITY_ITEM_MAX_FRICTION : float;
  ENTITY_ITEM_MIN_FRICTION : float;
  UNKNOWN_CREATED_TIME : quint64
}.

(** udt/PacketHeaders.h: the bitstream versions the decoder tests. *)
Class PacketVersions := {
  VERSION_ENTITIES_SUPPORT_SPLIT_MTU : Z;
  VERSION_ENTITIES_HAS_LAST_SIMULATED_TIME : Z;
  VERSION_ENTITIES_HAS_MARKETPLACE_ID : Z;
  VERSION_ENTITIES_HAS_MARKETPLACE_ID_DAMAGED : Z
}.

(** PhysicsHelpers.h, glm's quaternion product and normalisation, and libm. *)
Class PhysicsHelpers := {
  PHYSICS_ENGINE_FIXED_SUBSTEP : float;
  computeBulletRotationStep : vec3 -> float -> quat;
  quat_mul : quat -> quat -> quat;
  quat_normalize : quat -> quat;
  powf : float -> float -> float
}.

Definition USECS_PER_SECOND : Z := 1000000.

(** ** Property flags

    The properties of the base class, in the order [getEntityProperties]
    requests them, and [PROP_LAST_ITEM].  EntityPropertyFlags.h gives every
    property a bit of the flag set; the bit numbers are an interface. *)

Inductive EntityPropertyList :=
| PROP_SIMULATION_OWNER | PROP_POSITION | PROP_ROTATION | PROP_VELOCITY
| PROP_ANGULAR_VELOCITY | PROP_ACCELERATION | PROP_DIMENSIONS | PROP_DENSITY
| PROP_GRAVITY | PROP_DAMPING | PROP_RESTITUTION | PROP_FRICTION
| PROP_LIFETIME | PROP_SCRIPT | PROP_SCRIPT_TIMESTAMP
| PROP_COLLISION_SOUND_URL | PROP_REGISTRATION_POINT | PROP_ANGULAR_DAMPING
| PROP_VISIBLE | PROP_COLLISIONLESS | PROP_COLLISION_MASK | PROP_DYNAMIC
| PROP_LOCKED | PROP_USER_DATA | PROP_MARKETPLACE_ID | PROP_NAME | PROP_HREF
| PROP_DESCRIPTION | PROP_ACTION_DATA | PROP_PARENT_ID
| PROP_PARENT_JOINT_INDEX | PROP_QUERY_AA_CUBE | PROP_LAST_ITEM.

Class PropertyFlagBits := { flagBit : EntityPropertyList -> N }.

Definition EntityPropertyFlags := N.

Section Flags.
Context `{PropertyFlagBits}.

Definition getHasProperty (f : EntityPropertyFlags) (p : EntityPropertyList)
  : bool := N.testbit f (flagBit p).
(** [f += p] and [f -= p] *)
Definition flags_add (f : EntityPropertyFlags) (p : EntityPropertyList)
  : EntityPropertyFlags := N.setbit f (flagBit p).
Definition flags_sub (f : EntityPropertyFlags) (p : EntityPropertyList)
  : EntityPropertyFlags := N.clearbit f (flagBit p).
End Flags.

(** ** The wire

    OctreePacketData::appendValue and unpackDataFromBytes come in one
    overload per C++ type, BufferParser and ByteCountCoded read the header:
    each is a pair of a writer and a reader that reports the bytes it
    consumed. *)

Record Wire (T : Type) := mkWire {
  pack : T -> QByteArray;
  unpack : QByteArray -> T * nat
}.
Arguments pack {T} _ _.
Arguments unpack {T} _ _.

(** ** Simulation ownership *)

Record SimulationOwner := mkSimulationOwner {
  so_id : QUuid;
  so_priority : Z
}.

Definition SimulationOwner_eqb (a b : SimulationOwner) : bool :=
  (so_id a =? so_id b)%N && (so_priority a =? so_priority b).

(** Modelled from the spec: SimulationOwner.cpp is not among the sources.
    [claim(ownerID, priority)] is accepted unconditionally and "records a
    change if (ownerID, priority) differs from current". *)
Definition SimulationOwner_set (current new : SimulationOwner)
  : bool * SimulationOwner :=
  (negb (SimulationOwner_eqb current new), new).

(** Modelled from the spec: [isSelfOwned(localID)], true iff the owner is
    [localID]; as the name of [matchesValidID] says, a null id matches
    nothing. *)
Definition matchesValidID (o : SimulationOwner) (id : QUuid) : bool :=
  (so_id o =? id)%N && negb (QUuid_isNull id).

Class OctreeWire := {
  wire_rfc4122 : Wire QUuid;
  wire_count32 : Wire Z;
  wire_count64 : Wire quint64;
  wire_quint64 : Wire quint64;
  wire_flags : Wire EntityPropertyFlags;
  wire_QByteArray : Wire QByteArray;
  wire_vec3 : Wire vec3;
  wire_quat : Wire quat;
  wire_float : Wire float;
  wire_QString : Wire string;
  wire_bool : Wire bool;
  wire_uint8 : Wire Z;
  wire_quint16 : Wire Z;
  wire_QUuid : Wire QUuid;
  wire_AACube : Wire AACube;
  (** SimulationOwner::toByteArray and fromByteArray *)
  SimulationOwner_toByteArray : SimulationOwner -> QByteArray;
  SimulationOwner_fromByteArray : QByteArray -> SimulationOwner
}.

(** ** Actions *)

(** Modelled from the spec: the action classes are not among the sources.
    An ActionRecord is "(actionID unique, type tag, serialized argument
    blob, locallyAddedButNotYetReceived flag)"; it also knows whether it
    still has an owner entity and whether it suppresses location edits. *)
Record EntityAction := mkEntityAction {
  act_id : QUuid;
  act_type : Z;
  act_arguments : QByteArray;
  locallyAddedButNotYetReceived : bool;
  act_hasOwnerEntity : bool;
  act_shouldSuppressLocationEdits : bool
}.

Definition act_setReceived (flag : bool) (a : EntityAction) : EntityAction :=
  mkEntityAction (act_id a) (act_type a) (act_arguments a) flag
                 (act_hasOwnerEntity a) (act_shouldSuppressLocationEdits a).
Definition act_setOwnerEntity (o : bool) (a : EntityAction) : EntityAction :=
  mkEntityAction (act_id a) (act_type a) (act_arguments a)
                 (locallyAddedButNotYetReceived a) o
                 (act_shouldSuppressLocationEdits a).
Definition act_setArguments (args : QByteArray) (a : EntityAction)
  : EntityAction :=
  mkEntityAction (act_id a) (act_type a) args
                 (locallyAddedButNotYetReceived a) (act_hasOwnerEntity a)
                 (act_shouldSuppressLocationEdits a).

(** QDataStream (Qt): big-endian integers; a [QByteArray] is its length on
    32 bits and its bytes; a [QVector] is its element count on 32 bits and
    its elements; a [QUuid] is its 16 bytes. *)
Module QDataStream.
Fixpoint be_bytes (n : nat) (z : Z) : QByteArray :=
  match n with
  | O => []
  | S k => byte_of_Z (z / 2 ^ (8 * Z.of_nat k)) :: be_bytes k z
  end.
Fixpoint be_value (bs : QByteArray) (acc : Z) : Z :=
  match bs with
  | [] => acc
  | b :: r => be_value r (acc * 256 + Z_of_byte b)
  end.
(** Reading [n] bytes as a number; [None] past the end of the stream. *)
Definition read_be (n : nat) (bs : QByteArray) : option (Z * QByteArray) :=
  if (n <=? length bs)%nat then Some (be_value (take n bs) 0, drop n bs)
  else None.

Definition write_QByteArray (b : QByteArray) : QByteArray :=
  be_bytes 4 (Z.of_nat (length b)) ++ b.
Definition read_QByteArray (bs : QByteArray)
  : option (QByteArray * QByteArray) :=
  match read_be 4 bs with
  | Some (n, r) =>
      if (Z.to_nat n <=? length r)%nat
      then Some (take (Z.to_nat n) r, drop (Z.to_nat n) r)
      else None
  | None => None
  end.

Definition write_QVector (v : list QByteArray) : QByteArray :=
  be_bytes 4 (Z.of_nat (length v)) ++ concat (map write_QByteArray v).
(** [QDataStream stream(&array, QIODevice::WriteOnly)]: the stream writes
    from the front of the array it is handed, over what the array holds;
    the array is not cut, so what it held beyond the bytes written
    stays. *)
Definition write_over (written array : QByteArray) : QByteArray :=
  written ++ drop (length written) array.
Fixpoint read_elements (count : nat) (bs : QByteArray)
  : option (list QByteArray) :=
  match count with
  | O => Some []
  | S k =>
      match read_QByteArray bs with
      | Some (b, r) =>
          match read_elements k r with
          | Some l => Some (b :: l)
          | None => None
          end
      | None => None
      end
  end.
(** [stream >> vector]; a stream that ends early leaves the vector
    empty.  Every element takes four bytes at least, which bounds the
    count before it is turned into a number of rounds. *)
Definition read_QVector (bs : QByteArray) : list QByteArray :=
  match read_be 4 bs with
  | Some (c, r) =>
      if 4 * c <=? Z.of_nat (length r)
      then match read_elements (Z.to_nat c) r with
           | Some l => l
           | None => []
           end
      else []
  | None => []
  end.
End QDataStream.

(** Modelled from the spec: an action serialises as the "(type, id, args)"
    tuple the ledger reads back with [stream >> actionType >> actionID]:
    the type on 16 bits, the id, then the arguments. *)
Definition action_serialize (a : EntityAction) : QByteArray :=
  QDataStream.be_bytes 2 (act_type a)
  ++ QDataStream.be_bytes 16 (Z.of_N (act_id a))
  ++ act_arguments a.

(** [stream >> actionType] and [stream >> actionID]; a stream that ends
    early leaves zero. *)
Definition stream_actionType (bs : QByteArray) : Z :=
  match QDataStream.read_be 2 bs with Some (t, _) => t | None => 0 end.
Definition stream_actionID (bs : QByteArray) : QUuid :=
  match QDataStream.read_be 16 (drop 2 bs) with
  | Some (i, _) => Z.to_N i
  | None => 0%N
  end.

(** [action->deserialize(bytes)]: the arguments are replaced; "there isn't
    currently a way to change the type of an existing action". *)
Definition action_deserialize (bs : QByteArray) (a : EntityAction)
  : EntityAction := act_setArguments (drop 18 bs) a.

(** EntityActionFactoryInterface::factoryBA: builds an action from its
    serialised form, or fails. *)
Class EntityActionFactoryInterface := {
  factoryBA : QByteArray -> option EntityAction
}.

(** ** The record *)

(** The tree an entity sits in, as far as the entity asks it:
    [isDeletedEntity]. *)
Record EntityTree := mkEntityTree { tree_deletedEntities : gset QUuid }.
Record EntityTreeElement := mkEntityTreeElement {
  element_tree : option EntityTree
}.

Definition isDeletedEntity (t : EntityTree) (id : QUuid) : bool :=
  bool_decide (id ∈ tree_deletedEntities t).

(** The members of [EntityItem] and of its base [SpatiallyNestable] that the
    functions below read or write.  Transforms are those of an entity with
    no parent: the local and the world frame coincide. *)
Record EntityItem := mkEntityItem {
  _id : QUuid;
  _type : Z;
  _sourceUUID : QUuid;
  _lastSimulated : quint64;
  _lastUpdated : quint64;
  _lastEdited : quint64;
  _lastEditedFromRemote : quint64;
  _lastEditedFromRemoteInRemoteTime : quint64;
  _created : quint64;
  _changedOnServer : quint64;
  _glowLevel : float;
  _localRenderAlpha : float;
  _density : float;
  _velocity : vec3;
  _gravity : vec3;
  _acceleration : vec3;
  _damping : float;
  _restitution : float;
  _friction : float;
  _lifetime : float;
  _script : string;
  _scriptTimestamp : quint64;
  _collisionSoundURL : string;
  _registrationPoint : vec3;
  _angularVelocity : vec3;
  _angularDamping : float;
  _visible : bool;
  _collisionless : bool;
  _collisionMask : Z;
  _dynamic : bool;
  _locked : bool;
  _userData : string;
  _simulationOwner : SimulationOwner;
  _marketplaceID : string;
  _name : string;
  _href : string;
  _description : string;
  _dirtyFlags : Z;
  _element : option EntityTreeElement;
  (* SpatiallyNestable *)
  _localPosition : vec3;
  _localOrientation : quat;
  _scale : vec3;
  _parentID : QUuid;
  _parentJointIndex : Z;
  _queryAACube : AACube;
  _queryAACubeSet : bool;
  _recalcMaxAACube : bool;
  _maxAACube : AACube;
  (* the action ledger *)
  _objectActions : gmap QUuid EntityAction;
  _allActionsDataCache : QByteArray;
  _previouslyDeletedActions : gmap QUuid quint64;
  _actionsToRemove : list QUuid;
  _actionDataDirty : bool;
  _actionDataNeedsTransmit : bool
}.

Definition eta_EntityItem (e : EntityItem) : EntityItem :=
  mkEntityItem (_id e) (_type e) (_sourceUUID e) (_lastSimulated e)
    (_lastUpdated e) (_lastEdited e) (_lastEditedFromRemote e)
    (_lastEditedFromRemoteInRemoteTime e) (_created e) (_changedOnServer e)
    (_glowLevel e) (_localRenderAlpha e) (_density e) (_velocity e)
    (_gravity e) (_acceleration e) (_damping e) (_restitution e)
    (_friction e) (_lifetime e) (_script e) (_scriptTimestamp e)
    (_collisionSoundURL e) (_registrationPoint e) (_angularVelocity e)
    (_angularDamping e) (_visible e) (_collisionless e) (_collisionMask e)
    (_dynamic e) (_locked e) (_userData e) (_simulationOwner e)
    (_marketplaceID e) (_name e) (_href e) (_description e) (_dirtyFlags e)
    (_element e) (_localPosition e) (_localOrientation e) (_scale e)
    (_parentID e) (_parentJointIndex e) (_queryAACube e) (_queryAACubeSet e)
    (_recalcMaxAACube e) (_maxAACube e) (_objectActions e)
    (_allActionsDataCache e) (_previouslyDeletedActions e)
    (_actionsToRemove e) (_actionDataDirty e) (_actionDataNeedsTransmit e).

(** [store proj]: the assignment [e.proj = v], built from the eta-expansion
    of the record by abstracting the one place where [proj e] stands. *)
Ltac store proj :=
  let v := fresh "v" in
  let e := fresh "e" in
  intros v e;
  let body := eval cbv beta delta [eta_EntityItem] in (eta_EntityItem e) in
  match eval pattern (proj e) in body with
  | ?g _ => let r := eval cbv beta in (g v) in exact r
  end.

Definition put_id : QUuid -> EntityItem -> EntityItem := ltac:(store _id).
Definition put_type : Z -> EntityItem -> EntityItem := ltac:(store _type).
Definition put_sourceUUID : QUuid -> EntityItem -> EntityItem :=
  ltac:(store _sourceUUID).
Definition put_lastSimulated : quint64 -> EntityItem -> EntityItem :=
  ltac:(store _lastSimulated).
Definition put_lastUpdated : quint64 -> EntityItem -> EntityItem :=
  ltac:(store _lastUpdated).
Definition put_lastEdited : quint64 -> EntityItem -> EntityItem :=
  ltac:(store _lastEdited).
Definition put_lastEditedFromRemote : quint64 -> EntityItem -> EntityItem :=
  ltac:(store _lastEditedFromRemote).
Definition put_lastEditedFromRemoteInRemoteTime
  : quint64 -> EntityItem -> EntityItem :=
  ltac:(store _lastEditedFromRemoteInRemoteTime).
Definition put_created : quint64 -> EntityItem -> EntityItem :=
  ltac:(store _created).
Definition put_changedOnServer : quint64 -> EntityItem -> EntityItem :=
  ltac:(store _changedOnServer).
Definition put_glowLevel : float -> EntityItem -> EntityItem :=
  ltac:(store _glowLevel).
Definition put_localRenderAlpha : float -> EntityItem -> EntityItem :=
  ltac:(store _localRenderAlpha).
Definition put_density : float -> EntityItem -> EntityItem :=
  ltac:(store _density).
Definition put_velocity : vec3 -> EntityItem -> EntityItem :=
  ltac:(store _velocity).
Definition put_gravity : vec3 -> EntityItem -> EntityItem :=
  ltac:(store _gravity).
Definition put_acceleration : vec3 -> EntityItem -> EntityItem :=
  ltac:(store _acceleration).
Definition put_damping : float -> EntityItem -> EntityItem :=
  ltac:(store _damping).
Definition put_restitution : float -> EntityItem -> EntityItem :=
  ltac:(store _restitution).
Definition put_friction : float -> EntityItem -> EntityItem :=
  ltac:(store _friction).
Definition put_lifetime : float -> EntityItem -> EntityItem :=
  ltac:(store _lifetime).
Definition put_script : string -> EntityItem -> EntityItem :=
  ltac:(store _script).
Definition put_scriptTimestamp : quint64 -> EntityItem -> EntityItem :=
  ltac:(store _scriptTimestamp).
Definition put_collisionSoundURL : string -> EntityItem -> EntityItem :=
  ltac:(store _collisionSoundURL).
Definition put_registrationPoint : vec3 -> EntityItem -> EntityItem :=
  ltac:(store _registrationPoint).
Definition put_angularVelocity : vec3 -> EntityItem -> EntityItem :=
  ltac:(store _angularVelocity).
Definition put_angularDamping : float -> EntityItem -> EntityItem :=
  ltac:(store _angularDamping).
Definition put_visible : bool -> EntityItem -> EntityItem :=
  ltac:(store _visible).
Definition put_collisionless : bool -> EntityItem -> EntityItem :=
  ltac:(store _collisionless).
Definition put_collisionMask : Z -> EntityItem -> EntityItem :=
  ltac:(store _collisionMask).
Definition put_dynamic : bool -> EntityItem -> EntityItem :=
  ltac:(store _dynamic).
Definition put_locked : bool -> EntityItem -> EntityItem :=
  ltac:(store _locked).
Definition put_userData : string -> EntityItem -> EntityItem :=
  ltac:(store _userData).
Definition put_simulationOwner : SimulationOwner -> EntityItem -> EntityItem :=
  ltac:(store _simulationOwner).
Definition put_marketplaceID : string -> EntityItem -> EntityItem :=
  ltac:(store _marketplaceID).
Definition put_name : string -> EntityItem -> EntityItem :=
  ltac:(store _name).
Definition put_href : string -> EntityItem -> EntityItem :=
  ltac:(store _href).
Definition put_description : string -> EntityItem -> EntityItem :=
  ltac:(store _description).
Definition put_dirtyFlags : Z -> EntityItem -> EntityItem :=
  ltac:(store _dirtyFlags).
Definition put_element : option EntityTreeElement -> EntityItem -> EntityItem :=
  ltac:(store _element).
Definition put_localPosition : vec3 -> EntityItem -> EntityItem :=
  ltac:(store _localPosition).
Definition put_localOrientation : quat -> EntityItem -> EntityItem :=
  ltac:(store _localOrientation).
Definition put_scale : vec3 -> EntityItem -> EntityItem :=
  ltac:(store _scale).
Definition put_parentID : QUuid -> EntityItem -> EntityItem :=
  ltac:(store _parentID).
Definition put_parentJointIndex : Z -> EntityItem -> EntityItem :=
  ltac:(store _parentJointIndex).
Definition put_queryAACube : AACube -> EntityItem -> EntityItem :=
  ltac:(store _queryAACube).
Definition put_queryAACubeSet : bool -> EntityItem -> EntityItem :=
  ltac:(store _queryAACubeSet).
Definition put_recalcMaxAACube : bool -> EntityItem -> EntityItem :=
  ltac:(store _recalcMaxAACube).
Definition put_maxAACube : AACube -> EntityItem -> EntityItem :=
  ltac:(store _maxAACube).
Definition put_objectActions
  : gmap QUuid EntityAction -> EntityItem -> EntityItem :=
  ltac:(store _objectActions).
Definition put_allActionsDataCache : QByteArray -> EntityItem -> EntityItem :=
  ltac:(store _allActionsDataCache).
Definition put_previouslyDeletedActions
  : gmap QUuid quint64 -> EntityItem -> EntityItem :=
  ltac:(store _previouslyDeletedActions).
Definition put_actionsToRemove : list QUuid -> EntityItem -> EntityItem :=
  ltac:(store _actionsToRemove).
Definition put_actionDataDirty : bool -> EntityItem -> EntityItem :=
  ltac:(store _actionDataDirty).
Definition put_actionDataNeedsTransmit : bool -> EntityItem -> EntityItem :=
  ltac:(store _actionDataNeedsTransmit).

(** ** Accessors of EntityItem.h and SpatiallyNestable

    Modelled from the spec: EntityItem.h and SpatiallyNestable are not among
    the sources.  The record "owns transform, kinematics, physical
    parameters, lifecycle timestamps and metadata"; the inline accessors
    read a member or assign to it, and the predicates compare a vector with
    zero. *)

Definition or_dirty (bits : Z) (e : EntityItem) : EntityItem :=
  put_dirtyFlags (Z.lor (_dirtyFlags e) bits) e.

Definition hasVelocity (e : EntityItem) : bool :=
  Vec3.neb (_velocity e) ENTITY_ITEM_ZERO_VEC3.
Definition hasAngularVelocity (e : EntityItem) : bool :=
  Vec3.neb (_angularVelocity e) ENTITY_ITEM_ZERO_VEC3.
Definition hasAcceleration (e : EntityItem) : bool :=
  Vec3.neb (_acceleration e) ENTITY_ITEM_ZERO_VEC3.
Definition hasActions (e : EntityItem) : bool :=
  negb (bool_decide (_objectActions e = ∅)).
Definition isMoving (e : EntityItem) : bool :=
  hasVelocity e || hasAngularVelocity e.

Definition requiresRecalcBoxes (e : EntityItem) : EntityItem :=
  put_recalcMaxAACube true e.
(** EntityItem::locationChanged; its call of the base class tells the
    children, which are other records. *)
Definition locationChanged (e : EntityItem) : EntityItem :=
  requiresRecalcBoxes e.

Definition getLocalPosition (e : EntityItem) : vec3 := _localPosition e.
Definition getPosition (e : EntityItem) : vec3 := _localPosition e.
Definition getLocalOrientation (e : EntityItem) : quat := _localOrientation e.
Definition getRotation (e : EntityItem) : quat := _localOrientation e.
Definition getDimensions (e : EntityItem) : vec3 := _scale e.
Definition setLocalPosition (v : vec3) (e : EntityItem) : EntityItem :=
  locationChanged (put_localPosition v e).
Definition setPosition (v : vec3) (e : EntityItem) : EntityItem :=
  setLocalPosition v e.
Definition setLocalOrientation (q : quat) (e : EntityItem) : EntityItem :=
  locationChanged (put_localOrientation q e).
Definition setRotation (q : quat) (e : EntityItem) : EntityItem :=
  setLocalOrientation q e.
Definition setScale (v : vec3) (e : EntityItem) : EntityItem := put_scale v e.

Definition setVelocity := put_velocity.
Definition setAcceleration := put_acceleration.
Definition setScript := put_script.
Definition setScriptTimestamp := put_scriptTimestamp.
Definition setRegistrationPoint := put_registrationPoint.
Definition setVisible := put_visible.
Definition setLocked := put_locked.
Definition setUserData := put_userData.
Definition setMarketplaceID := put_marketplaceID.
Definition setName := put_name.
Definition setCollisionSoundURL := put_collisionSoundURL.
Definition setDescription := put_description.
Definition setParentID := put_parentID.
Definition setParentJointIndex := put_parentJointIndex.
Definition setGlowLevel := put_glowLevel.
Definition setLocalRenderAlpha := put_localRenderAlpha.
Definition setSourceUUID := put_sourceUUID.
Definition setQueryAACube (c : AACube) (e : EntityItem) : EntityItem :=
  put_queryAACubeSet true (put_queryAACube c e).
Definition setActionDataNeedsTransmit := put_actionDataNeedsTransmit.

(** [setLastEdited]: the edit is an update too, and the server-side change
    time never goes back. *)
Definition setLastEdited (lastEdited : quint64) (e : EntityItem) : EntityItem :=
  put_changedOnServer (Z.max lastEdited (_changedOnServer e))
    (put_lastUpdated lastEdited (put_lastEdited lastEdited e)).

Definition getTree (e : EntityItem) : option EntityTree :=
  match _element e with
  | Some containingElement => element_tree containingElement
  | None => None
  end.

(** ** Strings *)

Definition ascii_toLower (c : ascii) : ascii :=
  let n := nat_of_ascii c in
  if ((65 <=? n) && (n <=? 90))%nat then ascii_of_nat (n + 32) else c.

Fixpoint toLower (s : string) : string :=
  match s with
  | EmptyString => EmptyString
  | String c r => String (ascii_toLower c) (toLower r)
  end.

Definition startsWith (s p : string) : bool := String.prefix p s.

Fixpoint QByteArray_eqb (a b : QByteArray) : bool :=
  match a, b with
  | [], [] => true
  | x :: a', y :: b' => Byte.eqb x y && QByteArray_eqb a' b'
  | _, _ => false
  end.

(** ** Mutators of EntityItem.cpp *)

Section Mutators.
Context `{GlmCommon} `{SimulationFlags} `{PhysicsCollisionGroups}
        `{EntityItemPropertiesDefaults} `{PhysicsHelpers}.

Definition shouldSuppressLocationEdits (e : EntityItem) : bool :=
  existsb (fun kv => act_shouldSuppressLocationEdits (snd kv))
          (map_to_list (_objectActions e)).

Definition setDensity (density : float) (e : EntityItem) : EntityItem :=
  put_density
    (Float32.max (Float32.min density ENTITY_ITEM_MAX_DENSITY)
                 ENTITY_ITEM_MIN_DENSITY) e.

Definition updateDensity (density : float) (e : EntityItem) : EntityItem :=
  let clampedDensity :=
    Float32.max (Float32.min density ENTITY_ITEM_MAX_DENSITY)
                ENTITY_ITEM_MIN_DENSITY in
  if Float32.neb (_density e) clampedDensity
  then or_dirty DIRTY_MASS (put_density clampedDensity e)
  else e.

Definition setHref (value : string) (e : EntityItem) : EntityItem :=
  if negb (startsWith (toLower value) "hifi://") then e
  else put_href value e.

Definition setDimensions (value : vec3) (e : EntityItem) : EntityItem :=
  if Float32.leb (vx value) Float32.zero
     || Float32.leb (vy value) Float32.zero
     || Float32.leb (vz value) Float32.zero
  then e
  else requiresRecalcBoxes (setScale value e).

Definition updatePosition (value : vec3) (e : EntityItem) : EntityItem :=
  if shouldSuppressLocationEdits e then e
  else if Vec3.neb (getLocalPosition e) value
       then or_dirty DIRTY_POSITION (setLocalPosition value e)
       else e.

Definition updateDimensions (value : vec3) (e : EntityItem) : EntityItem :=
  if Vec3.neb (getDimensions e) value
  then or_dirty (Z.lor DIRTY_SHAPE DIRTY_MASS) (setDimensions value e)
  else e.

Definition updateRotation (rotation : quat) (e : EntityItem) : EntityItem :=
  if shouldSuppressLocationEdits e then e
  else if Quat.neb (getLocalOrientation e) rotation
       then or_dirty DIRTY_ROTATION (setLocalOrientation rotation e)
       else e.

Definition MIN_LINEAR_SPEED : float := Float32.ratio 1 1000.
Definition MIN_ANGULAR_SPEED : float := Float32.ratio 2 10000.

Definition updateVelocity (value : vec3) (e : EntityItem) : EntityItem :=
  if shouldSuppressLocationEdits e then e
  else if Vec3.neb (_velocity e) value
       then
         let e :=
           if Float32.ltb (Vec3.length value) MIN_LINEAR_SPEED
           then put_velocity ENTITY_ITEM_ZERO_VEC3 e
           else put_velocity value e in
         or_dirty DIRTY_LINEAR_VELOCITY e
       else e.

Definition updateDamping (value : float) (e : EntityItem) : EntityItem :=
  let clampedDamping := Float32.clamp value Float32.zero Float32.one in
  if Float32.neb (_damping e) clampedDamping
  then or_dirty DIRTY_MATERIAL (put_damping clampedDamping e)
  else e.

Definition updateGravity (value : vec3) (e : EntityItem) : EntityItem :=
  if Vec3.neb (_gravity e) value
  then or_dirty DIRTY_LINEAR_VELOCITY (put_gravity value e)
  else e.

Definition updateAngularVelocity (value : vec3) (e : EntityItem)
  : EntityItem :=
  if shouldSuppressLocationEdits e then e
  else if Vec3.neb (_angularVelocity e) value
       then
         let e :=
           if Float32.ltb (Vec3.length value) MIN_ANGULAR_SPEED
           then put_angularVelocity ENTITY_ITEM_ZERO_VEC3 e
           else put_angularVelocity value e in
         or_dirty DIRTY_ANGULAR_VELOCITY e
       else e.

Definition updateAngularDamping (value : float) (e : EntityItem)
  : EntityItem :=
  let clampedDamping := Float32.clamp value Float32.zero Float32.one in
  if Float32.neb (_angularDamping e) clampedDamping
  then or_dirty DIRTY_MATERIAL (put_angularDamping clampedDamping e)
  else e.

Definition updateCollisionless (value : bool) (e : EntityItem) : EntityItem :=
  if negb (Bool.eqb (_collisionless e) value)
  then or_dirty DIRTY_COLLISION_GROUP (put_collisionless value e)
  else e.

Definition updateCollisionMask (value : Z) (e : EntityItem) : EntityItem :=
  if negb (Z.land (_collisionMask e) ENTITY_COLLISION_MASK_DEFAULT
           =? Z.land value ENTITY_COLLISION_MASK_DEFAULT)
  then or_dirty DIRTY_COLLISION_GROUP
         (put_collisionMask (Z.land value ENTITY_COLLISION_MASK_DEFAULT) e)
  else e.

Definition updateDynamic (value : bool) (e : EntityItem) : EntityItem :=
  if negb (Bool.eqb (_dynamic e) value)
  then or_dirty DIRTY_MOTION_TYPE (put_dynamic value e)
  else e.

Definition updateRestitution (value : float) (e : EntityItem) : EntityItem :=
  let clampedValue :=
    Float32.max (Float32.min ENTITY_ITEM_MAX_RESTITUTION value)
                ENTITY_ITEM_MIN_RESTITUTION in
  if Float32.neb (_restitution e) clampedValue
  then or_dirty DIRTY_MATERIAL (put_restitution clampedValue e)
  else e.

Definition updateFriction (value : float) (e : EntityItem) : EntityItem :=
  let clampedValue :=
    Float32.max (Float32.min ENTITY_ITEM_MAX_FRICTION value)
                ENTITY_ITEM_MIN_FRICTION in
  if Float32.neb (_friction e) clampedValue
  then or_dirty DIRTY_MATERIAL (put_friction clampedValue e)
  else e.

Definition updateLifetime (value : float) (e : EntityItem) : EntityItem :=
  if Float32.neb (_lifetime e) value
  then or_dirty DIRTY_LIFETIME (put_lifetime value e)
  else e.

Definition updateCreated (value : quint64) (e : EntityItem) : EntityItem :=
  if negb (_created e =? value)
  then or_dirty DIRTY_LIFETIME (put_created value e)
  else e.

Definition updateSimulationOwner (owner : SimulationOwner) (e : EntityItem)
  : EntityItem :=
  let '(changed, o) := SimulationOwner_set (_simulationOwner e) owner in
  let e := put_simulationOwner o e in
  if changed then or_dirty DIRTY_SIMULATOR_ID e else e.

(** [computeCollisionGroupAndFinalMask]: the pair (group, mask).
    [userMask] is a [uint8_t]: the operands of [^], [|] and [~] are
    promoted to [int] and the result is cut back to eight bits. *)
Definition computeCollisionGroupAndFinalMask (sessionUUID : QUuid)
           (e : EntityItem) : Z * Z :=
  if _collisionless e then (BULLET_COLLISION_GROUP_COLLISIONLESS, 0)
  else
    let group :=
      if _dynamic e then BULLET_COLLISION_GROUP_DYNAMIC
      else if isMoving e || hasActions e
           then BULLET_COLLISION_GROUP_KINEMATIC
           else BULLET_COLLISION_GROUP_STATIC in
    let userMask := _collisionMask e in
    let simulatorID := so_id (_simulationOwner e) in
    let userMask :=
      if negb (Bool.eqb (negb (Z.land userMask USER_COLLISION_GROUP_MY_AVATAR =? 0))
                        (negb (Z.land userMask USER_COLLISION_GROUP_OTHER_AVATAR
                               =? 0)))
      then
        if negb (QUuid_isNull simulatorID) && negb (QUuid_isNull simulatorID)
           && negb (simulatorID =? sessionUUID)%N
        then wrap8 (Z.lxor userMask
                      (Z.lor USER_COLLISION_MASK_AVATARS (Z.lnot userMask)))
        else userMask
      else userMask in
    (group, Z.land (getDefaultCollisionMask group) userMask).

(** *** Kinematic extrapolation *)

Definition MIN_TIME_SKIP : float := Float32.zero.
Definition MAX_TIME_SKIP : float := Float32.one.
Definition EPSILON_ANGULAR_VELOCITY_LENGTH : float :=
  Float32.ratio 17453 10000000.
Definition EPSILON_LINEAR_VELOCITY_LENGTH : float := Float32.ratio 1 1000.

(** The [while (dt > PHYSICS_ENGINE_FIXED_SUBSTEP)] loop on (dt,
    rotation).  A run that ends never meets the same [dt] twice, and
    there are fewer than 2^32 values of [dt]: that many rounds are
    enough for every run that ends. *)
Definition rotationSubstep (angularVelocity : vec3) (s : float * quat)
  : (float * quat) + (float * quat) :=
  let '(dt, rotation) := s in
  if Float32.gtb dt PHYSICS_ENGINE_FIXED_SUBSTEP
  then
    let dQ :=
      computeBulletRotationStep angularVelocity
                                PHYSICS_ENGINE_FIXED_SUBSTEP in
    inr (Float32.sub dt PHYSICS_ENGINE_FIXED_SUBSTEP,
         quat_normalize (quat_mul dQ rotation))
  else inl s.

Definition integrateRotation (angularVelocity : vec3) (timeElapsed : float)
           (rotation : quat) : quat :=
  let '(dt, rotation) :=
    out_of (while_pos (2 ^ 32) (rotationSubstep angularVelocity)
                      (timeElapsed, rotation)) in
  let dQ := computeBulletRotationStep angularVelocity dt in
  quat_normalize (quat_mul dQ rotation).

Definition simulateAngular (timeElapsed : float) (setFlags : bool)
           (e : EntityItem) : EntityItem :=
  let e :=
    if Float32.gtb (_angularDamping e) Float32.zero
    then put_angularVelocity
           (Vec3.scale (_angularVelocity e)
              (powf (Float32.sub Float32.one (_angularDamping e))
                    timeElapsed)) e
    else e in
  let angularSpeed := Vec3.length (_angularVelocity e) in
  if Float32.ltb angularSpeed EPSILON_ANGULAR_VELOCITY_LENGTH
  then
    let e :=
      if setFlags && Float32.gtb angularSpeed Float32.zero
      then or_dirty DIRTY_MOTION_TYPE e else e in
    put_angularVelocity ENTITY_ITEM_ZERO_VEC3 e
  else
    setRotation
      (integrateRotation (_angularVelocity e) timeElapsed (getRotation e)) e.

Definition simulateLinear (timeElapsed : float) (setFlags : bool)
           (e : EntityItem) : EntityItem :=
  let velocity := _velocity e in
  let velocity :=
    if Float32.gtb (_damping e) Float32.zero
    then Vec3.scale velocity
           (powf (Float32.sub Float32.one (_damping e)) timeElapsed)
    else velocity in
  let position := getPosition e in
  let newPosition := Vec3.add position (Vec3.scale velocity timeElapsed) in
  let position := newPosition in
  let velocity :=
    if hasAcceleration e
    then Vec3.add velocity (Vec3.scale (_acceleration e) timeElapsed)
    else velocity in
  let speed := Vec3.length velocity in
  if Float32.ltb speed EPSILON_LINEAR_VELOCITY_LENGTH
  then
    let e := setVelocity ENTITY_ITEM_ZERO_VEC3 e in
    if setFlags && Float32.gtb speed Float32.zero
    then or_dirty DIRTY_MOTION_TYPE e else e
  else setVelocity velocity (setPosition position e).

Definition simulateKinematicMotion (timeElapsed : float) (setFlags : bool)
           (e : EntityItem) : EntityItem :=
  let timeElapsed := Float32.clamp timeElapsed MIN_TIME_SKIP MAX_TIME_SKIP in
  if hasActions e then e
  else
    let e :=
      if hasAngularVelocity e then simulateAngular timeElapsed setFlags e
      else e in
    if hasVelocity e then simulateLinear timeElapsed setFlags e else e.

Definition simulate (now : quint64) (e : EntityItem) : EntityItem :=
  let e := if _lastSimulated e =? 0 then put_lastSimulated now e else e in
  let timeElapsed :=
    Float32.div (Float32.of_Z (wrap64 (now - _lastSimulated e)))
                (Float32.of_Z USECS_PER_SECOND) in
  put_lastSimulated now (simulateKinematicMotion timeElapsed true e).

Definition recordCreationTime (now : quint64) (e : EntityItem) : EntityItem :=
  let e :=
    if _created e =? UNKNOWN_CREATED_TIME then put_created now e else e in
  put_lastSimulated now (put_lastUpdated now (put_lastEdited (_created e) e)).

(** *** Bounding cube sent as the query cube *)

Definition getMaximumAACube (e : EntityItem) : AACube * EntityItem :=
  if _recalcMaxAACube e then
    let centerOfRotation := getPosition e in
    let registrationPoint :=
      Vec3.mulv (getDimensions e) (_registrationPoint e) in
    let registrationRemainder :=
      Vec3.mulv (getDimensions e)
        (Vec3.sub (Vec3.splat Float32.one) (_registrationPoint e)) in
    let furthestExtentFromRegistration :=
      Vec3.maxv registrationPoint registrationRemainder in
    let radius := Vec3.length furthestExtentFromRegistration in
    let minimumCorner := Vec3.sub centerOfRotation (Vec3.splat radius) in
    let cube :=
      mkAACube minimumCorner (Float32.mul radius (Float32.of_Z 2)) in
    (cube, put_recalcMaxAACube false (put_maxAACube cube e))
  else (_maxAACube e, e).

Definition getQueryAACube (e : EntityItem) : AACube * EntityItem :=
  if _queryAACubeSet e then (_queryAACube e, e)
  else
    let '(result, e) := getMaximumAACube e in
    (result, put_queryAACubeSet true (put_queryAACube result e)).
End Mutators.

(** ** The action ledger *)

Definition _maxActionsDataSize : Z := 800.
Definition _rememberDeletedActionTime : quint64 := 20 * USECS_PER_SECOND.

Section ActionLedger.
Context `{SimulationFlags} `{EntityActionFactoryInterface}.

(** [serializeActions(success, result)]: the pair (success, result), from
    the array [result] the caller hands in.  An empty ledger clears the
    array; otherwise the actions are written over it from its front, and
    the size that is tested is the size of the array afterwards.  The
    hash is walked in its own order; the calls into the EntitySimulation
    registry concern that object, not the record, and are left out here
    and below. *)
Definition serializeActions (result : QByteArray) (e : EntityItem)
  : bool * QByteArray :=
  if bool_decide (_objectActions e = ∅) then (true, [])
  else
    let serializedActions :=
      map (fun kv => action_serialize (snd kv))
          (map_to_list (_objectActions e)) in
    let result :=
      QDataStream.write_over (QDataStream.write_QVector serializedActions)
                             result in
    if Z.of_nat (length result) >=? _maxActionsDataSize
    then (false, result)
    else (true, result).

Definition removeActionInternal (actionID : QUuid) (now : quint64)
           (e : EntityItem) : bool * EntityItem :=
  let e :=
    put_previouslyDeletedActions
      (<[actionID := now]> (_previouslyDeletedActions e)) e in
  match _objectActions e !! actionID with
  | Some action =>
      let e := put_objectActions (delete actionID (_objectActions e)) e in
      let '(success, data) := serializeActions (_allActionsDataCache e) e in
      let e := put_allActionsDataCache data e in
      let e := or_dirty DIRTY_PHYSICS_ACTIVATION e in
      let e := setActionDataNeedsTransmit true e in
      (success, e)
  | None => (false, e)
  end.

Definition checkWaitingToRemove (now : quint64) (e : EntityItem)
  : EntityItem :=
  let e :=
    fold_left (fun e actionID => snd (removeActionInternal actionID now e))
              (_actionsToRemove e) e in
  put_actionsToRemove [] e.

Definition addActionInternal (action : EntityAction) (e : EntityItem)
  : bool * EntityItem :=
  let actionID := act_id action in
  let e := put_objectActions (<[actionID := action]> (_objectActions e)) e in
  let '(success, newDataCache) := serializeActions [] e in
  if success
  then (true,
        or_dirty DIRTY_PHYSICS_ACTIVATION
                 (put_allActionsDataCache newDataCache e))
  else (false, e).

(** The action is an object shared with the hash: setting its flag after
    the insertion sets it in the ledger. *)
Definition markAction (flag : bool) (actionID : QUuid) (e : EntityItem)
  : EntityItem :=
  put_objectActions
    (alter (act_setReceived flag) actionID (_objectActions e)) e.

Definition addAction (action : EntityAction) (now : quint64)
           (e : EntityItem) : bool * EntityItem :=
  let e := checkWaitingToRemove now e in
  let '(result, e) := addActionInternal action e in
  if negb result
  then (result, snd (removeActionInternal (act_id action) now e))
  else (result, markAction true (act_id action) e).

Definition removeAction (actionID : QUuid) (now : quint64) (e : EntityItem)
  : bool * EntityItem :=
  let e := checkWaitingToRemove now e in
  removeActionInternal actionID now e.

Definition clearActions (e : EntityItem) : bool * EntityItem :=
  let e := put_objectActions ∅ e in
  let e := put_actionsToRemove [] e in
  let e := put_allActionsDataCache [] e in
  (true, or_dirty DIRTY_PHYSICS_ACTIVATION e).

(** One round of the [foreach] over the incoming actions: the record and
    the set [updated]. *)
Definition deserializeOne (st : EntityItem * gset QUuid)
           (serializedAction : QByteArray) : EntityItem * gset QUuid :=
  let '(e, updated) := st in
  let actionID := stream_actionID serializedAction in
  if bool_decide (is_Some (_previouslyDeletedActions e !! actionID))
  then st
  else
    let updated := updated ∪ {[actionID]} in
    match _objectActions e !! actionID with
    | Some action =>
        (put_objectActions
           (<[actionID :=
                act_setReceived false
                  (action_deserialize serializedAction action)]>
              (_objectActions e)) e,
         updated)
    | None =>
        match factoryBA serializedAction with
        | Some action =>
            let e := snd (addActionInternal action e) in
            (markAction false (act_id action) e, updated)
        | None => (e, updated)
        end
    end.

(** One round of the loop that drops what the new data did not name. *)
Definition scheduleRemoval (updated : gset QUuid) (now : quint64)
           (e : EntityItem) (kv : QUuid * EntityAction) : EntityItem :=
  let '(id, action) := kv in
  if negb (bool_decide (id ∈ updated))
  then
    if negb (locallyAddedButNotYetReceived action)
    then
      put_previouslyDeletedActions
        (<[id := now]> (_previouslyDeletedActions e))
        (put_actionsToRemove (_actionsToRemove e ++ [id]) e)
    else e
  else e.

Definition trimPreviouslyDeleted (now : quint64)
           (deleted : gmap QUuid quint64) : gmap QUuid quint64 :=
  filter (fun kv => ¬ (wrap64 (now - snd kv) > _rememberDeletedActionTime))
         deleted.

Definition deserializeActionsInternal (now : quint64) (e : EntityItem)
  : EntityItem :=
  match _element e with
  | None => e
  | Some _ =>
      let serializedActions :=
        if (0 <? length (_allActionsDataCache e))%nat
        then QDataStream.read_QVector (_allActionsDataCache e)
        else [] in
      let '(e, updated) :=
        fold_left deserializeOne serializedActions (e, ∅) in
      let e :=
        fold_left (scheduleRemoval updated now)
                  (map_to_list (_objectActions e)) e in
      let e :=
        put_previouslyDeletedActions
          (trimPreviouslyDeleted now (_previouslyDeletedActions e)) e in
      put_actionDataDirty true e
  end.

Definition setActionDataInternal (actionData : QByteArray) (now : quint64)
           (e : EntityItem) : EntityItem :=
  let e :=
    if negb (QByteArray_eqb (_allActionsDataCache e) actionData)
    then deserializeActionsInternal now
           (put_allActionsDataCache actionData e)
    else e in
  checkWaitingToRemove now e.

Definition setActionData := setActionDataInternal.

(** [getActionData]: the bytes and the record with its mutable cache. *)
Definition getActionDataInternal (e : EntityItem) : QByteArray * EntityItem :=
  if _actionDataDirty e
  then
    let '(success, data) := serializeActions (_allActionsDataCache e) e in
    let e := put_allActionsDataCache data e in
    let e := if success then put_actionDataDirty false e else e in
    (_allActionsDataCache e, e)
  else (_allActionsDataCache e, e).

Definition getActionData := getActionDataInternal.
End ActionLedger.

(** ** setProperties *)

(** Modelled from the spec: EntityItemProperties and its macros are not
    among the sources.  A property set holds, per property, a value and
    whether it was changed: [Some v] is a changed property of value [v].
    [created] keeps its value apart from the mark, for [setProperties]
    reads it either way. *)
Record EntityItemProperties := mkEntityItemProperties {
  p_simulationOwner : option SimulationOwner;
  p_position : option vec3;
  p_rotation : option quat;
  p_velocity : option vec3;
  p_angularVelocity : option vec3;
  p_acceleration : option vec3;
  p_dimensions : option vec3;
  p_registrationPoint : option vec3;
  p_density : option float;
  p_gravity : option vec3;
  p_damping : option float;
  p_angularDamping : option float;
  p_restitution : option float;
  p_friction : option float;
  p_collisionless : option bool;
  p_collisionMask : option Z;
  p_dynamic : option bool;
  p_created : quint64;
  p_createdChanged : bool;
  p_lifetime : option float;
  p_script : option string;
  p_scriptTimestamp : option quint64;
  p_collisionSoundURL : option string;
  p_glowLevel : option float;
  p_localRenderAlpha : option float;
  p_visible : option bool;
  p_locked : option bool;
  p_userData : option string;
  p_marketplaceID : option string;
  p_name : option string;
  p_href : option string;
  p_description : option string;
  p_actionData : option QByteArray;
  p_parentID : option QUuid;
  p_parentJointIndex : option Z;
  p_queryAACube : option AACube
}.

(** [SET_ENTITY_PROPERTY_FROM_PROPERTIES(P, M)] on the pair (record,
    somethingChanged). *)
Definition SET_ENTITY_PROPERTY_FROM_PROPERTIES {T : Type} (p : option T)
           (M : T -> EntityItem -> EntityItem) (st : EntityItem * bool)
  : EntityItem * bool :=
  match p with
  | Some v => (M v (fst st), true)
  | None => st
  end.

Section SetProperties.
Context `{GlmCommon} `{SimulationFlags} `{PhysicsCollisionGroups}
        `{EntityItemPropertiesDefaults} `{EntityActionFactoryInterface}.

Definition setProperties (properties : EntityItemProperties) (now : quint64)
           (e : EntityItem) : bool * EntityItem :=
  let st := (e, false) in
  let st := SET_ENTITY_PROPERTY_FROM_PROPERTIES (p_simulationOwner properties) updateSimulationOwner st in
  let st := SET_ENTITY_PROPERTY_FROM_PROPERTIES (p_position properties) updatePosition st in
  let st := SET_ENTITY_PROPERTY_FROM_PROPERTIES (p_rotation properties) updateRotation st in
  let st := SET_ENTITY_PROPERTY_FROM_PROPERTIES (p_velocity properties) updateVelocity st in
  let st := SET_ENTITY_PROPERTY_FROM_PROPERTIES (p_angularVelocity properties) updateAngularVelocity st in
  let st := SET_ENTITY_PROPERTY_FROM_PROPERTIES (p_acceleration properties) setAcceleration st in
  let st := SET_ENTITY_PROPERTY_FROM_PROPERTIES (p_dimensions properties) updateDimensions st in
  let st := SET_ENTITY_PROPERTY_FROM_PROPERTIES (p_registrationPoint properties) setRegistrationPoint st in
  let st := SET_ENTITY_PROPERTY_FROM_PROPERTIES (p_density properties) updateDensity st in
  let st := SET_ENTITY_PROPERTY_FROM_PROPERTIES (p_gravity properties) updateGravity st in
  let st := SET_ENTITY_PROPERTY_FROM_PROPERTIES (p_damping properties) updateDamping st in
  let st := SET_ENTITY_PROPERTY_FROM_PROPERTIES (p_angularDamping properties) updateAngularDamping st in
  let st := SET_ENTITY_PROPERTY_FROM_PROPERTIES (p_restitution properties) updateRestitution st in
  let st := SET_ENTITY_PROPERTY_FROM_PROPERTIES (p_friction properties) updateFriction st in
  let st := SET_ENTITY_PROPERTY_FROM_PROPERTIES (p_collisionless properties) updateCollisionless st in
  let st := SET_ENTITY_PROPERTY_FROM_PROPERTIES (p_collisionMask properties) updateCollisionMask st in
  let st := SET_ENTITY_PROPERTY_FROM_PROPERTIES (p_dynamic properties) updateDynamic st in
  let st :=
    SET_ENTITY_PROPERTY_FROM_PROPERTIES
      (if p_createdChanged properties then Some (p_created properties)
       else None) updateCreated st in
  let st := SET_ENTITY_PROPERTY_FROM_PROPERTIES (p_lifetime properties) updateLifetime st in
  let st := SET_ENTITY_PROPERTY_FROM_PROPERTIES (p_script properties) setScript st in
  let st := SET_ENTITY_PROPERTY_FROM_PROPERTIES (p_scriptTimestamp properties) setScriptTimestamp st in
  let st := SET_ENTITY_PROPERTY_FROM_PROPERTIES (p_collisionSoundURL properties) setCollisionSoundURL st in
  let st := SET_ENTITY_PROPERTY_FROM_PROPERTIES (p_glowLevel properties) setGlowLevel st in
  let st := SET_ENTITY_PROPERTY_FROM_PROPERTIES (p_localRenderAlpha properties) setLocalRenderAlpha st in
  let st := SET_ENTITY_PROPERTY_FROM_PROPERTIES (p_visible properties) setVisible st in
  let st := SET_ENTITY_PROPERTY_FROM_PROPERTIES (p_locked properties) setLocked st in
  let st := SET_ENTITY_PROPERTY_FROM_PROPERTIES (p_userData properties) setUserData st in
  let st := SET_ENTITY_PROPERTY_FROM_PROPERTIES (p_marketplaceID properties) setMarketplaceID st in
  let st := SET_ENTITY_PROPERTY_FROM_PROPERTIES (p_name properties) setName st in
  let st := SET_ENTITY_PROPERTY_FROM_PROPERTIES (p_href properties) setHref st in
  let st := SET_ENTITY_PROPERTY_FROM_PROPERTIES (p_description properties) setDescription st in
  let st := SET_ENTITY_PROPERTY_FROM_PROPERTIES (p_actionData properties) (fun d => setActionData d now) st in
  let st := SET_ENTITY_PROPERTY_FROM_PROPERTIES (p_parentID properties) setParentID st in
  let st := SET_ENTITY_PROPERTY_FROM_PROPERTIES (p_parentJointIndex properties) setParentJointIndex st in
  let st := SET_ENTITY_PROPERTY_FROM_PROPERTIES (p_queryAACube properties) setQueryAACube st in
  let somethingChanged := snd st in
  let e := fst st in
  let e :=
    if somethingChanged then
      let e := setLastEdited now e in
      if negb (Z.land (_dirtyFlags e) (Z.lor DIRTY_TRANSFORM DIRTY_VELOCITIES)
               =? 0)
      then put_lastSimulated now e
      else e
    else e in
  let timestamp := p_created properties in
  let e :=
    if (_created e =? UNKNOWN_CREATED_TIME)
       && negb (timestamp =? UNKNOWN_CREATED_TIME)
    then
      let timestamp := if timestamp >? now then now else timestamp in
      put_created timestamp e
    else e in
  (somethingChanged, e).
End SetProperties.

(** ** The packet writer *)

(** Modelled from the spec: OctreePacketData is not among the sources.  It
    is "a packet-buffer sink providing startLevel / endLevel /
    discardLevel / appendRawData / appendValue / updatePriorBytes /
    getUncompressedByteOffset (transactional, rollback-capable byte
    writer)": the bytes written so far and the byte budget. *)
Record OctreePacketData := mkOctreePacketData {
  pd_bytes : QByteArray;
  pd_budget : nat
}.

Definition appendRawData (b : QByteArray) (pd : OctreePacketData)
  : bool * OctreePacketData :=
  if (length (pd_bytes pd) + length b <=? pd_budget pd)%nat
  then (true, mkOctreePacketData (pd_bytes pd ++ b) (pd_budget pd))
  else (false, pd).
Definition appendValue {T : Type} (w : Wire T) (v : T) (pd : OctreePacketData)
  : bool * OctreePacketData := appendRawData (pack w v) pd.
Definition getUncompressedByteOffset (pd : OctreePacketData) : nat :=
  length (pd_bytes pd).
Definition getUncompressedSize (pd : OctreePacketData) : nat :=
  length (pd_bytes pd).
(** A level is the offset it started at; discarding it rolls back to there. *)
Definition startLevel (pd : OctreePacketData) : nat := length (pd_bytes pd).
Definition discardLevel (level : nat) (pd : OctreePacketData)
  : OctreePacketData :=
  mkOctreePacketData (take level (pd_bytes pd)) (pd_budget pd).
Definition endLevel (level : nat) (pd : OctreePacketData) : OctreePacketData :=
  pd.
(** Overwrites bytes already written; nothing happens past the end. *)
Definition updatePriorBytes (offset : nat) (replacement : QByteArray)
           (pd : OctreePacketData) : OctreePacketData :=
  if (offset + length replacement <=? length (pd_bytes pd))%nat
  then mkOctreePacketData
         (take offset (pd_bytes pd) ++ replacement
          ++ drop (offset + length replacement) (pd_bytes pd))
         (pd_budget pd)
  else pd.
Definition getUncompressedData (offset : nat) (pd : OctreePacketData)
  : QByteArray := drop offset (pd_bytes pd).
Definition setUncompressedSize (newSize : nat) (pd : OctreePacketData)
  : OctreePacketData :=
  mkOctreePacketData (take newSize (pd_bytes pd)) (pd_budget pd).

Inductive AppendState := COMPLETED | PARTIAL | NONE.

Definition AppendState_eqb (a b : AppendState) : bool :=
  match a, b with
  | COMPLETED, COMPLETED | PARTIAL, PARTIAL | NONE, NONE => true
  | _, _ => false
  end.

Record EncodeState := mkEncodeState {
  es_packetData : OctreePacketData;
  es_propertyFlags : EntityPropertyFlags;
  es_propertiesDidntFit : EntityPropertyFlags;
  es_propertyCount : nat;
  es_appendState : AppendState
}.

(** ** The encoder *)

Section Encoder.
Context `{GlmCommon} `{PropertyFlagBits} `{OctreeWire} `{SimulationFlags}
        `{PhysicsHelpers} `{EntityActionFactoryInterface}.

Definition getEntityProperties : EntityPropertyFlags :=
  fold_left flags_add
    [PROP_SIMULATION_OWNER; PROP_POSITION; PROP_ROTATION; PROP_VELOCITY;
     PROP_ANGULAR_VELOCITY; PROP_ACCELERATION; PROP_DIMENSIONS;
     PROP_DENSITY; PROP_GRAVITY; PROP_DAMPING; PROP_RESTITUTION;
     PROP_FRICTION; PROP_LIFETIME; PROP_SCRIPT; PROP_SCRIPT_TIMESTAMP;
     PROP_COLLISION_SOUND_URL; PROP_REGISTRATION_POINT;
     PROP_ANGULAR_DAMPING; PROP_VISIBLE; PROP_COLLISIONLESS;
     PROP_COLLISION_MASK; PROP_DYNAMIC; PROP_LOCKED; PROP_USER_DATA;
     PROP_MARKETPLACE_ID; PROP_NAME; PROP_HREF; PROP_DESCRIPTION;
     PROP_ACTION_DATA; PROP_PARENT_ID; PROP_PARENT_JOINT_INDEX;
     PROP_QUERY_AA_CUBE] 0%N.

(** Modelled from the spec: EntityItemPropertiesMacros.h is not among the
    sources.  "each flagged property's payload in fixed declared order";
    "properties are dropped [...]; the flags bitset is rewritten to
    reflect only what fit, and the set of properties that didn't fit is
    returned to the caller".  [V] is the property's value as
    [appendValue] writes it. *)
Definition APPEND_ENTITY_PROPERTY (requestedProperties : EntityPropertyFlags)
           (st : EncodeState) (PV : EntityPropertyList * QByteArray)
  : EncodeState :=
  let '(P, V) := PV in
  if getHasProperty requestedProperties P then
    let propertyLevel := startLevel (es_packetData st) in
    let fits := appendRawData V (es_packetData st) in
    if fst fits
    then mkEncodeState (endLevel propertyLevel (snd fits))
           (flags_add (es_propertyFlags st) P)
           (flags_sub (es_propertiesDidntFit st) P)
           (S (es_propertyCount st)) (es_appendState st)
    else mkEncodeState (discardLevel propertyLevel (snd fits))
           (es_propertyFlags st) (es_propertiesDidntFit st)
           (es_propertyCount st) PARTIAL
  else mkEncodeState (es_packetData st) (es_propertyFlags st)
         (flags_sub (es_propertiesDidntFit st) P)
         (es_propertyCount st) (es_appendState st).

(** The [APPEND_ENTITY_PROPERTY] lines of [appendEntityData], in their
    order: the property and its value on the wire. *)
Definition entityPropertyValues (e : EntityItem)
  : list (EntityPropertyList * QByteArray) :=
  [ (PROP_SIMULATION_OWNER,
     pack wire_QByteArray (SimulationOwner_toByteArray (_simulationOwner e)));
    (PROP_POSITION, pack wire_vec3 (getLocalPosition e));
    (PROP_ROTATION, pack wire_quat (getLocalOrientation e));
    (PROP_VELOCITY, pack wire_vec3 (_velocity e));
    (PROP_ANGULAR_VELOCITY, pack wire_vec3 (_angularVelocity e));
    (PROP_ACCELERATION, pack wire_vec3 (_acceleration e));
    (PROP_DIMENSIONS, pack wire_vec3 (getDimensions e));
    (PROP_DENSITY, pack wire_float (_density e));
    (PROP_GRAVITY, pack wire_vec3 (_gravity e));
    (PROP_DAMPING, pack wire_float (_damping e));
    (PROP_RESTITUTION, pack wire_float (_restitution e));
    (PROP_FRICTION, pack wire_float (_friction e));
    (PROP_LIFETIME, pack wire_float (_lifetime e));
    (PROP_SCRIPT, pack wire_QString (_script e));
    (PROP_SCRIPT_TIMESTAMP, pack wire_quint64 (_scriptTimestamp e));
    (PROP_REGISTRATION_POINT, pack wire_vec3 (_registrationPoint e));
    (PROP_ANGULAR_DAMPING, pack wire_float (_angularDamping e));
    (PROP_VISIBLE, pack wire_bool (_visible e));
    (PROP_COLLISIONLESS, pack wire_bool (_collisionless e));
    (PROP_COLLISION_MASK, pack wire_uint8 (_collisionMask e));
    (PROP_DYNAMIC, pack wire_bool (_dynamic e));
    (PROP_LOCKED, pack wire_bool (_locked e));
    (PROP_USER_DATA, pack wire_QString (_userData e));
    (PROP_MARKETPLACE_ID, pack wire_QString (_marketplaceID e));
    (PROP_NAME, pack wire_QString (_name e));
    (PROP_COLLISION_SOUND_URL, pack wire_QString (_collisionSoundURL e));
    (PROP_HREF, pack wire_QString (_href e));
    (PROP_DESCRIPTION, pack wire_QString (_description e));
    (PROP_ACTION_DATA, pack wire_QByteArray (fst (getActionData e)));
    (PROP_PARENT_ID, pack wire_QUuid (_parentID e));
    (PROP_PARENT_JOINT_INDEX, pack wire_quint16 (_parentJointIndex e));
    (PROP_QUERY_AA_CUBE, pack wire_AACube (fst (getQueryAACube e))) ].

(** The part of [appendEntityData] after the items have been written:
    the flags are written again, and everything after them moves down
    when they got shorter. *)
Definition rewritePropertyFlags (propertyFlagsOffset oldPropertyFlagsLength
                                 startOfEntityItemData : nat)
           (propertyFlags : EntityPropertyFlags) (pd : OctreePacketData)
  : OctreePacketData :=
  let endOfEntityItemData := getUncompressedByteOffset pd in
  let encodedPropertyFlags := pack wire_flags propertyFlags in
  let newPropertyFlagsLength := length encodedPropertyFlags in
  let pd := updatePriorBytes propertyFlagsOffset encodedPropertyFlags pd in
  if (newPropertyFlagsLength <? oldPropertyFlagsLength)%nat then
    let oldSize := getUncompressedSize pd in
    let modelItemDataLength :=
      (endOfEntityItemData - startOfEntityItemData)%nat in
    let modelItemData :=
      take modelItemDataLength
        (getUncompressedData
           (propertyFlagsOffset + oldPropertyFlagsLength) pd) in
    let newEntityItemDataStart :=
      (propertyFlagsOffset + newPropertyFlagsLength)%nat in
    let pd := updatePriorBytes newEntityItemDataStart modelItemData pd in
    let newSize :=
      (oldSize - (oldPropertyFlagsLength - newPropertyFlagsLength))%nat in
    setUncompressedSize newSize pd
  else pd.

(** [appendEntityData]: the append state, the packet and the extra encode
    data of the tree element.  The extra encode data is a pointer that may
    be null ([None]); the source tests it before it reads the properties
    asked for, and enters the entity in it, untested, when the append is
    not completed: with a null pointer that is a fault, and the function
    has no result ([None]).  The getters are [const] in the source and
    refresh caches of the sender on the way; the packet does not depend
    on that.  [appendSubclassData] of the base class writes nothing, and
    [trackSend] is book-keeping of the caller. *)
Definition appendEntityData (packetData : OctreePacketData)
           (entityTreeElementExtraEncodeData
            : option (gmap QUuid EntityPropertyFlags))
           (e : EntityItem)
  : option (AppendState * OctreePacketData
            * option (gmap QUuid EntityPropertyFlags)) :=
  let appendState := COMPLETED in
  let encodedID := pack wire_rfc4122 (_id e) in
  let encodedType := pack wire_count32 (_type e) in
  let updateDelta :=
    if _lastUpdated e <=? _lastEdited e then 0
    else wrap64 (_lastUpdated e - _lastEdited e) in
  let encodedUpdateDelta := pack wire_count64 updateDelta in
  let simulatedDelta :=
    if _lastSimulated e <=? _lastEdited e then 0
    else wrap64 (_lastSimulated e - _lastEdited e) in
  let encodedSimulatedDelta := pack wire_count64 simulatedDelta in
  let propertyFlags := flags_add 0%N PROP_LAST_ITEM in
  let requestedProperties := getEntityProperties in
  let propertiesDidntFit := requestedProperties in
  let requestedProperties :=
    match entityTreeElementExtraEncodeData with
    | Some entities =>
        match entities !! _id e with
        | Some requested => requested
        | None => requestedProperties
        end
    | None => requestedProperties
    end in
  let entityLevel := startLevel packetData in
  let lastEdited := _lastEdited e in
  let idFits := appendRawData encodedID packetData in
  let successIDFits := fst idFits in
  let typeFits :=
    if successIDFits then appendRawData encodedType (snd idFits)
    else (false, snd idFits) in
  let successTypeFits := fst typeFits in
  let createdFits :=
    if successTypeFits then appendValue wire_quint64 (_created e) (snd typeFits)
    else (false, snd typeFits) in
  let successCreatedFits := fst createdFits in
  let lastEditedFits :=
    if successCreatedFits
    then appendValue wire_quint64 lastEdited (snd createdFits)
    else (false, snd createdFits) in
  let successLastEditedFits := fst lastEditedFits in
  let lastUpdatedFits :=
    if successLastEditedFits
    then appendRawData encodedUpdateDelta (snd lastEditedFits)
    else (false, snd lastEditedFits) in
  let successLastUpdatedFits := fst lastUpdatedFits in
  let lastSimulatedFits :=
    if successLastUpdatedFits
    then appendRawData encodedSimulatedDelta (snd lastUpdatedFits)
    else (false, snd lastUpdatedFits) in
  let successLastSimulatedFits := fst lastSimulatedFits in
  let propertyFlagsOffset :=
    if successLastSimulatedFits
    then getUncompressedByteOffset (snd lastSimulatedFits) else 0%nat in
  let oldPropertyFlagsLength :=
    if successLastSimulatedFits
    then length (pack wire_flags propertyFlags) else 0%nat in
  let propertyFlagsFits :=
    if successLastSimulatedFits
    then appendRawData (pack wire_flags propertyFlags) (snd lastSimulatedFits)
    else (false, snd lastSimulatedFits) in
  let successPropertyFlagsFits := fst propertyFlagsFits in
  let packetData := snd propertyFlagsFits in
  let headerFits :=
    successIDFits && successTypeFits && successCreatedFits
    && successLastEditedFits && successLastUpdatedFits
    && successPropertyFlagsFits in
  let startOfEntityItemData := getUncompressedByteOffset packetData in
  let st :=
    mkEncodeState packetData propertyFlags propertiesDidntFit 0%nat
                  appendState in
  let st :=
    if headerFits then
      let st :=
        mkEncodeState (es_packetData st)
          (flags_sub (es_propertyFlags st) PROP_LAST_ITEM)
          (es_propertiesDidntFit st) (es_propertyCount st)
          (es_appendState st) in
      fold_left (APPEND_ENTITY_PROPERTY requestedProperties)
                (entityPropertyValues e) st
    else st in
  let packetData := es_packetData st in
  let result :=
    if (0 <? es_propertyCount st)%nat then
      (es_appendState st,
       endLevel entityLevel
         (rewritePropertyFlags propertyFlagsOffset oldPropertyFlagsLength
            startOfEntityItemData (es_propertyFlags st) packetData))
    else (NONE, discardLevel entityLevel packetData) in
  let appendState := fst result in
  if negb (AppendState_eqb appendState COMPLETED)
  then
    match entityTreeElementExtraEncodeData with
    | Some entities =>
        Some (appendState, snd result,
              Some (<[_id e := es_propertiesDidntFit st]> entities))
    | None => None
    end
  else Some (appendState, snd result, entityTreeElementExtraEncodeData).
End Encoder.

(** ** The decoder *)

Record ReadBitstreamToTreeParams := mkReadBitstreamToTreeParams {
  bitstreamVersion : Z;
  sourceUUID : QUuid;
  (** the clock skew of the source node in microseconds, when there is one *)
  sourceNode : option Z;
  entitiesPerPacket : Z
}.

Record ReadState := mkReadState {
  rs_entity : EntityItem;
  rs_dataAt : QByteArray;
  rs_bytesRead : nat;
  rs_somethingChanged : bool
}.

Definition MINIMUM_HEADER_BYTES : nat := 27.

Section Decoder.
Context `{GlmCommon} `{PropertyFlagBits} `{OctreeWire} `{SimulationFlags}
        `{PhysicsCollisionGroups} `{EntityItemPropertiesDefaults}
        `{PacketVersions} `{PhysicsHelpers}
        `{EntityActionFactoryInterface}.

(** The parser: the bytes still to read and the offset reached. *)
Definition parser_read {T : Type} (w : Wire T) (p : QByteArray * nat)
  : T * (QByteArray * nat) :=
  let r := unpack w (fst p) in
  (fst r, (drop (snd r) (fst p), (snd p + snd r)%nat)).

(** Modelled from the spec: EntityItemPropertiesMacros.h is not among the
    sources.  The decoder "iterates only the flagged properties in the
    same fixed declared order used by the encoder"; a flagged property
    is read off the wire either way and applied when the local data may
    be overwritten. *)
Definition READ_ENTITY_PROPERTY {T : Type}
           (propertyFlags : EntityPropertyFlags) (overwriteLocalData : bool)
           (P : EntityPropertyList) (w : Wire T)
           (S : T -> EntityItem -> EntityItem) (st : ReadState)
  : ReadState :=
  if getHasProperty propertyFlags P then
    let r := unpack w (rs_dataAt st) in
    let fromBuffer := fst r in
    let bytes := snd r in
    mkReadState
      (if overwriteLocalData then S fromBuffer (rs_entity st)
       else rs_entity st)
      (drop bytes (rs_dataAt st)) (rs_bytesRead st + bytes)%nat true
  else st.

(** The [_created] block. *)
Definition acceptCreated (createdFromBuffer : quint64) (clockSkew : Z)
           (now : quint64) (e : EntityItem) : EntityItem :=
  if _created e =? UNKNOWN_CREATED_TIME then
    let createdFromBuffer := wrap64 (createdFromBuffer - clockSkew) in
    let createdFromBuffer :=
      if (createdFromBuffer >? now)
         || (createdFromBuffer =? UNKNOWN_CREATED_TIME)
      then now else createdFromBuffer in
    put_created createdFromBuffer e
  else e.

Definition adjustLastEdited (lastEditedFromBuffer : quint64) (clockSkew : Z)
           (now : quint64) : quint64 :=
  let lastEditedFromBufferAdjusted :=
    wrap64 (lastEditedFromBuffer - clockSkew) in
  if lastEditedFromBufferAdjusted >? now then now
  else lastEditedFromBufferAdjusted.

Definition ignoreServerPacket (lastEditedFromBuffer
                               lastEditedFromBufferAdjusted : quint64)
           (e : EntityItem) : bool :=
  let fromSameServerEdit :=
    lastEditedFromBuffer =? _lastEditedFromRemoteInRemoteTime e in
  let ignoreServerPacket := false in
  let ignoreServerPacket :=
    if fromSameServerEdit then
      if _lastEdited e >? _lastEditedFromRemote e then true
      else ignoreServerPacket
    else
      if _lastEdited e >? lastEditedFromBufferAdjusted then true
      else ignoreServerPacket in
  match getTree e with
  | Some tree =>
      if isDeletedEntity tree (_id e) then true else ignoreServerPacket
  | None => ignoreServerPacket
  end.

(** The simulation owner is unpacked even from an ignored packet. *)
Definition readSimulationOwner (propertyFlags : EntityPropertyFlags)
           (st : ReadState) : ReadState :=
  if getHasProperty propertyFlags PROP_SIMULATION_OWNER then
    let r := unpack wire_QByteArray (rs_dataAt st) in
    let simOwnerData := fst r in
    let bytes := snd r in
    let newSimOwner := SimulationOwner_fromByteArray simOwnerData in
    let e := rs_entity st in
    let changed := SimulationOwner_set (_simulationOwner e) newSimOwner in
    let e := put_simulationOwner (snd changed) e in
    let e := if fst changed then or_dirty DIRTY_SIMULATOR_ID e else e in
    mkReadState e (drop bytes (rs_dataAt st)) (rs_bytesRead st + bytes)%nat
                (rs_somethingChanged st)
  else st.

(** The block that reads the transform and the velocities with
    [overwriteLocalData && !weOwnSimulation]. *)
Definition readTerseProperties (propertyFlags : EntityPropertyFlags)
           (overwriteLocalData weOwnSimulation : bool) (st : ReadState)
  : ReadState :=
  let oldOverwrite := overwriteLocalData in
  let overwriteLocalData := overwriteLocalData && negb weOwnSimulation in
  let st := READ_ENTITY_PROPERTY propertyFlags overwriteLocalData PROP_POSITION wire_vec3 updatePosition st in
  let st := READ_ENTITY_PROPERTY propertyFlags overwriteLocalData PROP_ROTATION wire_quat updateRotation st in
  let st := READ_ENTITY_PROPERTY propertyFlags overwriteLocalData PROP_VELOCITY wire_vec3 updateVelocity st in
  let st := READ_ENTITY_PROPERTY propertyFlags overwriteLocalData PROP_ANGULAR_VELOCITY wire_vec3 updateAngularVelocity st in
  let st := READ_ENTITY_PROPERTY propertyFlags overwriteLocalData PROP_ACCELERATION wire_vec3 setAcceleration st in
  st.

(** The remaining properties of the base class, up to the subclass data. *)
Definition readOtherProperties (propertyFlags : EntityPropertyFlags)
           (overwriteLocalData : bool) (version : Z) (now : quint64)
           (st : ReadState) : ReadState :=
  let st := READ_ENTITY_PROPERTY propertyFlags overwriteLocalData PROP_DIMENSIONS wire_vec3 updateDimensions st in
  let st := READ_ENTITY_PROPERTY propertyFlags overwriteLocalData PROP_DENSITY wire_float updateDensity st in
  let st := READ_ENTITY_PROPERTY propertyFlags overwriteLocalData PROP_GRAVITY wire_vec3 updateGravity st in
  let st := READ_ENTITY_PROPERTY propertyFlags overwriteLocalData PROP_DAMPING wire_float updateDamping st in
  let st := READ_ENTITY_PROPERTY propertyFlags overwriteLocalData PROP_RESTITUTION wire_float updateRestitution st in
  let st := READ_ENTITY_PROPERTY propertyFlags overwriteLocalData PROP_FRICTION wire_float updateFriction st in
  let st := READ_ENTITY_PROPERTY propertyFlags overwriteLocalData PROP_LIFETIME wire_float updateLifetime st in
  let st := READ_ENTITY_PROPERTY propertyFlags overwriteLocalData PROP_SCRIPT wire_QString setScript st in
  let st := READ_ENTITY_PROPERTY propertyFlags overwriteLocalData PROP_SCRIPT_TIMESTAMP wire_quint64 setScriptTimestamp st in
  let st := READ_ENTITY_PROPERTY propertyFlags overwriteLocalData PROP_REGISTRATION_POINT wire_vec3 setRegistrationPoint st in
  let st := READ_ENTITY_PROPERTY propertyFlags overwriteLocalData PROP_ANGULAR_DAMPING wire_float updateAngularDamping st in
  let st := READ_ENTITY_PROPERTY propertyFlags overwriteLocalData PROP_VISIBLE wire_bool setVisible st in
  let st := READ_ENTITY_PROPERTY propertyFlags overwriteLocalData PROP_COLLISIONLESS wire_bool updateCollisionless st in
  let st := READ_ENTITY_PROPERTY propertyFlags overwriteLocalData PROP_COLLISION_MASK wire_uint8 updateCollisionMask st in
  let st := READ_ENTITY_PROPERTY propertyFlags overwriteLocalData PROP_DYNAMIC wire_bool updateDynamic st in
  let st := READ_ENTITY_PROPERTY propertyFlags overwriteLocalData PROP_LOCKED wire_bool setLocked st in
  let st := READ_ENTITY_PROPERTY propertyFlags overwriteLocalData PROP_USER_DATA wire_QString setUserData st in
  let st :=
    if version >=? VERSION_ENTITIES_HAS_MARKETPLACE_ID
    then READ_ENTITY_PROPERTY propertyFlags overwriteLocalData PROP_MARKETPLACE_ID wire_QString setMarketplaceID st
    else st in
  let st := READ_ENTITY_PROPERTY propertyFlags overwriteLocalData PROP_NAME wire_QString setName st in
  let st := READ_ENTITY_PROPERTY propertyFlags overwriteLocalData PROP_COLLISION_SOUND_URL wire_QString setCollisionSoundURL st in
  let st := READ_ENTITY_PROPERTY propertyFlags overwriteLocalData PROP_HREF wire_QString setHref st in
  let st := READ_ENTITY_PROPERTY propertyFlags overwriteLocalData PROP_DESCRIPTION wire_QString setDescription st in
  let st := READ_ENTITY_PROPERTY propertyFlags overwriteLocalData PROP_ACTION_DATA wire_QByteArray (fun d => setActionData d now) st in
  let st := READ_ENTITY_PROPERTY propertyFlags overwriteLocalData PROP_PARENT_ID wire_QUuid setParentID st in
  let st := READ_ENTITY_PROPERTY propertyFlags overwriteLocalData PROP_PARENT_JOINT_INDEX wire_quint16 setParentJointIndex st in
  let st := READ_ENTITY_PROPERTY propertyFlags overwriteLocalData PROP_QUERY_AA_CUBE wire_AACube setQueryAACube st in
  st.

(** What follows the subclass data: the damaged stream version, the
    extrapolation to [now], and [_lastSimulated]. *)
Definition finishRead (propertyFlags : EntityPropertyFlags)
           (overwriteLocalData : bool) (version : Z)
           (now lastSimulatedFromBufferAdjusted : quint64)
           (myNodeID : QUuid) (st : ReadState) : ReadState :=
  let st :=
    if version =? VERSION_ENTITIES_HAS_MARKETPLACE_ID_DAMAGED
    then READ_ENTITY_PROPERTY propertyFlags overwriteLocalData PROP_MARKETPLACE_ID wire_QString setMarketplaceID st
    else st in
  let e := rs_entity st in
  let e :=
    if overwriteLocalData
       && negb (Z.land (_dirtyFlags e)
                       (Z.lor DIRTY_TRANSFORM DIRTY_VELOCITIES) =? 0)
    then
      let skipTimeForward :=
        Float32.div
          (Float32.of_Z (wrap64 (now - lastSimulatedFromBufferAdjusted)))
          (Float32.of_Z USECS_PER_SECOND) in
      simulateKinematicMotion skipTimeForward false e
    else e in
  let e :=
    if overwriteLocalData then
      if negb (matchesValidID (_simulationOwner e) myNodeID)
      then put_lastSimulated now e
      else e
    else e in
  mkReadState e (rs_dataAt st) (rs_bytesRead st) (rs_somethingChanged st).

(** [readEntityDataFromBuffer]: the bytes read, the record and the
    parameters.  [now] is the clock, [myNodeID] the session id of the
    node list.  The notification of derived classes and the tree's
    tracking of incoming edits do not touch the record; the subclass
    data of the base class is empty. *)
Definition readEntityDataFromBuffer (data : QByteArray)
           (args : ReadBitstreamToTreeParams) (now : quint64)
           (myNodeID : QUuid) (e : EntityItem)
  : nat * EntityItem * ReadBitstreamToTreeParams :=
  if bitstreamVersion args <? VERSION_ENTITIES_SUPPORT_SPLIT_MTU
  then (0%nat, e, args)
  else
    let e := setSourceUUID (sourceUUID args) e in
    let args :=
      mkReadBitstreamToTreeParams (bitstreamVersion args) (sourceUUID args)
        (sourceNode args) (entitiesPerPacket args + 1) in
    let bytesLeftToRead := length data in
    if (bytesLeftToRead <? MINIMUM_HEADER_BYTES)%nat then (0%nat, e, args)
    else
      let clockSkew :=
        match sourceNode args with Some skew => skew | None => 0 end in
      let parser := (data, 0%nat) in
      (* id *)
      let r := parser_read wire_rfc4122 parser in
      let e := put_id (fst r) e in
      let parser := snd r in
      (* type *)
      let r := parser_read wire_count32 parser in
      let e := put_type (fst r) e in
      let parser := snd r in
      let overwriteLocalData := true in
      let somethingChanged := false in
      (* _created *)
      let r := parser_read wire_quint64 parser in
      let createdFromBuffer := fst r in
      let parser := snd r in
      let e := acceptCreated createdFromBuffer clockSkew now e in
      (* _lastEdited *)
      let r := parser_read wire_quint64 parser in
      let lastEditedFromBuffer := fst r in
      let parser := snd r in
      let lastEditedFromBufferAdjusted :=
        adjustLastEdited lastEditedFromBuffer clockSkew now in
      let ignore :=
        ignoreServerPacket lastEditedFromBuffer
                           lastEditedFromBufferAdjusted e in
      let overwriteLocalData :=
        if ignore then false else overwriteLocalData in
      let e :=
        if ignore then e
        else
          put_lastEditedFromRemoteInRemoteTime lastEditedFromBuffer
            (put_lastEditedFromRemote now
               (put_lastEdited lastEditedFromBufferAdjusted e)) in
      (* last updated *)
      let r := parser_read wire_count64 parser in
      let updateDelta := fst r in
      let parser := snd r in
      let e :=
        if overwriteLocalData
        then put_lastUpdated
               (wrap64 (lastEditedFromBufferAdjusted + updateDelta)) e
        else e in
      (* last simulated *)
      let hasLastSimulated :=
        bitstreamVersion args >=? VERSION_ENTITIES_HAS_LAST_SIMULATED_TIME in
      let r := parser_read wire_count64 parser in
      let simulatedDelta := fst r in
      let parser := if hasLastSimulated then snd r else parser in
      let lastSimulatedFromBufferAdjusted :=
        if hasLastSimulated && overwriteLocalData then
          let adjusted :=
            wrap64 (lastEditedFromBufferAdjusted + simulatedDelta) in
          if adjusted >? now then now else adjusted
        else now in
      (* property flags *)
      let r := parser_read wire_flags parser in
      let propertyFlags := fst r in
      let parser := snd r in
      let st := mkReadState e (fst parser) (snd parser) somethingChanged in
      let weOwnSimulation := matchesValidID (_simulationOwner e) myNodeID in
      let st := readSimulationOwner propertyFlags st in
      let st :=
        readTerseProperties propertyFlags overwriteLocalData
                            weOwnSimulation st in
      let st :=
        readOtherProperties propertyFlags overwriteLocalData
                            (bitstreamVersion args) now st in
      let st :=
        finishRead propertyFlags overwriteLocalData (bitstreamVersion args)
                   now lastSimulatedFromBufferAdjusted myNodeID st in
      (rs_bytesRead st, rs_entity st, args).
End Decoder.

(** ** A reference instance of the interfaces

    Values with which the model runs: the constants as the repository's
    headers give them, and a small self-delimiting wire format.  The
    theorems below hold for every instance; the examples evaluate this
    one. *)

Module Reference.

#[export] Instance simulationFlags : SimulationFlags := {|
  DIRTY_POSITION := 1;
  DIRTY_ROTATION := 2;
  DIRTY_LINEAR_VELOCITY := 4;
  DIRTY_ANGULAR_VELOCITY := 8;
  DIRTY_MASS := 16;
  DIRTY_COLLISION_GROUP := 32;
  DIRTY_MOTION_TYPE := 64;
  DIRTY_SHAPE := 128;
  DIRTY_LIFETIME := 256;
  DIRTY_MATERIAL := 1024;
  DIRTY_PHYSICS_ACTIVATION := 2048;
  DIRTY_SIMULATOR_ID := 4096;
  DIRTY_TRANSFORM := 3;
  DIRTY_VELOCITIES := 12
|}.

#[export] Instance collisionGroups : PhysicsCollisionGroups := {|
  BULLET_COLLISION_GROUP_STATIC := 1;
  BULLET_COLLISION_GROUP_DYNAMIC := 2;
  BULLET_COLLISION_GROUP_KINEMATIC := 4;
  BULLET_COLLISION_GROUP_COLLISIONLESS := 16384;
  USER_COLLISION_GROUP_MY_AVATAR := 8;
  USER_COLLISION_GROUP_OTHER_AVATAR := 16;
  USER_COLLISION_MASK_AVATARS := 24;
  ENTITY_COLLISION_MASK_DEFAULT := 31;
  getDefaultCollisionMask := fun group =>
    if group =? 16384 then 0 else 32767
|}.

#[export] Instance defaults : EntityItemPropertiesDefaults := {|
  ENTITY_ITEM_MAX_DENSITY := Float32.of_Z 10000;
  ENTITY_ITEM_MIN_DENSITY := Float32.of_Z 100;
  ENTITY_ITEM_MAX_RESTITUTION := Float32.ratio 99 100;
  ENTITY_ITEM_MIN_RESTITUTION := Float32.zero;
  ENTITY_ITEM_MAX_FRICTION := Float32.ratio 99 100;
  ENTITY_ITEM_MIN_FRICTION := Float32.zero;
  UNKNOWN_CREATED_TIME := 0
|}.

#[export] Instance versions : PacketVersions := {|
  VERSION_ENTITIES_SUPPORT_SPLIT_MTU := 3;
  VERSION_ENTITIES_HAS_LAST_SIMULATED_TIME := 7;
  VERSION_ENTITIES_HAS_MARKETPLACE_ID_DAMAGED := 17;
  VERSION_ENTITIES_HAS_MARKETPLACE_ID := 18
|}.

Definition quat_identity : quat :=
  mkQuat Float32.zero Float32.zero Float32.zero Float32.one.

(** glm's quaternion product. *)
Definition hamilton (p q : quat) : quat :=
  let m := Float32.mul in
  let a := Float32.add in
  let s := Float32.sub in
  mkQuat
    (s (a (a (m (qw p) (qx q)) (m (qx p) (qw q))) (m (qy p) (qz q)))
       (m (qz p) (qy q)))
    (s (a (a (m (qw p) (qy q)) (m (qy p) (qw q))) (m (qz p) (qx q)))
       (m (qx p) (qz q)))
    (s (a (a (m (qw p) (qz q)) (m (qz p) (qw q))) (m (qx p) (qy q)))
       (m (qy p) (qx q)))
    (s (s (s (m (qw p) (qw q)) (m (qx p) (qx q))) (m (qy p) (qy q)))
       (m (qz p) (qz q))).

Definition normalize (q : quat) : quat :=
  let d := Float32.add
             (Float32.add
                (Float32.add (Float32.mul (qx q) (qx q))
                             (Float32.mul (qy q) (qy q)))
                (Float32.mul (qz q) (qz q)))
             (Float32.mul (qw q) (qw q)) in
  let len := Float32.sqrt d in
  if Float32.leb len Float32.zero then quat_identity
  else
    let k := Float32.div Float32.one len in
    mkQuat (Float32.mul (qx q) k) (Float32.mul (qy q) k)
           (Float32.mul (qz q) k) (Float32.mul (qw q) k).

(** The small-angle branch of the rotation step: the axis scaled by half
    the time step. *)
Definition rotationStep (angularVelocity : vec3) (timeStep : float) : quat :=
  let h := Float32.mul (Float32.ratio 1 2) timeStep in
  mkQuat (Float32.mul (vx angularVelocity) h)
         (Float32.mul (vy angularVelocity) h)
         (Float32.mul (vz angularVelocity) h) Float32.one.

(** [powf] where it is exact: a power of zero is one, a first power is
    the base; elsewhere the reference gives the first two terms of the
    binomial series around a base of one. *)
Definition pow (x y : float) : float :=
  if Float32.eqb y Float32.zero then Float32.one
  else if Float32.eqb y Float32.one then x
       else Float32.add Float32.one
              (Float32.mul y (Float32.sub x Float32.one)).

(** The reference has the later form of [glm::min] and [glm::max]. *)
#[export] Instance glmCommon : GlmCommon := {|
  glm_answers_first_operand := true;
  glm_clamp_takes_value_first := true
|}.

#[export] Instance physicsHelpers : PhysicsHelpers := {|
  PHYSICS_ENGINE_FIXED_SUBSTEP := Float32.ratio 1 90;
  computeBulletRotationStep := rotationStep;
  quat_mul := hamilton;
  quat_normalize := normalize;
  powf := pow
|}.

(** The flag bits: the place of the property in the declared order. *)
Definition bitOf (p : EntityPropertyList) : N :=
  match p with
  | PROP_SIMULATION_OWNER => 0 | PROP_POSITION => 1 | PROP_ROTATION => 2
  | PROP_VELOCITY => 3 | PROP_ANGULAR_VELOCITY => 4
  | PROP_ACCELERATION => 5 | PROP_DIMENSIONS => 6 | PROP_DENSITY => 7
  | PROP_GRAVITY => 8 | PROP_DAMPING => 9 | PROP_RESTITUTION => 10
  | PROP_FRICTION => 11 | PROP_LIFETIME => 12 | PROP_SCRIPT => 13
  | PROP_SCRIPT_TIMESTAMP => 14 | PROP_COLLISION_SOUND_URL => 15
  | PROP_REGISTRATION_POINT => 16 | PROP_ANGULAR_DAMPING => 17
  | PROP_VISIBLE => 18 | PROP_COLLISIONLESS => 19
  | PROP_COLLISION_MASK => 20 | PROP_DYNAMIC => 21 | PROP_LOCKED => 22
  | PROP_USER_DATA => 23 | PROP_MARKETPLACE_ID => 24 | PROP_NAME => 25
  | PROP_HREF => 26 | PROP_DESCRIPTION => 27 | PROP_ACTION_DATA => 28
  | PROP_PARENT_ID => 29 | PROP_PARENT_JOINT_INDEX => 30
  | PROP_QUERY_AA_CUBE => 31 | PROP_LAST_ITEM => 32
  end%N.

#[export] Instance flagBits : PropertyFlagBits := {| flagBit := bitOf |}.

(** *** The reference wire: one byte per binary digit *)

Fixpoint pack_positive (p : positive) : QByteArray :=
  match p with
  | xH => [Byte.x01]
  | xO q => Byte.x02 :: pack_positive q
  | xI q => Byte.x03 :: pack_positive q
  end.

Fixpoint unpack_positive (bs : QByteArray) : positive * nat :=
  match bs with
  | b :: r =>
      if Byte.eqb b Byte.x02
      then let q := unpack_positive r in (xO (fst q), S (snd q))
      else if Byte.eqb b Byte.x03
           then let q := unpack_positive r in (xI (fst q), S (snd q))
           else (xH, 1%nat)
  | [] => (xH, 0%nat)
  end.

Definition pack_N (n : N) : QByteArray :=
  match n with
  | N0 => [Byte.x00]
  | Npos p => pack_positive p
  end.
Definition unpack_N (bs : QByteArray) : N * nat :=
  match bs with
  | b :: _ =>
      if Byte.eqb b Byte.x00 then (N0, 1%nat)
      else let q := unpack_positive bs in (Npos (fst q), snd q)
  | [] => (N0, 0%nat)
  end.

Definition pack_Z (z : Z) : QByteArray :=
  match z with
  | Z0 => [Byte.x00]
  | Zpos p => Byte.x01 :: pack_positive p
  | Zneg p => Byte.x02 :: pack_positive p
  end.
Definition unpack_Z (bs : QByteArray) : Z * nat :=
  match bs with
  | b :: r =>
      if Byte.eqb b Byte.x01
      then let q := unpack_positive r in (Zpos (fst q), S (snd q))
      else if Byte.eqb b Byte.x02
           then let q := unpack_positive r in (Zneg (fst q), S (snd q))
           else (Z0, 1%nat)
  | [] => (Z0, 0%nat)
  end.

Definition pack_bool (b : bool) : QByteArray :=
  [if b then Byte.x01 else Byte.x00].
Definition unpack_bool (bs : QByteArray) : bool * nat :=
  match bs with
  | b :: _ => (negb (Byte.eqb b Byte.x00), 1%nat)
  | [] => (false, 0%nat)
  end.

Definition pack_bytes (b : QByteArray) : QByteArray :=
  pack_N (N.of_nat (length b)) ++ b.
Definition unpack_bytes (bs : QByteArray) : QByteArray * nat :=
  let n := unpack_N bs in
  (take (N.to_nat (fst n)) (drop (snd n) bs),
   (snd n + N.to_nat (fst n))%nat).

Definition pack_string (s : string) : QByteArray :=
  pack_bytes (list_byte_of_string s).
Definition unpack_string (bs : QByteArray) : string * nat :=
  let r := unpack_bytes bs in (string_of_list_byte (fst r), snd r).

Definition pack_float (f : float) : QByteArray :=
  match f with
  | S754_zero s => Byte.x00 :: pack_bool s
  | S754_infinity s => Byte.x01 :: pack_bool s
  | S754_nan => [Byte.x02]
  | S754_finite s m e => Byte.x03 :: pack_bool s ++ pack_positive m ++ pack_Z e
  end.
Definition unpack_float (bs : QByteArray) : float * nat :=
  match bs with
  | b :: r =>
      if Byte.eqb b Byte.x00
      then (S754_zero (fst (unpack_bool r)), S (snd (unpack_bool r)))
      else if Byte.eqb b Byte.x01
      then (S754_infinity (fst (unpack_bool r)), S (snd (unpack_bool r)))
      else if Byte.eqb b Byte.x03
      then
        let s := unpack_bool r in
        let m := unpack_positive (drop (snd s) r) in
        let e := unpack_Z (drop (snd s + snd m) r) in
        (S754_finite (fst s) (fst m) (fst e), S (snd s + snd m + snd e))
      else (S754_nan, 1%nat)
  | [] => (S754_nan, 0%nat)
  end.

Definition pack_vec3 (v : vec3) : QByteArray :=
  pack_float (vx v) ++ pack_float (vy v) ++ pack_float (vz v).
Definition unpack_vec3 (bs : QByteArray) : vec3 * nat :=
  let x := unpack_float bs in
  let y := unpack_float (drop (snd x) bs) in
  let z := unpack_float (drop (snd x + snd y) bs) in
  (mkVec3 (fst x) (fst y) (fst z), (snd x + snd y + snd z)%nat).

Definition pack_quat (q : quat) : QByteArray :=
  pack_float (qx q) ++ pack_float (qy q) ++ pack_float (qz q)
  ++ pack_float (qw q).
Definition unpack_quat (bs : QByteArray) : quat * nat :=
  let x := unpack_float bs in
  let y := unpack_float (drop (snd x) bs) in
  let z := unpack_float (drop (snd x + snd y) bs) in
  let w := unpack_float (drop (snd x + snd y + snd z) bs) in
  (mkQuat (fst x) (fst y) (fst z) (fst w),
   (snd x + snd y + snd z + snd w)%nat).

Definition pack_cube (c : AACube) : QByteArray :=
  pack_vec3 (cube_corner c) ++ pack_float (cube_scale c).
Definition unpack_cube (bs : QByteArray) : AACube * nat :=
  let c := unpack_vec3 bs in
  let s := unpack_float (drop (snd c) bs) in
  (mkAACube (fst c) (fst s), (snd c + snd s)%nat).

Definition owner_toByteArray (o : SimulationOwner) : QByteArray :=
  pack_Z (so_priority o) ++ pack_N (so_id o).
Definition owner_fromByteArray (bs : QByteArray) : SimulationOwner :=
  let p := unpack_Z bs in
  let i := unpack_N (drop (snd p) bs) in
  mkSimulationOwner (fst i) (fst p).

#[export] Instance wire : OctreeWire := {|
  wire_rfc4122 := mkWire _ pack_N unpack_N;
  wire_count32 := mkWire _ pack_Z unpack_Z;
  wire_count64 := mkWire _ pack_Z unpack_Z;
  wire_quint64 := mkWire _ pack_Z unpack_Z;
  wire_flags := mkWire _ pack_N unpack_N;
  wire_QByteArray := mkWire _ pack_bytes unpack_bytes;
  wire_vec3 := mkWire _ pack_vec3 unpack_vec3;
  wire_quat := mkWire _ pack_quat unpack_quat;
  wire_float := mkWire _ pack_float unpack_float;
  wire_QString := mkWire _ pack_string unpack_string;
  wire_bool := mkWire _ pack_bool unpack_bool;
  wire_uint8 := mkWire _ pack_Z unpack_Z;
  wire_quint16 := mkWire _ pack_Z unpack_Z;
  wire_QUuid := mkWire _ pack_N unpack_N;
  wire_AACube := mkWire _ pack_cube unpack_cube;
  SimulationOwner_toByteArray := owner_toByteArray;
  SimulationOwner_fromByteArray := owner_fromByteArray
|}.

(** The factory of the reference: an action of a known type (below 16)
    is rebuilt from its serialised form. *)
#[export] Instance factory : EntityActionFactoryInterface := {|
  factoryBA := fun bs =>
    if stream_actionType bs <? 16
    then Some (mkEntityAction (stream_actionID bs) (stream_actionType bs)
                              (drop 18 bs) false true false)
    else None
|}.

Definition half : float := Float32.ratio 1 2.
Definition vec (x y z : Z) : vec3 :=
  mkVec3 (Float32.of_Z x) (Float32.of_Z y) (Float32.of_Z z).

(** A record as the constructor leaves it, in a tree that has deleted
    nothing. *)
Definition newEntity (id : QUuid) (now : quint64) : EntityItem := {|
  _id := id; _type := 0; _sourceUUID := 0%N;
  _lastSimulated := now; _lastUpdated := now; _lastEdited := 0;
  _lastEditedFromRemote := 0; _lastEditedFromRemoteInRemoteTime := 0;
  _created := 0; _changedOnServer := 0;
  _glowLevel := Float32.zero; _localRenderAlpha := Float32.one;
  _density := Float32.of_Z 1000;
  _velocity := Vec3.zero; _gravity := Vec3.zero;
  _acceleration := Vec3.zero;
  _damping := Float32.zero; _restitution := half; _friction := half;
  _lifetime := Float32.zero;
  _script := ""; _scriptTimestamp := 0; _collisionSoundURL := "";
  _registrationPoint := mkVec3 half half half;
  _angularVelocity := Vec3.zero; _angularDamping := Float32.zero;
  _visible := true; _collisionless := false; _collisionMask := 31;
  _dynamic := false; _locked := false; _userData := "";
  _simulationOwner := mkSimulationOwner 0%N 0;
  _marketplaceID := ""; _name := ""; _href := ""; _description := "";
  _dirtyFlags := 0;
  _element := Some (mkEntityTreeElement (Some (mkEntityTree ∅)));
  _localPosition := Vec3.zero; _localOrientation := quat_identity;
  _scale := vec 1 1 1;
  _parentID := 0%N; _parentJointIndex := 0;
  _queryAACube := mkAACube Vec3.zero Float32.one;
  _queryAACubeSet := false;
  _recalcMaxAACube := true;
  _maxAACube := mkAACube Vec3.zero Float32.one;
  _objectActions := ∅; _allActionsDataCache := [];
  _previouslyDeletedActions := ∅; _actionsToRemove := [];
  _actionDataDirty := false; _actionDataNeedsTransmit := false
|}.

End Reference.

(** * Properties *)

(** ** Collision group and mask *)

Section CollisionMask.
Context `{PhysicsCollisionGroups}.

(** On the low eight bits, [u ^ (A | ~u)] is the complement of [u & A]. *)
Lemma toggle_formula_bits (u A : Z) :
  wrap8 (Z.lxor u (Z.lor A (Z.lnot u))) = 255 - wrap8 (Z.land u A).
Proof.
  unfold wrap8.
  assert (E : Z.lxor u (Z.lor A (Z.lnot u)) = Z.lnot (Z.land u A)).
  { apply Z.bits_inj'. intros n Hn.
    rewrite Z.lxor_spec, Z.lor_spec, !Z.lnot_spec, Z.land_spec by lia.
    destruct (Z.testbit u n), (Z.testbit A n); reflexivity. }
  rewrite E. unfold Z.lnot.
  replace (Z.pred (- Z.land u A)) with (- Z.land u A - 1) by lia.
  pose proof (Z.mod_pos_bound (Z.land u A) (2 ^ 8) ltac:(lia)) as B.
  pose proof (Z.div_mod (Z.land u A) (2 ^ 8) ltac:(lia)) as D.
  symmetry.
  apply Z.mod_unique with (q := - (Z.land u A / 2 ^ 8) - 1); lia.
Qed.

(** C9.  When exactly one of the two avatar tests of the user mask holds
    and the simulation owner is a valid id other than the session's, the
    final mask of an entity that collides is the default mask of its
    group AND the eight low bits of
    [userMask XOR (USER_COLLISION_MASK_AVATARS OR NOT userMask)], the
    formula as written; a collisionless entity gets mask 0.  Those eight
    bits are all set except where both the user mask and the avatar mask
    have a bit. *)
Theorem collision_mask_literal_formula (sessionUUID : QUuid) (e : EntityItem) :
  let userMask := _collisionMask e in
  let simulatorID := so_id (_simulationOwner e) in
  let toggled :=
    wrap8 (Z.lxor userMask
             (Z.lor USER_COLLISION_MASK_AVATARS (Z.lnot userMask))) in
  negb (Z.land userMask USER_COLLISION_GROUP_MY_AVATAR =? 0)
  <> negb (Z.land userMask USER_COLLISION_GROUP_OTHER_AVATAR =? 0) ->
  simulatorID <> 0%N ->
  simulatorID <> sessionUUID ->
  let gm := computeCollisionGroupAndFinalMask sessionUUID e in
  snd gm =
    (if _collisionless e then 0
     else Z.land (getDefaultCollisionMask (fst gm)) toggled)
  /\ toggled = 255 - wrap8 (Z.land userMask USER_COLLISION_MASK_AVATARS).
Proof.
  intros userMask simulatorID toggled Hasym Hnull Hother gm.
  split; [| apply toggle_formula_bits].
  subst gm. unfold computeCollisionGroupAndFinalMask.
  destruct (_collisionless e); [reflexivity |].
  fold userMask simulatorID.
  assert (Ha : negb (Bool.eqb
                 (negb (Z.land userMask USER_COLLISION_GROUP_MY_AVATAR =? 0))
                 (negb (Z.land userMask USER_COLLISION_GROUP_OTHER_AVATAR =? 0)))
               = true).
  { destruct (negb (Z.land userMask USER_COLLISION_GROUP_MY_AVATAR =? 0)),
             (negb (Z.land userMask USER_COLLISION_GROUP_OTHER_AVATAR =? 0));
      simpl; congruence. }
  rewrite Ha.
  assert (Hn : QUuid_isNull simulatorID = false).
  { unfold QUuid_isNull. apply N.eqb_neq. exact Hnull. }
  assert (Ho : (simulatorID =? sessionUUID)%N = false).
  { apply N.eqb_neq. exact Hother. }
  rewrite Hn, Ho. simpl. reflexivity.
Qed.
End CollisionMask.

Section CollisionMaskExample.
Import Reference.

(** The formula at work: user mask 8 (my avatar only), owned by node 7,
  seen from session 9. *)
Lemma collision_mask_literal_formula_witness :
snd (computeCollisionGroupAndFinalMask 9%N
       (put_simulationOwner (mkSimulationOwner 7%N 1)
          (put_collisionMask 8 (Reference.newEntity 1%N 0))))
= Z.land (getDefaultCollisionMask 1) 247.
Proof.
pose proof (collision_mask_literal_formula 9%N
              (put_simulationOwner (mkSimulationOwner 7%N 1)
                 (put_collisionMask 8 (Reference.newEntity 1%N 0)))) as T.
cbv zeta in T.
destruct T as [T _]; [vm_compute; discriminate | vm_compute; discriminate
                     | vm_compute; discriminate |].
exact T.
Defined.

End CollisionMaskExample.

(** ** Velocity thresholds of the update methods *)

Section VelocitySnap.
Context `{SimulationFlags}.

(** C10.  [updateVelocity v] leaves the stored velocity alone when an
    action suppresses location edits or when [v] compares equal to what is
    stored; otherwise it stores zero when the length of [v] is below
    0.001 and [v] itself when it is not.  [updateAngularVelocity] does the
    same with 0.0002. *)
Theorem update_velocity_snaps_when_it_stores (v : vec3) (e : EntityItem) :
  _velocity (updateVelocity v e) =
    (if shouldSuppressLocationEdits e then _velocity e
     else if Vec3.neb (_velocity e) v
          then if Float32.ltb (Vec3.length v) MIN_LINEAR_SPEED
               then ENTITY_ITEM_ZERO_VEC3 else v
          else _velocity e)
  /\ _angularVelocity (updateAngularVelocity v e) =
    (if shouldSuppressLocationEdits e then _angularVelocity e
     else if Vec3.neb (_angularVelocity e) v
          then if Float32.ltb (Vec3.length v) MIN_ANGULAR_SPEED
               then ENTITY_ITEM_ZERO_VEC3 else v
          else _angularVelocity e).
Proof.
  unfold updateVelocity, updateAngularVelocity.
  split.
  - destruct (shouldSuppressLocationEdits e); [reflexivity |].
    destruct (Vec3.neb (_velocity e) v); [| reflexivity].
    destruct (Float32.ltb (Vec3.length v) MIN_LINEAR_SPEED); reflexivity.
  - destruct (shouldSuppressLocationEdits e); [reflexivity |].
    destruct (Vec3.neb (_angularVelocity e) v); [| reflexivity].
    destruct (Float32.ltb (Vec3.length v) MIN_ANGULAR_SPEED); reflexivity.
Qed.
End VelocitySnap.

Section VelocitySnapExample.
Import Reference.

(** A record that holds the velocity (0.0005, 0, 0), as [setVelocity]
    stores it, is handed the same vector by [updateVelocity]: the length
    is below 0.001 and the velocity stays as it is, neither zero nor
    snapped. *)
Lemma update_velocity_keeps_slow_equal_value :
  let v := mkVec3 (Float32.ratio 1 2000) Float32.zero Float32.zero in
  let e := setVelocity v (newEntity 1%N 0) in
  Float32.ltb (Vec3.length v) MIN_LINEAR_SPEED = true
  /\ _velocity (updateVelocity v e) = v
  /\ Vec3.neb v ENTITY_ITEM_ZERO_VEC3 = true.
Proof. vm_compute. repeat split. Qed.

End VelocitySnapExample.

(** ** Kinematic extrapolation *)

Section Extrapolation.
Context `{GlmCommon} `{SimulationFlags} `{PhysicsHelpers}.

Lemma land_lor_same (a b : Z) : Z.land (Z.lor a b) b = b.
Proof.
  apply Z.bits_inj'. intros n Hn.
  rewrite Z.land_spec, Z.lor_spec.
  destruct (Z.testbit a n), (Z.testbit b n); reflexivity.
Qed.

(** The angular half of the step leaves the linear state alone. *)
Lemma simulateAngular_linear_frame (t : float) (setFlags : bool)
      (e : EntityItem) :
  let e1 := simulateAngular t setFlags e in
  _velocity e1 = _velocity e /\ _damping e1 = _damping e
  /\ _localPosition e1 = _localPosition e
  /\ _acceleration e1 = _acceleration e.
Proof.
  unfold simulateAngular, setRotation, setLocalOrientation, locationChanged,
    requiresRecalcBoxes, or_dirty.
  repeat match goal with
         | |- context [if ?c then _ else _] => destruct c
         end; repeat split.
Qed.

(** C4.  For a record with no action and a nonzero velocity, with the
    elapsed time clamped to [0, 1]: the velocity is damped by
    [(1 - damping)^t] when the damping is positive, the position is
    advanced by the damped velocity times [t], and the acceleration times
    [t] is added to the velocity when there is one.  When the speed that
    results is below 0.001 the velocity becomes zero and the position
    stays, and the motion-type bit is set when flags are asked for and
    that speed is not zero; otherwise position and velocity are stored.
    With velocity (1,0,0), damping 0.5, no acceleration and
    [powf 0.5 1 = 0.5], one second gives velocity (0.5,0,0) and moves the
    position by (0.5,0,0). *)
Theorem extrapolation_damp_integrate_accelerate
        (timeElapsed : float) (setFlags : bool) (e : EntityItem) :
  hasActions e = false ->
  hasVelocity e = true ->
  let t := Float32.clamp timeElapsed MIN_TIME_SKIP MAX_TIME_SKIP in
  let damped :=
    if Float32.gtb (_damping e) Float32.zero
    then Vec3.scale (_velocity e)
           (powf (Float32.sub Float32.one (_damping e)) t)
    else _velocity e in
  let newPosition := Vec3.add (getPosition e) (Vec3.scale damped t) in
  let newVelocity :=
    if hasAcceleration e
    then Vec3.add damped (Vec3.scale (_acceleration e) t)
    else damped in
  let speed := Vec3.length newVelocity in
  let turned :=
    if hasAngularVelocity e then simulateAngular t setFlags e else e in
  let e' := simulateKinematicMotion timeElapsed setFlags e in
  (if Float32.ltb speed EPSILON_LINEAR_VELOCITY_LENGTH
   then _velocity e' = ENTITY_ITEM_ZERO_VEC3
        /\ getPosition e' = getPosition e
        /\ _dirtyFlags e' =
             (if setFlags && Float32.gtb speed Float32.zero
              then Z.lor (_dirtyFlags turned) DIRTY_MOTION_TYPE
              else _dirtyFlags turned)
   else _velocity e' = newVelocity /\ getPosition e' = newPosition)
  /\ (_velocity e = mkVec3 Float32.one Float32.zero Float32.zero ->
      _damping e = Float32.ratio 1 2 ->
      _acceleration e = ENTITY_ITEM_ZERO_VEC3 ->
      powf (Float32.ratio 1 2) Float32.one = Float32.ratio 1 2 ->
      let e1 := simulateKinematicMotion Float32.one setFlags e in
      _velocity e1 = mkVec3 (Float32.ratio 1 2) Float32.zero Float32.zero
      /\ getPosition e1 =
           Vec3.add (getPosition e)
             (mkVec3 (Float32.ratio 1 2) Float32.zero Float32.zero)).
Proof.
  intros Hact Hvel t damped newPosition newVelocity speed turned e'.
  assert (Step : forall (te : float),
    let tc := Float32.clamp te MIN_TIME_SKIP MAX_TIME_SKIP in
    let tu := if hasAngularVelocity e then simulateAngular tc setFlags e
              else e in
    simulateKinematicMotion te setFlags e = simulateLinear tc setFlags tu
    /\ _velocity tu = _velocity e /\ _damping tu = _damping e
    /\ _localPosition tu = _localPosition e
    /\ _acceleration tu = _acceleration e).
  { intros te tc tu.
    assert (F : _velocity tu = _velocity e /\ _damping tu = _damping e
                /\ _localPosition tu = _localPosition e
                /\ _acceleration tu = _acceleration e).
    { subst tu. destruct (hasAngularVelocity e);
        [apply simulateAngular_linear_frame | repeat split]. }
    split; [| exact F].
    unfold simulateKinematicMotion. rewrite Hact. fold tc. fold tu.
    destruct F as (Fv & _).
    unfold hasVelocity in *. rewrite Fv, Hvel. reflexivity. }
  split.
  - destruct (Step timeElapsed) as (E & Fv & Fd & Fp & Fa).
    fold t in E, Fv, Fd, Fp, Fa. fold turned in E, Fv, Fd, Fp, Fa.
    subst e'. rewrite E. unfold simulateLinear, hasAcceleration, getPosition.
    rewrite Fv, Fd, Fp, Fa.
    fold (hasAcceleration e). fold (getPosition e).
    fold damped. fold newPosition. fold newVelocity. fold speed.
    destruct (Float32.ltb speed EPSILON_LINEAR_VELOCITY_LENGTH).
    + destruct (setFlags && Float32.gtb speed Float32.zero);
        repeat split; exact Fp.
    + repeat split.
  - intros Ev Ed Ea Epow e1.
    destruct (Step Float32.one) as (E & Fv & Fd & Fp & Fa).
    subst e1. rewrite E. unfold simulateLinear, hasAcceleration, getPosition.
    rewrite Fv, Fd, Fp, Fa, Ev, Ed, Ea.
    change (Float32.gtb (Float32.ratio 1 2) Float32.zero) with true.
    replace (Float32.clamp Float32.one MIN_TIME_SKIP MAX_TIME_SKIP)
      with Float32.one
      by (unfold Float32.clamp, Float32.min, Float32.max;
          destruct glm_clamp_takes_value_first, glm_answers_first_operand;
          reflexivity).
    change (Float32.sub Float32.one (Float32.ratio 1 2))
      with (Float32.ratio 1 2).
    cbv iota. rewrite Epow.
    vm_compute. split; reflexivity.
Qed.
End Extrapolation.

Section ExtrapolationExample.
Import Reference.

(** The example of the claim, run: one second on velocity (1,0,0) with
    damping 0.5. *)
Lemma extrapolation_damp_integrate_accelerate_witness :
  let e :=
    put_damping half (put_velocity (vec 1 0 0) (newEntity 1%N 0)) in
  _velocity (simulateKinematicMotion Float32.one false e)
  = mkVec3 half Float32.zero Float32.zero.
Proof.
  cbv zeta.
  refine (proj1 (proj2 (extrapolation_damp_integrate_accelerate
                          Float32.one false
                          (put_damping half
                             (put_velocity (vec 1 0 0) (newEntity 1%N 0)))
                          _ _) _ _ _ _)); vm_compute; reflexivity.
Defined.

(** Velocity (1,0,0) and acceleration (-1,0,0) for one second with flags
    asked for: the speed that results is exactly zero, the velocity is
    zeroed, and the motion-type bit stays clear. *)
Lemma extrapolation_zero_speed_sets_no_flag :
  let e :=
    put_acceleration (vec (-1) 0 0)
      (put_velocity (vec 1 0 0) (newEntity 1%N 0)) in
  let e' := simulateKinematicMotion Float32.one true e in
  hasActions e = false /\ hasVelocity e = true
  /\ Float32.ltb
       (Vec3.length (Vec3.add (_velocity e)
                       (Vec3.scale (_acceleration e) Float32.one)))
       EPSILON_LINEAR_VELOCITY_LENGTH = true
  /\ _velocity e' = ENTITY_ITEM_ZERO_VEC3
  /\ Z.land (_dirtyFlags e') DIRTY_MOTION_TYPE = 0.
Proof. vm_compute. repeat split. Qed.

End ExtrapolationExample.

(** ** What the ledger functions leave alone *)

(** [e'] is [e] up to the ledger members and the dirty flags. *)
Definition ledger_only (e e' : EntityItem) : Prop :=
  e' = put_objectActions (_objectActions e')
         (put_allActionsDataCache (_allActionsDataCache e')
            (put_previouslyDeletedActions (_previouslyDeletedActions e')
               (put_actionsToRemove (_actionsToRemove e')
                  (put_actionDataDirty (_actionDataDirty e')
                     (put_actionDataNeedsTransmit (_actionDataNeedsTransmit e')
                        (put_dirtyFlags (_dirtyFlags e') e)))))).

Lemma ledger_only_refl (e : EntityItem) : ledger_only e e.
Proof. destruct e. reflexivity. Qed.

Lemma ledger_only_trans (a b c : EntityItem) :
  ledger_only a b -> ledger_only b c -> ledger_only a c.
Proof.
  unfold ledger_only. intros H1 H2.
  rewrite H2. rewrite H1. destruct a. reflexivity.
Qed.

Lemma ledger_only_put_actionsToRemove (l : list QUuid) (e : EntityItem) :
  ledger_only e (put_actionsToRemove l e).
Proof. destruct e. reflexivity. Qed.

Lemma ledger_only_put_allActionsDataCache (d : QByteArray) (e : EntityItem) :
  ledger_only e (put_allActionsDataCache d e).
Proof. destruct e. reflexivity. Qed.

Lemma ledger_only_put_actionDataDirty (b : bool) (e : EntityItem) :
  ledger_only e (put_actionDataDirty b e).
Proof. destruct e. reflexivity. Qed.

Lemma ledger_only_put_previouslyDeletedActions (m : gmap QUuid quint64)
      (e : EntityItem) : ledger_only e (put_previouslyDeletedActions m e).
Proof. destruct e. reflexivity. Qed.

Section LedgerFrame.
Context `{SimulationFlags} `{EntityActionFactoryInterface}.

Lemma removeActionInternal_ledger_only (actionID : QUuid) (now : quint64)
      (e : EntityItem) :
  ledger_only e (snd (removeActionInternal actionID now e)).
Proof.
  unfold removeActionInternal. cbn.
  destruct (_objectActions e !! actionID).
  - destruct (serializeActions _). destruct e. reflexivity.
  - destruct e. reflexivity.
Qed.

Lemma fold_remove_ledger_only (now : quint64) (ids : list QUuid)
      (e : EntityItem) :
  ledger_only e
    (fold_left (fun e actionID => snd (removeActionInternal actionID now e))
               ids e).
Proof.
  revert e. induction ids as [| i ids IH]; intros e; cbn.
  - apply ledger_only_refl.
  - eapply ledger_only_trans; [apply removeActionInternal_ledger_only |].
    apply IH.
Qed.

Lemma checkWaitingToRemove_ledger_only (now : quint64) (e : EntityItem) :
  ledger_only e (checkWaitingToRemove now e).
Proof.
  unfold checkWaitingToRemove.
  eapply ledger_only_trans; [apply (fold_remove_ledger_only now) |].
  apply ledger_only_put_actionsToRemove.
Qed.

Lemma addActionInternal_ledger_only (action : EntityAction) (e : EntityItem) :
  ledger_only e (snd (addActionInternal action e)).
Proof.
  unfold addActionInternal.
  destruct (serializeActions _) as [[|] d]; destruct e; reflexivity.
Qed.

Lemma markAction_ledger_only (flag : bool) (actionID : QUuid)
      (e : EntityItem) : ledger_only e (markAction flag actionID e).
Proof. destruct e. reflexivity. Qed.

Lemma deserializeOne_ledger_only (st : EntityItem * gset QUuid)
      (b : QByteArray) : ledger_only (fst st) (fst (deserializeOne st b)).
Proof.
  destruct st as [e updated]. unfold deserializeOne. cbn.
  destruct (bool_decide _); [apply ledger_only_refl |].
  destruct (_objectActions e !! stream_actionID b).
  - destruct e. reflexivity.
  - destruct (factoryBA b); [| apply ledger_only_refl].
    cbn. eapply ledger_only_trans; [apply addActionInternal_ledger_only |].
    apply markAction_ledger_only.
Qed.

Lemma fold_deserializeOne_ledger_only (bs : list QByteArray)
      (st : EntityItem * gset QUuid) :
  ledger_only (fst st) (fst (fold_left deserializeOne bs st)).
Proof.
  revert st. induction bs as [| b bs IH]; intros st; cbn.
  - apply ledger_only_refl.
  - eapply ledger_only_trans; [apply deserializeOne_ledger_only | apply IH].
Qed.

Lemma scheduleRemoval_ledger_only (updated : gset QUuid) (now : quint64)
      (e : EntityItem) (kv : QUuid * EntityAction) :
  ledger_only e (scheduleRemoval updated now e kv).
Proof.
  destruct kv as [id a]. unfold scheduleRemoval.
  destruct (negb _); [| apply ledger_only_refl].
  destruct (negb _); [| apply ledger_only_refl].
  destruct e. reflexivity.
Qed.

Lemma fold_scheduleRemoval_ledger_only (updated : gset QUuid)
      (now : quint64) (l : list (QUuid * EntityAction)) (e : EntityItem) :
  ledger_only e (fold_left (scheduleRemoval updated now) l e).
Proof.
  revert e. induction l as [| kv l IH]; intros e; cbn.
  - apply ledger_only_refl.
  - eapply ledger_only_trans; [apply scheduleRemoval_ledger_only | apply IH].
Qed.

Lemma deserializeActionsInternal_ledger_only (now : quint64)
      (e : EntityItem) : ledger_only e (deserializeActionsInternal now e).
Proof.
  unfold deserializeActionsInternal.
  destruct (_element e); [| apply ledger_only_refl].
  match goal with
  | |- context [fold_left deserializeOne ?bs ?st] =>
      pose proof (fold_deserializeOne_ledger_only bs st) as F;
      destruct (fold_left deserializeOne bs st) as [e1 updated]
  end.
  cbn in F.
  eapply ledger_only_trans; [exact F |].
  eapply ledger_only_trans;
    [apply (fold_scheduleRemoval_ledger_only updated now) |].
  eapply ledger_only_trans;
    [apply ledger_only_put_previouslyDeletedActions |].
  apply ledger_only_put_actionDataDirty.
Qed.

Lemma setActionData_ledger_only (actionData : QByteArray) (now : quint64)
      (e : EntityItem) : ledger_only e (setActionData actionData now e).
Proof.
  unfold setActionData, setActionDataInternal.
  eapply ledger_only_trans; [| apply checkWaitingToRemove_ledger_only].
  destruct (negb _); [| apply ledger_only_refl].
  eapply ledger_only_trans; [| apply deserializeActionsInternal_ledger_only].
  apply ledger_only_put_allActionsDataCache.
Qed.
End LedgerFrame.

(** ** The decoder *)

Section DecoderProperties.
Context `{GlmCommon} `{PropertyFlagBits} `{OctreeWire} `{SimulationFlags}
        `{PhysicsCollisionGroups} `{EntityItemPropertiesDefaults}
        `{PacketVersions} `{PhysicsHelpers} `{EntityActionFactoryInterface}.

(** *** What the header of a packet carries *)

Definition parser_start (data : QByteArray) : QByteArray * nat := (data, 0%nat).
Definition packet_id (data : QByteArray) : QUuid :=
  fst (parser_read wire_rfc4122 (parser_start data)).
Definition parser_after_type (data : QByteArray) : QByteArray * nat :=
  snd (parser_read wire_count32
         (snd (parser_read wire_rfc4122 (parser_start data)))).
Definition packet_created (data : QByteArray) : quint64 :=
  fst (parser_read wire_quint64 (parser_after_type data)).
Definition parser_after_created (data : QByteArray) : QByteArray * nat :=
  snd (parser_read wire_quint64 (parser_after_type data)).
Definition packet_lastEdited (data : QByteArray) : quint64 :=
  fst (parser_read wire_quint64 (parser_after_created data)).
Definition parser_after_deltas (version : Z) (data : QByteArray)
  : QByteArray * nat :=
  let p :=
    snd (parser_read wire_count64
           (snd (parser_read wire_quint64 (parser_after_created data)))) in
  if version >=? VERSION_ENTITIES_HAS_LAST_SIMULATED_TIME
  then snd (parser_read wire_count64 p) else p.
Definition packet_propertyFlags (version : Z) (data : QByteArray)
  : EntityPropertyFlags :=
  fst (parser_read wire_flags (parser_after_deltas version data)).
(** The owner that follows the flags when [PROP_SIMULATION_OWNER] is set. *)
Definition packet_simulationOwner (version : Z) (data : QByteArray)
  : SimulationOwner :=
  SimulationOwner_fromByteArray
    (fst (unpack wire_QByteArray
            (fst (snd (parser_read wire_flags
                         (parser_after_deltas version data)))))).
Definition clockSkewOf (args : ReadBitstreamToTreeParams) : Z :=
  match sourceNode args with Some skew => skew | None => 0 end.

(** *** Frames of single reads *)

Lemma READ_keeps {A T : Type} (proj : EntityItem -> A)
      (flags : EntityPropertyFlags) (ow : bool) (P : EntityPropertyList)
      (w : Wire T) (S : T -> EntityItem -> EntityItem) (st : ReadState) :
  (forall v e, proj (S v e) = proj e) ->
  proj (rs_entity (READ_ENTITY_PROPERTY flags ow P w S st))
  = proj (rs_entity st).
Proof.
  intros K. unfold READ_ENTITY_PROPERTY.
  destruct (getHasProperty flags P); [| reflexivity].
  cbn. destruct ow; [apply K | reflexivity].
Qed.

Lemma READ_ignored {T : Type} (flags : EntityPropertyFlags)
      (P : EntityPropertyList) (w : Wire T)
      (S : T -> EntityItem -> EntityItem) (st : ReadState) :
  rs_entity (READ_ENTITY_PROPERTY flags false P w S st) = rs_entity st.
Proof.
  unfold READ_ENTITY_PROPERTY.
  destruct (getHasProperty flags P); reflexivity.
Qed.

Ltac split_ifs :=
  repeat match goal with
         | |- context [if ?c then _ else _] => destruct c
         end.

Ltac setter_frame :=
  intros;
  unfold updateDimensions, setDimensions, updateDensity, updateGravity,
    updateDamping, updateRestitution, updateFriction, updateLifetime,
    setScript, setScriptTimestamp, setRegistrationPoint,
    updateAngularDamping, setVisible, updateCollisionless,
    updateCollisionMask, updateDynamic, setLocked, setUserData,
    setMarketplaceID, setName, setCollisionSoundURL, setHref,
    setDescription, setParentID, setParentJointIndex, setQueryAACube,
    updatePosition, updateRotation, updateVelocity, updateAngularVelocity,
    setAcceleration, setLocalPosition, setLocalOrientation, locationChanged,
    setScale, requiresRecalcBoxes, or_dirty;
  split_ifs; reflexivity.

Ltac ledger_frame :=
  intros;
  match goal with
  | |- _ (setActionData ?d ?n ?e) = _ =>
      rewrite (setActionData_ledger_only d n e); reflexivity
  end.

Ltac other_keeps proj :=
  intros; unfold readOtherProperties; cbv zeta;
  match goal with
  | |- context [if ?c then READ_ENTITY_PROPERTY _ _ _ _ _ _ else _] =>
      destruct c
  end;
  repeat (rewrite (READ_keeps proj) by first [setter_frame | ledger_frame]);
  reflexivity.

Ltac motion_frame :=
  intros;
  unfold simulateKinematicMotion, simulateLinear, simulateAngular,
    setVelocity, setPosition, setRotation, setLocalPosition,
    setLocalOrientation, locationChanged, requiresRecalcBoxes, or_dirty;
  split_ifs; reflexivity.

Ltac finish_keeps proj :=
  intros; unfold finishRead; cbn [rs_entity];
  split_ifs;
  repeat (rewrite (READ_keeps proj) by setter_frame);
  try reflexivity;
  motion_frame.

(** *** A buffer shorter than the header *)

(** C5.  On a buffer shorter than the 27 bytes of the smallest header the
    decoder reports 0 bytes read and changes nothing of the record but
    its source id, which it sets before it looks at the length; a stream
    version that does not support split buffers leaves the record as it
    is. *)
Theorem truncated_buffer_reads_nothing (data : QByteArray)
        (args : ReadBitstreamToTreeParams) (now : quint64) (myNodeID : QUuid)
        (e : EntityItem) :
  (length data < MINIMUM_HEADER_BYTES)%nat ->
  let r := readEntityDataFromBuffer data args now myNodeID e in
  fst (fst r) = 0%nat
  /\ snd (fst r) =
       (if bitstreamVersion args <? VERSION_ENTITIES_SUPPORT_SPLIT_MTU
        then e else put_sourceUUID (sourceUUID args) e).
Proof.
  intros Hlen r. subst r. unfold readEntityDataFromBuffer.
  destruct (bitstreamVersion args <? VERSION_ENTITIES_SUPPORT_SPLIT_MTU);
    [split; reflexivity |].
  cbv zeta.
  assert (L : (length data <? MINIMUM_HEADER_BYTES)%nat = true)
    by (apply Nat.ltb_lt; exact Hlen).
  rewrite L. split; reflexivity.
Qed.

(** *** The phases of an accepted header *)

(** The projections the frames speak of. *)
Definition times (e : EntityItem) : quint64 * quint64 * quint64 * quint64 :=
  (_created e, _lastEdited e, _lastEditedFromRemote e,
   _lastEditedFromRemoteInRemoteTime e).
Definition kinematics (e : EntityItem) : vec3 * quat * vec3 * vec3 * vec3 :=
  (_localPosition e, _localOrientation e, _velocity e, _angularVelocity e,
   _acceleration e).

(** Whether the decoder ignores the packet: the decision it takes on the
    record as the header left it, which has the id of the packet. *)
Definition packet_ignored (data : QByteArray)
           (args : ReadBitstreamToTreeParams) (now : quint64)
           (e : EntityItem) : bool :=
  ignoreServerPacket (packet_lastEdited data)
    (adjustLastEdited (packet_lastEdited data) (clockSkewOf args) now)
    (put_id (packet_id data) e).

(** The record when the header has been read. *)
Definition headerStage (data : QByteArray) (args : ReadBitstreamToTreeParams)
           (now : quint64) (e : EntityItem) : EntityItem :=
  let e := setSourceUUID (sourceUUID args) e in
  let e := put_id (packet_id data) e in
  let e :=
    put_type (fst (parser_read wire_count32
                     (snd (parser_read wire_rfc4122 (parser_start data))))) e in
  let e := acceptCreated (packet_created data) (clockSkewOf args) now e in
  let adjusted :=
    adjustLastEdited (packet_lastEdited data) (clockSkewOf args) now in
  if packet_ignored data args now e then e
  else
    let e :=
      put_lastEditedFromRemoteInRemoteTime (packet_lastEdited data)
        (put_lastEditedFromRemote now (put_lastEdited adjusted e)) in
    let updateDelta :=
      fst (parser_read wire_count64
             (snd (parser_read wire_quint64 (parser_after_created data)))) in
    put_lastUpdated (wrap64 (adjusted + updateDelta)) e.

Definition packet_lastSimulated (data : QByteArray)
           (args : ReadBitstreamToTreeParams) (now : quint64)
           (ignored : bool) : quint64 :=
  let adjusted :=
    adjustLastEdited (packet_lastEdited data) (clockSkewOf args) now in
  let simulatedDelta :=
    fst (parser_read wire_count64
           (snd (parser_read wire_count64
                   (snd (parser_read wire_quint64
                           (parser_after_created data)))))) in
  if (bitstreamVersion args >=? VERSION_ENTITIES_HAS_LAST_SIMULATED_TIME)
     && negb ignored
  then
    let a := wrap64 (adjusted + simulatedDelta) in
    if a >? now then now else a
  else now.

Lemma ignoreServerPacket_ext (r a : quint64) (e1 e2 : EntityItem) :
  _lastEditedFromRemoteInRemoteTime e1 = _lastEditedFromRemoteInRemoteTime e2 ->
  _lastEdited e1 = _lastEdited e2 ->
  _lastEditedFromRemote e1 = _lastEditedFromRemote e2 ->
  _element e1 = _element e2 ->
  _id e1 = _id e2 ->
  ignoreServerPacket r a e1 = ignoreServerPacket r a e2.
Proof.
  intros E1 E2 E3 E4 E5. unfold ignoreServerPacket, getTree.
  rewrite E1, E2, E3, E4, E5. reflexivity.
Qed.

Lemma packet_ignored_setSourceUUID (data : QByteArray)
      (args : ReadBitstreamToTreeParams) (now : quint64) (e : EntityItem)
      (u : QUuid) :
  packet_ignored data args now (setSourceUUID u e)
  = packet_ignored data args now e.
Proof. unfold packet_ignored. apply ignoreServerPacket_ext; reflexivity. Qed.

(** The decoder past its two early exits, as its phases. *)
Lemma readEntityDataFromBuffer_phases (data : QByteArray)
      (args : ReadBitstreamToTreeParams) (now : quint64) (myNodeID : QUuid)
      (e : EntityItem) :
  (bitstreamVersion args <? VERSION_ENTITIES_SUPPORT_SPLIT_MTU) = false ->
  (MINIMUM_HEADER_BYTES <= length data)%nat ->
  let version := bitstreamVersion args in
  let ignored := packet_ignored data args now e in
  let flags := packet_propertyFlags version data in
  let p := snd (parser_read wire_flags (parser_after_deltas version data)) in
  let st :=
    finishRead flags (negb ignored) version now
      (packet_lastSimulated data args now ignored) myNodeID
      (readOtherProperties flags (negb ignored) version now
         (readTerseProperties flags (negb ignored)
            (matchesValidID
               (_simulationOwner (headerStage data args now e)) myNodeID)
            (readSimulationOwner flags
               (mkReadState (headerStage data args now e) (fst p) (snd p)
                            false)))) in
  fst (readEntityDataFromBuffer data args now myNodeID e)
  = (rs_bytesRead st, rs_entity st).
Proof.
  intros Hv Hlen version ignored flags p st.
  unfold readEntityDataFromBuffer. rewrite Hv. cbv zeta.
  assert (L : (length data <? MINIMUM_HEADER_BYTES)%nat = false)
    by (apply Nat.ltb_ge; exact Hlen).
  rewrite L. cbn [fst snd bitstreamVersion sourceNode sourceUUID].
  subst st p flags ignored version.
  unfold headerStage, packet_lastSimulated, packet_propertyFlags,
    parser_after_deltas, packet_lastEdited, parser_after_created,
    packet_created, parser_after_type, packet_id, parser_start.
  cbv zeta.
  set (ig1 := ignoreServerPacket _ _ _).
  assert (Eig : packet_ignored data args now e = ig1).
  { unfold packet_ignored, ig1, clockSkewOf, packet_lastEdited,
      parser_after_created, parser_after_type, packet_id, parser_start.
    apply ignoreServerPacket_ext; unfold acceptCreated; split_ifs;
      reflexivity. }
  assert (Eig2 : forall x y,
    packet_ignored data args now
      (acceptCreated x (clockSkewOf args) now
         (put_type y (put_id (fst (parser_read wire_rfc4122 (data, 0%nat)))
                        (setSourceUUID (sourceUUID args) e)))) = ig1).
  { intros x y. rewrite <- Eig. unfold packet_ignored.
    apply ignoreServerPacket_ext; unfold acceptCreated; split_ifs;
      reflexivity. }
  rewrite Eig2. rewrite Eig.
  unfold clockSkewOf.
  destruct ig1;
    destruct (bitstreamVersion args
              >=? VERSION_ENTITIES_HAS_LAST_SIMULATED_TIME);
    reflexivity.
Qed.

(** *** Frames of the phases *)

Lemma simulateKinematicMotion_keeps (t : float) (e : EntityItem) :
  let e' := simulateKinematicMotion t false e in
  times e' = times e /\ _simulationOwner e' = _simulationOwner e
  /\ _acceleration e' = _acceleration e /\ _dirtyFlags e' = _dirtyFlags e.
Proof.
  unfold simulateKinematicMotion, simulateLinear, simulateAngular,
    setVelocity, setPosition, setRotation, setLocalPosition,
    setLocalOrientation, locationChanged, requiresRecalcBoxes, or_dirty.
  cbn [andb]. split_ifs; repeat split.
Qed.

Lemma headerStage_frame (data : QByteArray) (args : ReadBitstreamToTreeParams)
      (now : quint64) (e : EntityItem) :
  let e' := headerStage data args now e in
  kinematics e' = kinematics e /\ _simulationOwner e' = _simulationOwner e
  /\ _dirtyFlags e' = _dirtyFlags e
  /\ _created e' =
       _created (acceptCreated (packet_created data) (clockSkewOf args) now e).
Proof.
  unfold headerStage. cbv zeta.
  assert (C : forall x y z u,
             _created (acceptCreated x (clockSkewOf args) now
                         (put_type y (put_id z (setSourceUUID u e))))
             = _created (acceptCreated x (clockSkewOf args) now e)).
  { intros. unfold acceptCreated.
    change (_created (put_type y (put_id z (setSourceUUID u e))))
      with (_created e).
    split_ifs; reflexivity. }
  destruct (packet_ignored _ _ _ _).
  - repeat split; [unfold acceptCreated; split_ifs; reflexivity ..
                  | apply C].
  - repeat split; [unfold acceptCreated; split_ifs; reflexivity ..
                  | apply C].
Qed.

Lemma headerStage_edit_stamps (data : QByteArray)
      (args : ReadBitstreamToTreeParams) (now : quint64) (e : EntityItem) :
  let e' := headerStage data args now e in
  (_lastEdited e', _lastEditedFromRemote e',
   _lastEditedFromRemoteInRemoteTime e')
  = if packet_ignored data args now e
    then (_lastEdited e, _lastEditedFromRemote e,
          _lastEditedFromRemoteInRemoteTime e)
    else (adjustLastEdited (packet_lastEdited data) (clockSkewOf args) now,
          now, packet_lastEdited data).
Proof.
  unfold headerStage. cbv zeta.
  match goal with
  | |- context [if packet_ignored data args now ?x then _ else _] =>
      replace (packet_ignored data args now x)
        with (packet_ignored data args now e)
  end.
  - destruct (packet_ignored data args now e);
      unfold acceptCreated; split_ifs; reflexivity.
  - unfold packet_ignored. apply ignoreServerPacket_ext;
      unfold acceptCreated; split_ifs; reflexivity.
Qed.

Lemma readSimulationOwner_frame (flags : EntityPropertyFlags) (st : ReadState) :
  let e' := rs_entity (readSimulationOwner flags st) in
  times e' = times (rs_entity st)
  /\ kinematics e' = kinematics (rs_entity st)
  /\ _simulationOwner e' =
       (if getHasProperty flags PROP_SIMULATION_OWNER
        then SimulationOwner_fromByteArray
               (fst (unpack wire_QByteArray (rs_dataAt st)))
        else _simulationOwner (rs_entity st)).
Proof.
  unfold readSimulationOwner, SimulationOwner_set, or_dirty.
  destruct (getHasProperty flags PROP_SIMULATION_OWNER); cbn;
    split_ifs; repeat split.
Qed.

Lemma readTerseProperties_ignored (flags : EntityPropertyFlags)
      (ow weOwn : bool) (st : ReadState) :
  ow && negb weOwn = false ->
  rs_entity (readTerseProperties flags ow weOwn st) = rs_entity st.
Proof.
  intros E. unfold readTerseProperties. cbv zeta. rewrite E.
  rewrite !READ_ignored. reflexivity.
Qed.

Lemma readTerseProperties_keeps {A : Type} (proj : EntityItem -> A)
      (flags : EntityPropertyFlags) (ow weOwn : bool) (st : ReadState) :
  (forall v e, proj (updatePosition v e) = proj e) ->
  (forall v e, proj (updateRotation v e) = proj e) ->
  (forall v e, proj (updateVelocity v e) = proj e) ->
  (forall v e, proj (updateAngularVelocity v e) = proj e) ->
  (forall v e, proj (setAcceleration v e) = proj e) ->
  proj (rs_entity (readTerseProperties flags ow weOwn st))
  = proj (rs_entity st).
Proof.
  intros K1 K2 K3 K4 K5. unfold readTerseProperties. cbv zeta.
  rewrite !(READ_keeps proj) by assumption. reflexivity.
Qed.

Lemma readOtherProperties_ignored (flags : EntityPropertyFlags) (version : Z)
      (now : quint64) (st : ReadState) :
  rs_entity (readOtherProperties flags false version now st) = rs_entity st.
Proof.
  unfold readOtherProperties. cbv zeta.
  destruct (version >=? VERSION_ENTITIES_HAS_MARKETPLACE_ID);
    rewrite !READ_ignored; reflexivity.
Qed.

Lemma readOtherProperties_frame (flags : EntityPropertyFlags) (ow : bool)
      (version : Z) (now : quint64) (st : ReadState) :
  let e' := rs_entity (readOtherProperties flags ow version now st) in
  times e' = times (rs_entity st)
  /\ kinematics e' = kinematics (rs_entity st)
  /\ _simulationOwner e' = _simulationOwner (rs_entity st).
Proof.
  cbv zeta. split; [| split].
  - other_keeps times.
  - other_keeps kinematics.
  - other_keeps _simulationOwner.
Qed.

Lemma finishRead_ignored (flags : EntityPropertyFlags) (version : Z)
      (now lsa : quint64) (myNodeID : QUuid) (st : ReadState) :
  rs_entity (finishRead flags false version now lsa myNodeID st)
  = rs_entity st.
Proof.
  unfold finishRead. cbn [andb rs_entity].
  destruct (version =? VERSION_ENTITIES_HAS_MARKETPLACE_ID_DAMAGED);
    [apply READ_ignored | reflexivity].
Qed.

Lemma finishRead_keeps {A : Type} (proj : EntityItem -> A)
      (flags : EntityPropertyFlags) (ow : bool) (version : Z)
      (now lsa : quint64) (myNodeID : QUuid) (st : ReadState) :
  (forall v e, proj (setMarketplaceID v e) = proj e) ->
  (forall t e, proj (simulateKinematicMotion t false e) = proj e) ->
  (forall v e, proj (put_lastSimulated v e) = proj e) ->
  proj (rs_entity (finishRead flags ow version now lsa myNodeID st))
  = proj (rs_entity st).
Proof.
  intros K1 K2 K3. unfold finishRead. cbn [rs_entity].
  assert (R : proj (rs_entity
                (if version =? VERSION_ENTITIES_HAS_MARKETPLACE_ID_DAMAGED
                 then READ_ENTITY_PROPERTY flags ow PROP_MARKETPLACE_ID
                        wire_QString setMarketplaceID st
                 else st)) = proj (rs_entity st)).
  { destruct (version =? _); [apply READ_keeps; exact K1 | reflexivity]. }
  rewrite <- R.
  repeat match goal with
         | |- context [if ?c then _ else _] =>
             lazymatch c with
             | (version =? _) => fail
             | _ => destruct c
             end
         end;
    rewrite ?K3, ?K2; reflexivity.
Qed.

(** Without the extrapolation the last phase keeps every projection that
    [setMarketplaceID] and the store of [_lastSimulated] keep. *)
Lemma finishRead_still {A : Type} (proj : EntityItem -> A)
      (flags : EntityPropertyFlags) (ow : bool) (version : Z)
      (now lsa : quint64) (myNodeID : QUuid) (st : ReadState) :
  (forall v e, proj (setMarketplaceID v e) = proj e) ->
  (forall v e, proj (put_lastSimulated v e) = proj e) ->
  Z.land (_dirtyFlags (rs_entity st)) (Z.lor DIRTY_TRANSFORM DIRTY_VELOCITIES)
  = 0 ->
  proj (rs_entity (finishRead flags ow version now lsa myNodeID st))
  = proj (rs_entity st).
Proof.
  intros K1 K3 D. unfold finishRead. cbn [rs_entity].
  set (st1 := if version =? VERSION_ENTITIES_HAS_MARKETPLACE_ID_DAMAGED
              then READ_ENTITY_PROPERTY flags ow PROP_MARKETPLACE_ID
                     wire_QString setMarketplaceID st
              else st).
  assert (R : proj (rs_entity st1) = proj (rs_entity st)).
  { subst st1. destruct (version =? _);
      [apply READ_keeps; exact K1 | reflexivity]. }
  assert (Rd : _dirtyFlags (rs_entity st1) = _dirtyFlags (rs_entity st)).
  { subst st1. destruct (version =? _);
      [apply READ_keeps; reflexivity | reflexivity]. }
  rewrite Rd, D. cbn [Z.eqb negb]. rewrite andb_false_r.
  rewrite <- R. destruct ow; [| reflexivity].
  destruct (negb _); [apply K3 | reflexivity].
Qed.

Ltac terse_frame :=
  intros;
  unfold updatePosition, updateRotation, updateVelocity,
    updateAngularVelocity, setAcceleration, setLocalPosition,
    setLocalOrientation, locationChanged, requiresRecalcBoxes, or_dirty;
  split_ifs; reflexivity.

Lemma times_after_header (data : QByteArray)
      (args : ReadBitstreamToTreeParams) (now : quint64) (myNodeID : QUuid)
      (e : EntityItem) :
  (bitstreamVersion args <? VERSION_ENTITIES_SUPPORT_SPLIT_MTU) = false ->
  (MINIMUM_HEADER_BYTES <= length data)%nat ->
  let e' := snd (fst (readEntityDataFromBuffer data args now myNodeID e)) in
  times e' = times (headerStage data args now e)
  /\ _dirtyFlags e' =
       _dirtyFlags
         (rs_entity
            (readOtherProperties
               (packet_propertyFlags (bitstreamVersion args) data)
               (negb (packet_ignored data args now e))
               (bitstreamVersion args) now
               (readTerseProperties
                  (packet_propertyFlags (bitstreamVersion args) data)
                  (negb (packet_ignored data args now e))
                  (matchesValidID
                     (_simulationOwner (headerStage data args now e))
                     myNodeID)
                  (readSimulationOwner
                     (packet_propertyFlags (bitstreamVersion args) data)
                     (mkReadState (headerStage data args now e)
                        (fst (snd (parser_read wire_flags
                                     (parser_after_deltas
                                        (bitstreamVersion args) data))))
                        (snd (snd (parser_read wire_flags
                                     (parser_after_deltas
                                        (bitstreamVersion args) data))))
                        false))))).
Proof.
  intros Hv Hlen e'. subst e'.
  rewrite (readEntityDataFromBuffer_phases data args now myNodeID e Hv Hlen).
  cbn [snd]. split.
  - rewrite (finishRead_keeps times);
      [| reflexivity
       | intros; apply simulateKinematicMotion_keeps
       | reflexivity].
    rewrite (proj1 (readOtherProperties_frame _ _ _ _ _)).
    rewrite (readTerseProperties_keeps times) by terse_frame.
    rewrite (proj1 (readSimulationOwner_frame _ _)). reflexivity.
  - apply (finishRead_keeps _dirtyFlags);
      [reflexivity
      | intros; apply simulateKinematicMotion_keeps
      | reflexivity].
Qed.

(** *** Acceptance *)

Lemma adjustLastEdited_min (remote : quint64) (skew : Z) (now : quint64) :
  adjustLastEdited remote skew now = Z.min (wrap64 (remote - skew)) now.
Proof.
  unfold adjustLastEdited.
  destruct (Z.gtb_spec (wrap64 (remote - skew)) now); lia.
Qed.

(** C2.  The decoder ignores a packet exactly when (a) its last-edited
    time is the one stored as the last remote edit and the local
    last-edited time is later than the time that edit was received, or
    (b) it is another edit and the local last-edited time is later than
    the packet's time less the clock skew, capped at now, or (c) the tree
    knows the entity of the packet as deleted.  An ignored packet leaves
    position, rotation, velocity and the three edit stamps as they were;
    an accepted one sets the stamps to the adjusted time, now, and the
    packet's time. *)
Theorem stale_packet_policy (data : QByteArray)
        (args : ReadBitstreamToTreeParams) (now : quint64) (myNodeID : QUuid)
        (e : EntityItem) :
  (bitstreamVersion args <? VERSION_ENTITIES_SUPPORT_SPLIT_MTU) = false ->
  (MINIMUM_HEADER_BYTES <= length data)%nat ->
  let remote := packet_lastEdited data in
  let adjusted := adjustLastEdited remote (clockSkewOf args) now in
  let ignored := packet_ignored data args now e in
  let e' := snd (fst (readEntityDataFromBuffer data args now myNodeID e)) in
  adjusted = Z.min (wrap64 (remote - clockSkewOf args)) now
  /\ (ignored = true <->
      (remote = _lastEditedFromRemoteInRemoteTime e
       /\ _lastEdited e > _lastEditedFromRemote e)
      \/ (remote <> _lastEditedFromRemoteInRemoteTime e
          /\ _lastEdited e > adjusted)
      \/ (exists tree, getTree e = Some tree
                       /\ packet_id data ∈ tree_deletedEntities tree))
  /\ (ignored = true ->
      getPosition e' = getPosition e /\ getRotation e' = getRotation e
      /\ _velocity e' = _velocity e
      /\ _lastEdited e' = _lastEdited e
      /\ _lastEditedFromRemote e' = _lastEditedFromRemote e
      /\ _lastEditedFromRemoteInRemoteTime e'
         = _lastEditedFromRemoteInRemoteTime e)
  /\ (ignored = false ->
      _lastEdited e' = adjusted /\ _lastEditedFromRemote e' = now
      /\ _lastEditedFromRemoteInRemoteTime e' = remote).
Proof.
  intros Hv Hlen remote adjusted ignored e'.
  split; [apply adjustLastEdited_min |].
  split.
  { subst ignored. unfold packet_ignored, ignoreServerPacket.
    fold remote. fold adjusted.
    change (getTree (put_id (packet_id data) e)) with (getTree e).
    change (_id (put_id (packet_id data) e)) with (packet_id data).
    change (_lastEditedFromRemoteInRemoteTime (put_id (packet_id data) e))
      with (_lastEditedFromRemoteInRemoteTime e).
    change (_lastEdited (put_id (packet_id data) e)) with (_lastEdited e).
    change (_lastEditedFromRemote (put_id (packet_id data) e))
      with (_lastEditedFromRemote e).
    unfold isDeletedEntity.
    destruct (getTree e) as [tree |].
    - destruct (bool_decide_reflect
                  (packet_id data ∈ tree_deletedEntities tree)) as [D | D].
      + split; [| reflexivity]. intros _. right. right. eauto.
      + destruct (Z.eqb_spec remote (_lastEditedFromRemoteInRemoteTime e)).
        * destruct (Z.gtb_spec (_lastEdited e) (_lastEditedFromRemote e));
            split; try discriminate; try reflexivity.
          -- intros _. left. lia.
          -- intros [[_ G] | [[N _] | (t & Et & Dt)]];
               [lia | congruence | congruence].
        * destruct (Z.gtb_spec (_lastEdited e) adjusted);
            split; try discriminate; try reflexivity.
          -- intros _. right. left. lia.
          -- intros [[E _] | [[_ G] | (t & Et & Dt)]];
               [congruence | lia | congruence].
    - destruct (Z.eqb_spec remote (_lastEditedFromRemoteInRemoteTime e)).
      * destruct (Z.gtb_spec (_lastEdited e) (_lastEditedFromRemote e));
          split; try discriminate; try reflexivity.
        -- intros _. left. lia.
        -- intros [[_ G] | [[N _] | (t & Et & Dt)]];
             [lia | congruence | congruence].
      * destruct (Z.gtb_spec (_lastEdited e) adjusted);
          split; try discriminate; try reflexivity.
        -- intros _. right. left. lia.
        -- intros [[E _] | [[_ G] | (t & Et & Dt)]];
             [congruence | lia | congruence]. }
  destruct (times_after_header data args now myNodeID e Hv Hlen) as [T _].
  fold e' in T.
  pose proof (headerStage_edit_stamps data args now e) as S.
  cbv zeta in S. fold ignored in S.
  unfold times in T.
  split.
  - intros Hig. rewrite Hig in S.
    assert (K : kinematics e' = kinematics e).
    { subst e'.
      rewrite (readEntityDataFromBuffer_phases data args now myNodeID e
                 Hv Hlen).
      cbn [snd]. fold ignored. rewrite Hig. cbn [negb].
      rewrite finishRead_ignored, readOtherProperties_ignored.
      rewrite readTerseProperties_ignored by reflexivity.
      rewrite (proj1 (proj2 (readSimulationOwner_frame _ _))).
      cbn [rs_entity]. apply headerStage_frame. }
    unfold kinematics in K. unfold getPosition, getRotation.
    repeat split; congruence.
  - intros Hig. rewrite Hig in S. fold remote adjusted in S.
    repeat split; congruence.
Qed.

(** *** Ownership and the transform gate *)

(** The record [own] with the position, the rotation, the velocities and
    the acceleration of [e]. *)
Definition withKinematicsOf (e own : EntityItem) : EntityItem :=
  put_localPosition (_localPosition e)
    (put_localOrientation (_localOrientation e)
       (put_velocity (_velocity e)
          (put_angularVelocity (_angularVelocity e)
             (put_acceleration (_acceleration e) own)))).

(** The time the decoder extrapolates over: from the simulation time of
    the packet to now, in seconds. *)
Definition skipTimeForward (now lastSimulatedFromBufferAdjusted : quint64)
  : float :=
  Float32.div (Float32.of_Z (wrap64 (now - lastSimulatedFromBufferAdjusted)))
              (Float32.of_Z USECS_PER_SECOND).

(** Two records that agree on position, rotation, velocities, acceleration
    and the dampings. *)
Definition sameMotion (m1 m2 : EntityItem) : Prop :=
  kinematics m1 = kinematics m2
  /\ _damping m1 = _damping m2
  /\ _angularDamping m1 = _angularDamping m2.

Lemma simulateAngular_sameMotion (t : float) (setFlags : bool)
      (m1 m2 : EntityItem) :
  sameMotion m1 m2 ->
  sameMotion (simulateAngular t setFlags m1) (simulateAngular t setFlags m2).
Proof.
  unfold sameMotion, kinematics. intros (K & D & A).
  injection K as K1 K2 K3 K4 K5.
  unfold simulateAngular, setRotation, setLocalOrientation, locationChanged,
    requiresRecalcBoxes, getRotation, or_dirty.
  rewrite A.
  destruct (Float32.gtb _ _); cbn; rewrite ?K4, ?K2;
    destruct (Float32.ltb _ _); try destruct (setFlags && _); cbn;
    repeat split; congruence.
Qed.

Lemma simulateLinear_sameMotion (t : float) (setFlags : bool)
      (m1 m2 : EntityItem) :
  sameMotion m1 m2 ->
  sameMotion (simulateLinear t setFlags m1) (simulateLinear t setFlags m2).
Proof.
  unfold sameMotion, kinematics. intros (K & D & A).
  injection K as K1 K2 K3 K4 K5.
  unfold simulateLinear, setVelocity, setPosition, setLocalPosition,
    locationChanged, requiresRecalcBoxes, getPosition, hasAcceleration,
    or_dirty.
  rewrite D, K1, K3, K5.
  destruct (Float32.gtb _ _); cbn;
    destruct (Vec3.neb _ _); cbn;
    destruct (Float32.ltb _ _); try destruct (setFlags && _); cbn;
    repeat split; congruence.
Qed.

(** Where the extrapolation takes position, rotation and velocities
    depends on them, on the acceleration, on the dampings and on whether
    there are actions, and on nothing else of the record. *)
Lemma simulateKinematicMotion_kinematics_ext (t : float) (setFlags : bool)
      (m1 m2 : EntityItem) :
  kinematics m1 = kinematics m2 ->
  _damping m1 = _damping m2 ->
  _angularDamping m1 = _angularDamping m2 ->
  _objectActions m1 = _objectActions m2 ->
  kinematics (simulateKinematicMotion t setFlags m1)
  = kinematics (simulateKinematicMotion t setFlags m2).
Proof.
  intros K D A O.
  assert (S0 : sameMotion m1 m2) by (repeat split; assumption).
  unfold simulateKinematicMotion, hasActions. rewrite O.
  destruct (negb _); [exact K |].
  set (a1 := if hasAngularVelocity m1 then _ else m1).
  set (a2 := if hasAngularVelocity m2 then _ else m2).
  assert (S1 : sameMotion a1 a2).
  { subst a1 a2. unfold hasAngularVelocity.
    replace (_angularVelocity m1) with (_angularVelocity m2)
      by (unfold kinematics in K; congruence).
    destruct (Vec3.neb _ _);
      [apply simulateAngular_sameMotion |]; exact S0. }
  clearbody a1 a2. unfold hasVelocity.
  replace (_velocity a1) with (_velocity a2)
    by (destruct S1 as (K1 & _); unfold kinematics in K1; congruence).
  destruct (Vec3.neb _ _);
    [apply simulateLinear_sameMotion |]; apply S1.
Qed.
Lemma finishRead_kinematics (flags : EntityPropertyFlags) (ow : bool)
      (version : Z) (now lsa : quint64) (myNodeID : QUuid) (st : ReadState) :
  let e' := rs_entity (finishRead flags ow version now lsa myNodeID st) in
  kinematics e'
  = kinematics
      (if ow && negb (Z.land (_dirtyFlags e')
                             (Z.lor DIRTY_TRANSFORM DIRTY_VELOCITIES) =? 0)
       then simulateKinematicMotion (skipTimeForward now lsa) false
              (withKinematicsOf (rs_entity st) e')
       else rs_entity st).
Proof.
  cbv zeta.
  assert (Dd : _dirtyFlags (rs_entity (finishRead flags ow version now lsa
                                          myNodeID st))
               = _dirtyFlags (rs_entity st)).
  { apply (finishRead_keeps _dirtyFlags);
      [reflexivity | intros; apply simulateKinematicMotion_keeps
      | reflexivity]. }
  assert (Da : _damping (rs_entity (finishRead flags ow version now lsa
                                      myNodeID st))
               = _damping (rs_entity st)).
  { apply (finishRead_keeps _damping); [reflexivity | | reflexivity].
    intros. unfold simulateKinematicMotion, simulateLinear, simulateAngular,
      setVelocity, setPosition, setRotation, setLocalPosition,
      setLocalOrientation, locationChanged, requiresRecalcBoxes, or_dirty.
    split_ifs; reflexivity. }
  assert (Dg : _angularDamping (rs_entity (finishRead flags ow version now
                                             lsa myNodeID st))
               = _angularDamping (rs_entity st)).
  { apply (finishRead_keeps _angularDamping); [reflexivity | | reflexivity].
    intros. unfold simulateKinematicMotion, simulateLinear, simulateAngular,
      setVelocity, setPosition, setRotation, setLocalPosition,
      setLocalOrientation, locationChanged, requiresRecalcBoxes, or_dirty.
    split_ifs; reflexivity. }
  assert (Do : _objectActions (rs_entity (finishRead flags ow version now
                                            lsa myNodeID st))
               = _objectActions (rs_entity st)).
  { apply (finishRead_keeps _objectActions); [reflexivity | | reflexivity].
    intros. unfold simulateKinematicMotion, simulateLinear, simulateAngular,
      setVelocity, setPosition, setRotation, setLocalPosition,
      setLocalOrientation, locationChanged, requiresRecalcBoxes, or_dirty.
    split_ifs; reflexivity. }
  rewrite Dd.
  set (target := withKinematicsOf (rs_entity st) _).
  assert (Tk : kinematics target = kinematics (rs_entity st))
    by reflexivity.
  assert (Ta : _damping target = _damping (rs_entity st))
    by (subst target; cbn; exact Da).
  assert (Tg : _angularDamping target = _angularDamping (rs_entity st))
    by (subst target; cbn; exact Dg).
  assert (To : _objectActions target = _objectActions (rs_entity st))
    by (subst target; cbn; exact Do).
  clearbody target.
  unfold finishRead. cbn [rs_entity]. fold (skipTimeForward now lsa).
  set (st1 := if version =? VERSION_ENTITIES_HAS_MARKETPLACE_ID_DAMAGED
              then READ_ENTITY_PROPERTY flags ow PROP_MARKETPLACE_ID
                     wire_QString setMarketplaceID st
              else st).
  assert (R : forall {A : Type} (proj : EntityItem -> A),
             (forall v e, proj (setMarketplaceID v e) = proj e) ->
             proj (rs_entity st1) = proj (rs_entity st)).
  { intros A proj K. subst st1. destruct (version =? _);
      [apply READ_keeps; exact K | reflexivity]. }
  rewrite (R _ _dirtyFlags) by reflexivity.
  assert (E : kinematics
                (simulateKinematicMotion (skipTimeForward now lsa) false
                   (rs_entity st1))
              = kinematics
                  (simulateKinematicMotion (skipTimeForward now lsa) false
                     target)).
  { apply simulateKinematicMotion_kinematics_ext.
    - rewrite Tk. apply (R _ kinematics). reflexivity.
    - rewrite Ta. apply (R _ _damping). reflexivity.
    - rewrite Tg. apply (R _ _angularDamping). reflexivity.
    - rewrite To. apply (R _ _objectActions). reflexivity. }
  destruct ow; cbn [andb].
  - destruct (negb (Z.land (_dirtyFlags (rs_entity st))
                           (Z.lor DIRTY_TRANSFORM DIRTY_VELOCITIES) =? 0)).
    + rewrite <- E. destruct (negb _); reflexivity.
    + rewrite <- (R _ kinematics) by reflexivity.
      destruct (negb _); reflexivity.
  - rewrite <- (R _ kinematics) by reflexivity. reflexivity.
Qed.

(** C3.  Simulation-owner data of a packet is applied whether or not the
    packet is ignored.  When the packet is ignored or the local node owns
    the simulation as the call starts, none of the position, rotation,
    velocity, angular velocity and acceleration the packet carries is
    stored.  The acceleration is as before.  Position, rotation and
    velocities are as before when the packet is ignored or no transform
    or velocity dirty bit is set; otherwise they are what the
    extrapolation to now makes of the position, rotation and velocities
    of before, not of those of the packet. *)
Theorem ownership_applied_transform_gated (data : QByteArray)
        (args : ReadBitstreamToTreeParams) (now : quint64) (myNodeID : QUuid)
        (e : EntityItem) :
  (bitstreamVersion args <? VERSION_ENTITIES_SUPPORT_SPLIT_MTU) = false ->
  (MINIMUM_HEADER_BYTES <= length data)%nat ->
  let version := bitstreamVersion args in
  let flags := packet_propertyFlags version data in
  let ignored := packet_ignored data args now e in
  let weOwnSimulation := matchesValidID (_simulationOwner e) myNodeID in
  let e' := snd (fst (readEntityDataFromBuffer data args now myNodeID e)) in
  _simulationOwner e' =
    (if getHasProperty flags PROP_SIMULATION_OWNER
     then packet_simulationOwner version data
     else _simulationOwner e)
  /\ (ignored = true \/ weOwnSimulation = true ->
      _acceleration e' = _acceleration e
      /\ kinematics e'
         = kinematics
             (if negb ignored
                 && negb (Z.land (_dirtyFlags e')
                                 (Z.lor DIRTY_TRANSFORM DIRTY_VELOCITIES)
                          =? 0)
              then simulateKinematicMotion
                     (skipTimeForward now
                        (packet_lastSimulated data args now ignored))
                     false (withKinematicsOf e e')
              else e)
      /\ (ignored = true
          \/ Z.land (_dirtyFlags e') (Z.lor DIRTY_TRANSFORM DIRTY_VELOCITIES)
             = 0 ->
          getPosition e' = getPosition e /\ getRotation e' = getRotation e
          /\ _velocity e' = _velocity e
          /\ _angularVelocity e' = _angularVelocity e)).
Proof.
  intros Hv Hlen version flags ignored weOwnSimulation e'.
  destruct (times_after_header data args now myNodeID e Hv Hlen) as [_ Dty].
  fold e' in Dty. fold version in Dty. fold flags in Dty. fold ignored in Dty.
  pose proof (readEntityDataFromBuffer_phases data args now myNodeID e
                Hv Hlen) as Ph.
  cbv zeta in Ph. fold version in Ph. fold flags in Ph. fold ignored in Ph.
  assert (Ee : e' = snd (fst (readEntityDataFromBuffer data args now
                                myNodeID e))) by reflexivity.
  rewrite Ph in Ee. cbn [snd] in Ee.
  destruct (headerStage_frame data args now e) as (Hk & Ho & _ & _).
  rewrite Ho in Ee, Dty. fold weOwnSimulation in Ee, Dty.
  split.
  - rewrite Ee.
    rewrite (finishRead_keeps _simulationOwner);
      [| reflexivity
       | intros; apply simulateKinematicMotion_keeps
       | reflexivity].
    rewrite (proj2 (proj2 (readOtherProperties_frame _ _ _ _ _))).
    rewrite (readTerseProperties_keeps _simulationOwner) by terse_frame.
    rewrite (proj2 (proj2 (readSimulationOwner_frame _ _))).
    cbn [rs_entity rs_dataAt]. rewrite Ho. reflexivity.
  - intros Gate.
    assert (G : negb ignored && negb weOwnSimulation = false).
    { destruct Gate as [G | G]; rewrite G;
        [reflexivity | apply andb_false_r]. }
    set (st2 := readOtherProperties flags (negb ignored) version now
                  (readTerseProperties flags (negb ignored) weOwnSimulation
                     (readSimulationOwner flags
                        (mkReadState (headerStage data args now e)
                           (fst (snd (parser_read wire_flags
                                        (parser_after_deltas version data))))
                           (snd (snd (parser_read wire_flags
                                        (parser_after_deltas version data))))
                           false)))) in *.
    assert (K2 : kinematics (rs_entity st2) = kinematics e).
    { subst st2.
      rewrite (proj1 (proj2 (readOtherProperties_frame _ _ _ _ _))).
      rewrite readTerseProperties_ignored by exact G.
      rewrite (proj1 (proj2 (readSimulationOwner_frame _ _))).
      cbn [rs_entity]. exact Hk. }
    split; [| split].
    + rewrite Ee.
      rewrite (finishRead_keeps _acceleration);
        [| reflexivity
         | intros; apply simulateKinematicMotion_keeps
         | reflexivity].
      unfold kinematics in K2. congruence.
    + pose proof (finishRead_kinematics flags (negb ignored) version now
                    (packet_lastSimulated data args now ignored) myNodeID
                    st2) as F.
      cbv zeta in F. rewrite <- Ee in F. rewrite F.
      destruct (negb ignored
                && negb (Z.land (_dirtyFlags e')
                                (Z.lor DIRTY_TRANSFORM DIRTY_VELOCITIES)
                         =? 0)); [| exact K2].
      apply simulateKinematicMotion_kinematics_ext;
        [unfold kinematics in *; cbn; exact K2 | reflexivity ..].
    + intros Still.
      assert (K : kinematics e' = kinematics e).
      { rewrite Ee. rewrite <- K2.
        destruct Still as [Hig | Hd].
        - rewrite Hig. cbn [negb]. rewrite finishRead_ignored. reflexivity.
        - apply finishRead_still; [reflexivity | reflexivity |].
          rewrite <- Dty. exact Hd. }
      unfold kinematics in K. unfold getPosition, getRotation.
      repeat split; congruence.
Qed.

(** *** The creation time *)

Lemma SET_keeps {A T : Type} (proj : EntityItem -> A) (p : option T)
      (M : T -> EntityItem -> EntityItem) (st : EntityItem * bool) :
  (forall v e, proj (M v e) = proj e) ->
  proj (fst (SET_ENTITY_PROPERTY_FROM_PROPERTIES p M st)) = proj (fst st).
Proof.
  intros K. unfold SET_ENTITY_PROPERTY_FROM_PROPERTIES.
  destruct p; [apply K | reflexivity].
Qed.

Ltac property_frame :=
  first
    [ setter_frame
    | ledger_frame
    | intros; unfold updateSimulationOwner, SimulationOwner_set, or_dirty,
        setGlowLevel, setLocalRenderAlpha;
      cbv beta iota zeta; split_ifs; reflexivity ].

Lemma setProperties_created (properties : EntityItemProperties)
      (now : quint64) (e : EntityItem) :
  _created e <> UNKNOWN_CREATED_TIME ->
  _created (snd (setProperties properties now e))
  = if p_createdChanged properties then p_created properties
    else _created e.
Proof.
  intros Known. unfold setProperties. cbv zeta. cbn [snd].
  match goal with
  | |- context [SET_ENTITY_PROPERTY_FROM_PROPERTIES
                  (p_queryAACube properties) setQueryAACube ?s] =>
      set (chain := SET_ENTITY_PROPERTY_FROM_PROPERTIES
                      (p_queryAACube properties) setQueryAACube s)
  end.
  assert (C : _created (fst chain)
              = if p_createdChanged properties then p_created properties
                else _created e).
  { subst chain.
    repeat (rewrite (SET_keeps _created) by property_frame).
    destruct (p_createdChanged properties).
    - unfold SET_ENTITY_PROPERTY_FROM_PROPERTIES at 1. cbn [fst].
      unfold updateCreated.
      match goal with
      | |- context [negb (?a =? ?b)] => destruct (Z.eqb_spec a b)
      end; cbn [negb]; [assumption | reflexivity].
    - unfold SET_ENTITY_PROPERTY_FROM_PROPERTIES at 1.
      repeat (rewrite (SET_keeps _created) by property_frame).
      reflexivity. }
  set (e1 := if snd chain then _ else fst chain).
  assert (C1 : _created e1 = _created (fst chain)).
  { subst e1. unfold setLastEdited. split_ifs; reflexivity. }
  rewrite <- C, <- C1.
  destruct (Z.eqb_spec (_created e1) UNKNOWN_CREATED_TIME) as [U | U];
    cbn [andb]; [| reflexivity].
  destruct (Z.eqb_spec (p_created properties) UNKNOWN_CREATED_TIME) as [V | V];
    cbn [negb]; [reflexivity |].
  exfalso. rewrite C1, C in U.
  destruct (p_createdChanged properties); congruence.
Qed.

(** C8.  Once the creation time of a record is known, decoding a packet
    and [recordCreationTime] leave it as it is, and so does
    [setProperties] when the property set does not mark [created] as
    changed; a property set that marks it changed overwrites it through
    [updateCreated] with the value it carries, whatever that is. *)
Theorem created_kept_unless_property_changed (e : EntityItem) :
  _created e <> UNKNOWN_CREATED_TIME ->
  (forall data args now myNodeID,
      _created (snd (fst (readEntityDataFromBuffer data args now myNodeID e)))
      = _created e)
  /\ (forall now, _created (recordCreationTime now e) = _created e)
  /\ (forall properties now,
         _created (snd (setProperties properties now e))
         = if p_createdChanged properties then p_created properties
           else _created e).
Proof.
  intros Known. split; [| split].
  - intros data args now myNodeID.
    destruct (bitstreamVersion args <? VERSION_ENTITIES_SUPPORT_SPLIT_MTU)
      eqn:Hv.
    { unfold readEntityDataFromBuffer. rewrite Hv. reflexivity. }
    destruct (Nat.ltb_spec (length data) MINIMUM_HEADER_BYTES) as [L | L].
    { pose proof (truncated_buffer_reads_nothing data args now myNodeID e L)
        as [_ T].
      rewrite T, Hv. reflexivity. }
    destruct (times_after_header data args now myNodeID e Hv L) as [T _].
    destruct (headerStage_frame data args now e) as (_ & _ & _ & C).
    unfold times in T.
    assert (E : _created (snd (fst (readEntityDataFromBuffer data args now
                                      myNodeID e)))
                = _created (headerStage data args now e)) by congruence.
    rewrite E, C. unfold acceptCreated.
    destruct (Z.eqb_spec (_created e) UNKNOWN_CREATED_TIME);
      [contradiction | reflexivity].
  - intros now. unfold recordCreationTime.
    destruct (Z.eqb_spec (_created e) UNKNOWN_CREATED_TIME);
      [contradiction | reflexivity].
  - intros properties now. apply setProperties_created. exact Known.
Qed.

End DecoderProperties.

(** *** The decoder, run *)

Section DecoderExamples.
Import Reference.

(** A sender last edited at 1000, at position (5,5,5), owned by node 7. *)
Definition exampleSender : EntityItem :=
  put_simulationOwner (mkSimulationOwner 7%N 3)
    (put_lastEdited 1000
       (put_localPosition (vec 5 5 5)
          (put_id (2 ^ 40)%N (newEntity 1%N 1000)))).

Definition packetOf (requested : EntityPropertyFlags) (sender : EntityItem)
  : QByteArray :=
  match appendEntityData (mkOctreePacketData [] 1000)
                         (Some {[ _id sender := requested ]}) sender with
  | Some sent => pd_bytes (snd (fst sent))
  | None => []
  end.

(** Its packets: the position alone, and the owner with the position. *)
Definition positionPacket : QByteArray :=
  Eval vm_compute in packetOf (flags_add 0%N PROP_POSITION) exampleSender.
Definition ownerPacket : QByteArray :=
  Eval vm_compute in
    packetOf (flags_add (flags_add 0%N PROP_POSITION) PROP_SIMULATION_OWNER)
             exampleSender.

Definition exampleArgs : ReadBitstreamToTreeParams :=
  mkReadBitstreamToTreeParams 18 77%N None 0.

(** A receiver that moves at (1,0,0), has a pending velocity change, and
    is simulated by the local node 9. *)
Definition owningReceiver : EntityItem :=
  put_dirtyFlags DIRTY_LINEAR_VELOCITY
    (put_velocity (vec 1 0 0)
       (put_simulationOwner (mkSimulationOwner 9%N 1)
          (put_created 10 (newEntity 1%N 0)))).

(** The same receiver after a local edit at 5000. *)
Definition editedReceiver : EntityItem := put_lastEdited 5000 owningReceiver.

Lemma truncated_buffer_reads_nothing_witness :
  fst (fst (readEntityDataFromBuffer [] exampleArgs 2000000 9%N
              owningReceiver)) = 0%nat.
Proof.
  refine (proj1 (truncated_buffer_reads_nothing [] exampleArgs 2000000 9%N
                   owningReceiver _)).
  vm_compute. lia.
Defined.

(** An empty buffer changes the record: its source id becomes that of the
    packet's sender. *)
Lemma truncated_buffer_sets_source_id :
  let r := readEntityDataFromBuffer [] exampleArgs 2000000 9%N owningReceiver in
  fst (fst r) = 0%nat
  /\ _sourceUUID owningReceiver = 0%N
  /\ _sourceUUID (snd (fst r)) = 77%N.
Proof. vm_compute. repeat split. Qed.

Lemma example_packets_long_enough :
  (MINIMUM_HEADER_BYTES <= length positionPacket)%nat
  /\ (MINIMUM_HEADER_BYTES <= length ownerPacket)%nat.
Proof. split; apply Nat.leb_le; vm_compute; reflexivity. Defined.

(** The packet of an edit at 1000 meets a local edit at 5000: it is
    ignored and the position stays. *)
Lemma stale_packet_policy_witness :
  let e' :=
    snd (fst (readEntityDataFromBuffer positionPacket exampleArgs 2000000 9%N
                editedReceiver)) in
  packet_ignored positionPacket exampleArgs 2000000 editedReceiver = true
  /\ getPosition e' = getPosition editedReceiver.
Proof.
  cbv zeta. split; [vm_compute; reflexivity |].
  refine (proj1 (proj1 (proj2 (proj2 (stale_packet_policy positionPacket
            exampleArgs 2000000 9%N editedReceiver _ _))) _)).
  - vm_compute; reflexivity.
  - exact (proj1 example_packets_long_enough).
  - vm_compute; reflexivity.
Defined.

(** The ignored packet still hands over the owner it carries. *)
Lemma ownership_applied_transform_gated_witness :
  _simulationOwner
    (snd (fst (readEntityDataFromBuffer ownerPacket exampleArgs 2000000 9%N
                 editedReceiver)))
  = mkSimulationOwner 7%N 3.
Proof.
  refine (eq_trans
            (proj1 (ownership_applied_transform_gated ownerPacket exampleArgs
                      2000000 9%N editedReceiver _ _)) _).
  - vm_compute; reflexivity.
  - exact (proj2 example_packets_long_enough).
  - vm_compute; reflexivity.
Defined.

(** The local node owns the simulation and a packet with a position
    arrives: the position of the packet is not stored, yet the position
    moves, by the extrapolation of the record's own velocity. *)
Lemma owner_position_moves_by_extrapolation :
  let e' :=
    snd (fst (readEntityDataFromBuffer positionPacket exampleArgs 2000000 9%N
                owningReceiver)) in
  matchesValidID (_simulationOwner owningReceiver) 9%N = true
  /\ getHasProperty (packet_propertyFlags 18 positionPacket) PROP_POSITION
     = true
  /\ getPosition owningReceiver = vec 0 0 0
  /\ getPosition e' = vec 1 0 0.
Proof. vm_compute. repeat split. Qed.

Definition noProperties : EntityItemProperties := {|
  p_simulationOwner := None; p_position := None; p_rotation := None;
  p_velocity := None; p_angularVelocity := None; p_acceleration := None;
  p_dimensions := None; p_registrationPoint := None; p_density := None;
  p_gravity := None; p_damping := None; p_angularDamping := None;
  p_restitution := None; p_friction := None; p_collisionless := None;
  p_collisionMask := None; p_dynamic := None;
  p_created := 0; p_createdChanged := false;
  p_lifetime := None; p_script := None; p_scriptTimestamp := None;
  p_collisionSoundURL := None; p_glowLevel := None;
  p_localRenderAlpha := None; p_visible := None; p_locked := None;
  p_userData := None; p_marketplaceID := None; p_name := None;
  p_href := None; p_description := None; p_actionData := None;
  p_parentID := None; p_parentJointIndex := None; p_queryAACube := None
|}.

(** A property set that marks [created] changed, with the value 5. *)
Definition createdFive : EntityItemProperties :=
  Eval cbv in
    match noProperties with
    | mkEntityItemProperties a b c d e f g h i j k l m n o p q _ _
                             r s t u v w x y z a1 b1 c1 d1 e1 f1 g1 h1 =>
        mkEntityItemProperties a b c d e f g h i j k l m n o p q 5 true
                               r s t u v w x y z a1 b1 c1 d1 e1 f1 g1 h1
    end.

Lemma created_kept_unless_property_changed_witness :
  _created (snd (fst (readEntityDataFromBuffer positionPacket exampleArgs
                        2000000 9%N owningReceiver))) = 10.
Proof.
  refine (proj1 (created_kept_unless_property_changed owningReceiver _)
                positionPacket exampleArgs 2000000 9%N).
  vm_compute. discriminate.
Defined.

(** The creation time 10 of a record is known; [setProperties] with a
    changed [created] of 5 moves it back to 5. *)
Lemma set_properties_moves_created_back :
  _created owningReceiver = 10
  /\ _created (snd (setProperties createdFive 2000000 owningReceiver)) = 5.
Proof. vm_compute. repeat split. Qed.

End DecoderExamples.

(** ** The action ledger *)

(** The blob of a set of actions, as [serializeActions] writes it. *)
Definition blobOf (actions : gmap QUuid EntityAction) : QByteArray :=
  QDataStream.write_QVector
    (map (fun kv => action_serialize (snd kv)) (map_to_list actions)).


Section LedgerProperties.
Context `{SimulationFlags} `{EntityActionFactoryInterface}.

Lemma serializeActions_blobOf (result : QByteArray) (e : EntityItem) :
  serializeActions result e =
    if bool_decide (_objectActions e = ∅) then (true, [])
    else
      let written :=
        QDataStream.write_over (blobOf (_objectActions e)) result in
      if Z.of_nat (length written) >=? _maxActionsDataSize
      then (false, written)
      else (true, written).
Proof. reflexivity. Qed.

Lemma serializeActions_same_actions (result : QByteArray)
      (e e' : EntityItem) :
  _objectActions e = _objectActions e' ->
  serializeActions result e = serializeActions result e'.
Proof. intros E. rewrite !serializeActions_blobOf, E. reflexivity. Qed.

Lemma write_over_nil (written : QByteArray) :
  QDataStream.write_over written [] = written.
Proof.
  unfold QDataStream.write_over. rewrite drop_nil. apply app_nil_r.
Qed.

Lemma write_over_same (written : QByteArray) :
  QDataStream.write_over written written = written.
Proof.
  unfold QDataStream.write_over. rewrite drop_all. apply app_nil_r.
Qed.

(** C6.  When the blob of the ledger with the new action in it reaches
    800 bytes, [addAction] fails; the action is not in the ledger
    afterwards, and the id of the rejected action is entered in the
    tombstones with the time of the call.  The cache is the serialisation
    of what is left, written over the cache of before.  With an id that
    was not in the ledger before, the set of actions is the one before
    the addition (pending removals done), and the cache is the one of
    before when that was the serialisation of the ledger. *)
Theorem add_action_overflow_rolls_back (action : EntityAction)
        (now : quint64) (e : EntityItem) :
  let e1 := checkWaitingToRemove now e in
  let id := act_id action in
  _maxActionsDataSize
  <= Z.of_nat (length (blobOf (<[id := action]> (_objectActions e1)))) ->
  let r := addAction action now e in
  fst r = false
  /\ _objectActions (snd r) = delete id (_objectActions e1)
  /\ _previouslyDeletedActions (snd r)
     = <[id := now]> (_previouslyDeletedActions e1)
  /\ _allActionsDataCache (snd r)
     = snd (serializeActions (_allActionsDataCache e1)
              (put_objectActions (delete id (_objectActions e1)) e1))
  /\ (_objectActions e1 !! id = None ->
      _objectActions (snd r) = _objectActions e1
      /\ _allActionsDataCache (snd r)
         = snd (serializeActions (_allActionsDataCache e1) e1)
      /\ (_allActionsDataCache e1 = snd (serializeActions [] e1) ->
          _allActionsDataCache (snd r) = _allActionsDataCache e1)).
Proof.
  intros e1 id Hbig r.
  assert (R : r = (false,
                   snd (removeActionInternal id now
                          (put_objectActions
                             (<[id := action]> (_objectActions e1)) e1)))).
  { subst r. unfold addAction. fold e1. unfold addActionInternal. fold id.
    rewrite serializeActions_blobOf.
    change (_objectActions
              (put_objectActions (<[id := action]> (_objectActions e1)) e1))
      with (<[id := action]> (_objectActions e1)).
    rewrite bool_decide_eq_false_2 by apply insert_non_empty.
    cbv zeta. rewrite write_over_nil.
    assert (G : (Z.of_nat (length
                   (blobOf (<[id := action]> (_objectActions e1))))
                 >=? _maxActionsDataSize) = true)
      by (apply Z.geb_le; lia).
    rewrite G. reflexivity. }
  assert (S : snd r =
              setActionDataNeedsTransmit true
                (or_dirty DIRTY_PHYSICS_ACTIVATION
                   (put_allActionsDataCache
                      (snd (serializeActions (_allActionsDataCache e1)
                              (put_objectActions
                                 (delete id (_objectActions e1)) e1)))
                      (put_objectActions (delete id (_objectActions e1))
                         (put_previouslyDeletedActions
                            (<[id := now]> (_previouslyDeletedActions e1))
                            (put_objectActions
                               (<[id := action]> (_objectActions e1))
                               e1)))))).
  { rewrite R. cbn [snd]. unfold removeActionInternal.
    change (_objectActions
              (put_previouslyDeletedActions ?m
                 (put_objectActions (<[id := action]> (_objectActions e1))
                                    e1)))
      with (<[id := action]> (_objectActions e1)).
    rewrite lookup_insert_eq. rewrite delete_insert_eq.
    change (_allActionsDataCache (put_objectActions ?m ?x))
      with (_allActionsDataCache x).
    change (_allActionsDataCache (put_previouslyDeletedActions ?m ?x))
      with (_allActionsDataCache x).
    change (_allActionsDataCache (put_objectActions ?m ?x))
      with (_allActionsDataCache x).
    match goal with
    | |- context [serializeActions ?c ?x] =>
        rewrite (serializeActions_same_actions c x
                   (put_objectActions (delete id (_objectActions e1)) e1))
          by reflexivity
    end.
    destruct (serializeActions _ _). reflexivity. }
  split; [rewrite R; reflexivity |].
  rewrite S.
  split; [reflexivity |]. split; [reflexivity |]. split; [reflexivity |].
  intros Fresh.
  change (_objectActions (setActionDataNeedsTransmit true _))
    with (delete id (_objectActions e1)).
  change (_allActionsDataCache (setActionDataNeedsTransmit true _))
    with (snd (serializeActions (_allActionsDataCache e1)
                 (put_objectActions (delete id (_objectActions e1)) e1))).
  rewrite (delete_id _ _ Fresh).
  assert (Same : serializeActions (_allActionsDataCache e1)
                   (put_objectActions (_objectActions e1) e1)
                 = serializeActions (_allActionsDataCache e1) e1)
    by (apply serializeActions_same_actions; reflexivity).
  rewrite Same.
  split; [reflexivity |]. split; [reflexivity |].
  intros Coherent.
  assert (W : forall b : QByteArray,
             snd (if Z.of_nat (length b) >=? _maxActionsDataSize
                  then (false, b) else (true, b)) = b)
    by (intros b; destruct (_ >=? _); reflexivity).
  rewrite serializeActions_blobOf in Coherent |- *.
  destruct (bool_decide (_objectActions e1 = ∅)).
  - symmetry. exact Coherent.
  - cbv zeta in Coherent |- *.
    rewrite write_over_nil, W in Coherent.
    rewrite W, Coherent. apply write_over_same.
Qed.
End LedgerProperties.

(** * Further properties *)

(** ** Ordering of binary32 values *)

Definition is_nan (x : float) : bool :=
  match x with S754_nan => true | _ => false end.

(** [lo <= x <= hi] with the comparisons of the source. *)
Definition within (lo hi x : float) : bool :=
  Float32.leb lo x && Float32.leb x hi.

Lemma SFcompare_antisym (x y : float) :
  SFcompare y x = option_map CompOpp (SFcompare x y).
Proof.
  destruct x as [sx | sx | | sx mx ex], y as [sy | sy | | sy my ey];
    cbn [SFcompare option_map];
    try reflexivity;
    try (destruct sx; reflexivity); try (destruct sy; reflexivity);
    try (destruct sx, sy; reflexivity).
  change (Pos.compare_cont Eq ?a ?b) with (Pos.compare a b).
  rewrite (Z.compare_antisym ey ex), (Pos.compare_antisym my mx).
  destruct sx, sy; cbn; try reflexivity;
    destruct (ey ?= ex); cbn; try reflexivity;
    destruct (Pos.compare my mx); reflexivity.
Qed.

Lemma SFcompare_refl (x : float) :
  is_nan x = false -> SFcompare x x = Some Eq.
Proof.
  destruct x as [s | s | | s m e]; cbn; intros N;
    try reflexivity; try discriminate.
  - destruct s; reflexivity.
  - change (Pos.compare_cont Eq ?a ?b) with (Pos.compare a b).
    rewrite Z.compare_refl, Pos.compare_refl. destruct s; reflexivity.
Qed.

Lemma SFcompare_nan (x y : float) :
  SFcompare x y = None <-> is_nan x = true \/ is_nan y = true.
Proof.
  destruct x as [sx | sx | | sx mx ex], y as [sy | sy | | sy my ey]; cbn;
    split; intros H; try discriminate; try tauto;
    try (destruct H; discriminate); auto.
Qed.

Lemma ltb_not_nan (x y : float) :
  Float32.ltb x y = true -> is_nan x = false /\ is_nan y = false.
Proof.
  unfold Float32.ltb, SFltb. intros L.
  destruct (SFcompare x y) eqn:C; [| discriminate].
  destruct (is_nan x) eqn:Nx, (is_nan y) eqn:Ny; try tauto;
    assert (SFcompare x y = None) by (apply SFcompare_nan; tauto);
    congruence.
Qed.

Lemma leb_not_nan (x y : float) :
  Float32.leb x y = true -> is_nan x = false /\ is_nan y = false.
Proof.
  unfold Float32.leb, SFleb. intros L.
  destruct (SFcompare x y) eqn:C; [| discriminate].
  destruct (is_nan x) eqn:Nx, (is_nan y) eqn:Ny; try tauto;
    assert (SFcompare x y = None) by (apply SFcompare_nan; tauto);
    congruence.
Qed.

Lemma ltb_nan_l (x : float) : Float32.ltb S754_nan x = false.
Proof. destruct x; reflexivity. Qed.

Lemma ltb_nan_r (x : float) : Float32.ltb x S754_nan = false.
Proof. destruct x; reflexivity. Qed.

Lemma leb_refl (x : float) : is_nan x = false -> Float32.leb x x = true.
Proof.
  intros N. unfold Float32.leb, SFleb. rewrite (SFcompare_refl x N).
  reflexivity.
Qed.

Lemma ltb_leb (x y : float) : Float32.ltb x y = true -> Float32.leb x y = true.
Proof.
  unfold Float32.ltb, Float32.leb, SFltb, SFleb.
  destruct (SFcompare x y) as [[| |] |]; congruence.
Qed.

(** Not below, and comparable: at least. *)
Lemma not_ltb_leb (x y : float) :
  is_nan x = false -> is_nan y = false ->
  Float32.ltb x y = false -> Float32.leb y x = true.
Proof.
  unfold Float32.ltb, Float32.leb, SFltb, SFleb. intros Nx Ny.
  rewrite (SFcompare_antisym x y).
  destruct (SFcompare x y) as [[| |] |] eqn:C; cbn; try congruence.
  assert (is_nan x = true \/ is_nan y = true) by (apply SFcompare_nan; exact C).
  intros _. destruct H; congruence.
Qed.

Lemma leb_not_ltb (x y : float) :
  Float32.leb x y = true -> Float32.ltb y x = false.
Proof.
  unfold Float32.ltb, Float32.leb, SFltb, SFleb.
  rewrite (SFcompare_antisym x y).
  destruct (SFcompare x y) as [[| |] |]; cbn; congruence.
Qed.

(** Values that compare equal compare alike with everything. *)
Lemma eqb_compare_l (a b c : float) :
  Float32.eqb a b = true -> SFcompare a c = SFcompare b c.
Proof.
  unfold Float32.eqb, SFeqb.
  destruct (SFcompare a b) as [[| |] |] eqn:C; try discriminate. intros _.
  destruct a as [sa | sa | | sa ma ea], b as [sb | sb | | sb mb eb];
    cbn in C; try discriminate; try reflexivity;
    try (destruct sa; discriminate); try (destruct sb; discriminate).
  - destruct sa, sb; try discriminate; reflexivity.
  - change (Pos.compare_cont Eq ?x ?y) with (Pos.compare x y) in C.
    destruct sa, sb; try discriminate;
      destruct (ea ?= eb) eqn:E; try discriminate;
      destruct (Pos.compare ma mb) eqn:M; try discriminate;
      apply Z.compare_eq in E; apply Pos.compare_eq in M; subst;
      reflexivity.
Qed.

Lemma eqb_compare_r (a b c : float) :
  Float32.eqb a b = true -> SFcompare c a = SFcompare c b.
Proof.
  intros E. rewrite (SFcompare_antisym a c), (SFcompare_antisym b c).
  rewrite (eqb_compare_l a b c E). reflexivity.
Qed.

Lemma within_eqb (lo hi a b : float) :
  Float32.eqb a b = true -> within lo hi a = within lo hi b.
Proof.
  intros E. unfold within, Float32.leb, SFleb.
  rewrite (eqb_compare_l a b hi E), (eqb_compare_r a b lo E). reflexivity.
Qed.

Lemma within_lo (lo hi : float) :
  Float32.leb lo hi = true -> within lo hi lo = true.
Proof.
  intros B. destruct (leb_not_nan _ _ B) as [Nlo _].
  unfold within. rewrite (leb_refl lo Nlo), B. reflexivity.
Qed.

Lemma within_hi (lo hi : float) :
  Float32.leb lo hi = true -> within lo hi hi = true.
Proof.
  intros B. destruct (leb_not_nan _ _ B) as [_ Nhi].
  unfold within. rewrite (leb_refl hi Nhi), B. reflexivity.
Qed.

Lemma within_between (lo hi x : float) :
  is_nan x = false ->
  Float32.ltb x lo = false -> Float32.ltb hi x = false ->
  Float32.leb lo hi = true -> within lo hi x = true.
Proof.
  intros Nx L1 L2 B. destruct (leb_not_nan _ _ B) as [Nlo Nhi].
  unfold within.
  rewrite (not_ltb_leb x lo Nx Nlo L1), (not_ltb_leb hi x Nhi Nx L2).
  reflexivity.
Qed.

Section GlmBounds.
Context `{GlmCommon}.

(** [glm::max(glm::min(hi, x), lo)]: in range for every [x], a NaN
    included, with either form of [glm::min] and [glm::max]: the one
    answers [glm::min(hi, NaN)] with [hi], the other answers it with the
    NaN and [glm::max(NaN, lo)] with [lo]. *)
Lemma max_min_bound_first (lo hi x : float) :
  Float32.leb lo hi = true ->
  within lo hi (Float32.max (Float32.min hi x) lo) = true.
Proof.
  intros B. destruct (leb_not_nan _ _ B) as [Nlo Nhi].
  unfold Float32.max, Float32.min, Float32.gtb.
  destruct glm_answers_first_operand.
  - destruct (Float32.ltb x hi) eqn:L1.
    + destruct (ltb_not_nan _ _ L1) as [Nx _].
      destruct (Float32.ltb x lo) eqn:L2; [apply within_lo, B |].
      apply within_between; [assumption .. | | exact B].
      apply leb_not_ltb, ltb_leb, L1.
    + rewrite (leb_not_ltb lo hi B). apply within_hi, B.
  - destruct (Float32.ltb hi x) eqn:L1.
    + destruct (Float32.ltb lo hi); [apply within_hi | apply within_lo];
        exact B.
    + destruct (Float32.ltb lo x) eqn:L2; [| apply within_lo, B].
      destruct (ltb_not_nan _ _ L2) as [_ Nx].
      apply within_between; [assumption | | assumption | exact B].
      apply leb_not_ltb, ltb_leb, L2.
Qed.

(** [glm::max(glm::min(x, hi), lo)]: in range unless [x] is a NaN.  A NaN
    passes through both when they answer with their first operand;
    when they answer with their second, [glm::min(NaN, hi)] is [hi]. *)
Lemma max_min_value_first (lo hi x : float) :
  Float32.leb lo hi = true ->
  let r := Float32.max (Float32.min x hi) lo in
  if is_nan x && glm_answers_first_operand
  then is_nan r = true else within lo hi r = true.
Proof.
  intros B r. subst r. destruct (leb_not_nan _ _ B) as [Nlo Nhi].
  unfold Float32.max, Float32.min, Float32.gtb.
  destruct (is_nan x) eqn:Nx; cbn [andb].
  - destruct x; try discriminate.
    rewrite ?ltb_nan_r, ?ltb_nan_l.
    destruct glm_answers_first_operand; [reflexivity |].
    destruct (Float32.ltb lo hi); [apply within_hi | apply within_lo];
      exact B.
  - destruct glm_answers_first_operand.
    + destruct (Float32.ltb hi x) eqn:L1.
      * rewrite (leb_not_ltb lo hi B). apply within_hi, B.
      * destruct (Float32.ltb x lo) eqn:L2; [apply within_lo, B |].
        apply within_between; assumption.
    + destruct (Float32.ltb x hi) eqn:L1.
      * destruct (Float32.ltb lo x) eqn:L2; [| apply within_lo, B].
        apply within_between; [assumption | | | exact B].
        -- apply leb_not_ltb, ltb_leb, L2.
        -- apply leb_not_ltb, ltb_leb, L1.
      * destruct (Float32.ltb lo hi); [apply within_hi | apply within_lo];
          exact B.
Qed.

(** [glm::clamp(x, lo, hi)]: in range unless [x] is a NaN.  A NaN passes
    through when it is the operand that [glm::min] and [glm::max]
    answer with; otherwise the answer is a bound. *)
Lemma clamp_within (lo hi x : float) :
  Float32.leb lo hi = true ->
  let r := Float32.clamp x lo hi in
  if is_nan x
     && Bool.eqb glm_answers_first_operand glm_clamp_takes_value_first
  then is_nan r = true else within lo hi r = true.
Proof.
  intros B r. subst r. destruct (leb_not_nan _ _ B) as [Nlo Nhi].
  unfold Float32.clamp, Float32.max, Float32.min, Float32.gtb.
  destruct (is_nan x) eqn:Nx; cbn [andb].
  - destruct x; try discriminate.
    destruct glm_answers_first_operand, glm_clamp_takes_value_first;
      cbn [Bool.eqb]; rewrite ?ltb_nan_r, ?ltb_nan_l; try reflexivity;
      destruct (Float32.ltb lo hi) eqn:L;
      try (apply within_lo, B); try (apply within_hi, B).
  - destruct glm_answers_first_operand, glm_clamp_takes_value_first;
      rewrite ?andb_false_l.
    + destruct (Float32.ltb x lo) eqn:L1.
      * rewrite (leb_not_ltb lo hi B). apply within_lo, B.
      * destruct (Float32.ltb hi x) eqn:L2; [apply within_hi, B |].
        apply within_between; assumption.
    + destruct (Float32.ltb lo x) eqn:L1.
      * destruct (Float32.ltb x hi) eqn:L2; [| apply within_hi, B].
        apply within_between; [assumption | | | exact B].
        -- apply leb_not_ltb, ltb_leb, L1.
        -- apply leb_not_ltb, ltb_leb, L2.
      * destruct (Float32.ltb lo hi); [apply within_lo | apply within_hi];
          exact B.
    + destruct (Float32.ltb lo x) eqn:L1.
      * destruct (Float32.ltb x hi) eqn:L2; [| apply within_hi, B].
        apply within_between; [assumption | | | exact B].
        -- apply leb_not_ltb, ltb_leb, L1.
        -- apply leb_not_ltb, ltb_leb, L2.
      * destruct (Float32.ltb lo hi); [apply within_lo | apply within_hi];
          exact B.
    + destruct (Float32.ltb x lo) eqn:L1.
      * destruct (Float32.ltb hi lo) eqn:L2; [apply within_hi, B |].
        apply within_lo, B.
      * destruct (Float32.ltb hi x) eqn:L2; [apply within_hi, B |].
        apply within_between; assumption.
Qed.
End GlmBounds.

(** ** Clamped physical parameters *)

Section ClampedParameters.
Context `{GlmCommon} `{SimulationFlags} `{PhysicsCollisionGroups}
        `{EntityItemPropertiesDefaults} `{PhysicsHelpers}.

Definition setRestitution (value : float) (e : EntityItem) : EntityItem :=
  let clampedValue :=
    Float32.max (Float32.min ENTITY_ITEM_MAX_RESTITUTION value)
                ENTITY_ITEM_MIN_RESTITUTION in
  put_restitution clampedValue e.

Definition setFriction (value : float) (e : EntityItem) : EntityItem :=
  let clampedValue :=
    Float32.max (Float32.min ENTITY_ITEM_MAX_FRICTION value)
                ENTITY_ITEM_MIN_FRICTION in
  put_friction clampedValue e.

Lemma eqb_nan_r (x : float) : Float32.eqb x S754_nan = false.
Proof. destruct x; reflexivity. Qed.

Lemma is_nan_eq (x : float) : is_nan x = true -> x = S754_nan.
Proof. destruct x; try discriminate. reflexivity. Qed.

(** A value stored unless it compares equal to the old one is in range
    afterwards when the new one is: what compares equal to a value in
    range is in range. *)
Lemma stored_unless_equal_within (lo hi old new : float) :
  within lo hi new = true ->
  within lo hi (if Float32.neb old new then new else old) = true.
Proof.
  intros W. unfold Float32.neb.
  destruct (Float32.eqb old new) eqn:E; cbn [negb]; [| exact W].
  rewrite (within_eqb lo hi old new E). exact W.
Qed.

Lemma stored_unless_equal_nan (old new : float) :
  is_nan new = true ->
  is_nan (if Float32.neb old new then new else old) = true.
Proof.
  intros N. rewrite (is_nan_eq new N). unfold Float32.neb.
  rewrite eqb_nan_r. reflexivity.
Qed.

Lemma updateRestitution_stores (value : float) (e : EntityItem) :
  _restitution (updateRestitution value e) =
    let c := Float32.max (Float32.min ENTITY_ITEM_MAX_RESTITUTION value)
                         ENTITY_ITEM_MIN_RESTITUTION in
    if Float32.neb (_restitution e) c then c else _restitution e.
Proof.
  unfold updateRestitution. cbv zeta.
  destruct (Float32.neb _ _); reflexivity.
Qed.

Lemma updateFriction_stores (value : float) (e : EntityItem) :
  _friction (updateFriction value e) =
    let c := Float32.max (Float32.min ENTITY_ITEM_MAX_FRICTION value)
                         ENTITY_ITEM_MIN_FRICTION in
    if Float32.neb (_friction e) c then c else _friction e.
Proof.
  unfold updateFriction. cbv zeta.
  destruct (Float32.neb _ _); reflexivity.
Qed.

Lemma updateDamping_stores (value : float) (e : EntityItem) :
  _damping (updateDamping value e) =
    let c := Float32.clamp value Float32.zero Float32.one in
    if Float32.neb (_damping e) c then c else _damping e.
Proof.
  unfold updateDamping. cbv zeta.
  destruct (Float32.neb _ _); reflexivity.
Qed.

Lemma updateAngularDamping_stores (value : float) (e : EntityItem) :
  _angularDamping (updateAngularDamping value e) =
    let c := Float32.clamp value Float32.zero Float32.one in
    if Float32.neb (_angularDamping e) c then c else _angularDamping e.
Proof.
  unfold updateAngularDamping. cbv zeta.
  destruct (Float32.neb _ _); reflexivity.
Qed.

Lemma updateDensity_stores (value : float) (e : EntityItem) :
  _density (updateDensity value e) =
    let c := Float32.max (Float32.min value ENTITY_ITEM_MAX_DENSITY)
                         ENTITY_ITEM_MIN_DENSITY in
    if Float32.neb (_density e) c then c else _density e.
Proof.
  unfold updateDensity. cbv zeta.
  destruct (Float32.neb _ _); reflexivity.
Qed.

(** X1.  With bounds that are ordered, the restitution and the friction
    are within their bounds after [updateRestitution], [setRestitution],
    [updateFriction] and [setFriction], for every argument, a NaN
    included, whatever was stored before, and whichever form of
    [glm::min] and [glm::max] the build has: [glm::max(glm::min(MAX,
    value), MIN)] answers a NaN with [MAX] in the one and with [MIN] in
    the other, and an update that stores nothing found a stored value
    that compares equal to the clamped one. *)
Theorem restitution_and_friction_always_within_bounds
        (value : float) (e : EntityItem) :
  Float32.leb ENTITY_ITEM_MIN_RESTITUTION ENTITY_ITEM_MAX_RESTITUTION = true ->
  Float32.leb ENTITY_ITEM_MIN_FRICTION ENTITY_ITEM_MAX_FRICTION = true ->
  within ENTITY_ITEM_MIN_RESTITUTION ENTITY_ITEM_MAX_RESTITUTION
         (_restitution (updateRestitution value e)) = true
  /\ within ENTITY_ITEM_MIN_RESTITUTION ENTITY_ITEM_MAX_RESTITUTION
            (_restitution (setRestitution value e)) = true
  /\ within ENTITY_ITEM_MIN_FRICTION ENTITY_ITEM_MAX_FRICTION
            (_friction (updateFriction value e)) = true
  /\ within ENTITY_ITEM_MIN_FRICTION ENTITY_ITEM_MAX_FRICTION
            (_friction (setFriction value e)) = true.
Proof.
  intros BR BF.
  split; [| split; [| split]].
  - rewrite updateRestitution_stores. cbv zeta.
    apply stored_unless_equal_within, max_min_bound_first, BR.
  - apply max_min_bound_first, BR.
  - rewrite updateFriction_stores. cbv zeta.
    apply stored_unless_equal_within, max_min_bound_first, BF.
  - apply max_min_bound_first, BF.
Qed.

(** X2.  [updateDamping] and [updateAngularDamping] leave a damping
    between 0 and 1, and [updateDensity] and [setDensity] a density
    within its (ordered) bounds, for every argument that is not a NaN,
    whichever forms of [glm::min], [glm::max] and [glm::clamp] the build
    has.  What a NaN argument leaves depends on those forms.  The damping
    is the NaN when [glm::clamp] hands the value to [glm::max] and
    [glm::min] as the operand they answer with, and within 0 and 1
    otherwise.  The density is the NaN when [glm::min] and [glm::max]
    answer with their first operand, and within its bounds when they
    answer with their second. *)
Theorem damping_and_density_within_bounds_unless_nan
        (value : float) (e : EntityItem) :
  Float32.leb ENTITY_ITEM_MIN_DENSITY ENTITY_ITEM_MAX_DENSITY = true ->
  (if is_nan value
      && Bool.eqb glm_answers_first_operand glm_clamp_takes_value_first
   then is_nan (_damping (updateDamping value e)) = true
        /\ is_nan (_angularDamping (updateAngularDamping value e)) = true
   else within Float32.zero Float32.one
               (_damping (updateDamping value e)) = true
        /\ within Float32.zero Float32.one
                  (_angularDamping (updateAngularDamping value e)) = true)
  /\ (if is_nan value && glm_answers_first_operand
      then is_nan (_density (updateDensity value e)) = true
           /\ is_nan (_density (setDensity value e)) = true
      else within ENTITY_ITEM_MIN_DENSITY ENTITY_ITEM_MAX_DENSITY
                  (_density (updateDensity value e)) = true
           /\ within ENTITY_ITEM_MIN_DENSITY ENTITY_ITEM_MAX_DENSITY
                     (_density (setDensity value e)) = true).
Proof.
  intros BD.
  assert (B01 : Float32.leb Float32.zero Float32.one = true) by reflexivity.
  pose proof (clamp_within Float32.zero Float32.one value B01) as C.
  pose proof (max_min_value_first ENTITY_ITEM_MIN_DENSITY
                ENTITY_ITEM_MAX_DENSITY value BD) as D.
  cbv zeta in C, D.
  rewrite updateDamping_stores, updateAngularDamping_stores,
    updateDensity_stores. cbv zeta.
  change (_density (setDensity value e))
    with (Float32.max (Float32.min value ENTITY_ITEM_MAX_DENSITY)
                      ENTITY_ITEM_MIN_DENSITY).
  split.
  - destruct (is_nan value && Bool.eqb _ _).
    + split; apply stored_unless_equal_nan; assumption.
    + split; apply stored_unless_equal_within; assumption.
  - destruct (is_nan value && glm_answers_first_operand).
    + split; [apply stored_unless_equal_nan |]; assumption.
    + split; [apply stored_unless_equal_within |]; assumption.
Qed.
End ClampedParameters.

Section ClampedParametersExample.
Import Reference.

(** A restitution of 5 and a friction of -1 are cut to the bounds of the
    reference, 0.99 and 0. *)
Lemma restitution_and_friction_always_within_bounds_witness :
  within ENTITY_ITEM_MIN_RESTITUTION ENTITY_ITEM_MAX_RESTITUTION
         (_restitution (updateRestitution (Float32.of_Z 5)
                                          (newEntity 1%N 0))) = true
  /\ _restitution (updateRestitution (Float32.of_Z 5) (newEntity 1%N 0))
     = Float32.ratio 99 100
  /\ _friction (updateFriction S754_nan (newEntity 1%N 0))
     = Float32.ratio 99 100.
Proof.
  split.
  - apply (restitution_and_friction_always_within_bounds
             (Float32.of_Z 5) (newEntity 1%N 0)); reflexivity.
  - split; reflexivity.
Defined.

(** A damping of 3 is cut to 1.  A NaN is stored as it is with the forms
    of the reference; with [glm::min] and [glm::max] answering with their
    second operand the damping it leaves is 0 and the density the
    greatest one. *)
Lemma damping_and_density_within_bounds_unless_nan_witness :
  (within Float32.zero Float32.one
          (_damping (updateDamping (Float32.of_Z 3) (newEntity 1%N 0))) = true
   /\ within Float32.zero Float32.one
             (_angularDamping
                (updateAngularDamping (Float32.of_Z 3) (newEntity 1%N 0)))
      = true)
  /\ _damping (updateDamping (Float32.of_Z 3) (newEntity 1%N 0))
     = Float32.one
  /\ _damping (updateDamping S754_nan (newEntity 1%N 0)) = S754_nan
  /\ _damping (@updateDamping
                 {| glm_answers_first_operand := false;
                    glm_clamp_takes_value_first := true |}
                 _ S754_nan (newEntity 1%N 0)) = Float32.zero
  /\ _density (@updateDensity
                 {| glm_answers_first_operand := false;
                    glm_clamp_takes_value_first := true |}
                 _ _ S754_nan (newEntity 1%N 0))
     = ENTITY_ITEM_MAX_DENSITY.
Proof.
  split.
  - apply (damping_and_density_within_bounds_unless_nan
             (Float32.of_Z 3) (newEntity 1%N 0)). reflexivity.
  - repeat split; reflexivity.
Defined.
End ClampedParametersExample.

(** ** Operations on the action ledger *)

Section LedgerOperations.
Context `{SimulationFlags} `{EntityActionFactoryInterface}.

(** The blob depends on the serialised actions only: a flag of an action
    is not part of it. *)
Lemma blobOf_fmap (m : gmap QUuid EntityAction) :
  blobOf m =
  QDataStream.write_QVector
    (map snd (map_to_list (action_serialize <$> m))).
Proof.
  unfold blobOf. rewrite map_to_list_fmap. f_equal.
  induction (map_to_list m) as [| [k a] l IH]; cbn; [reflexivity |].
  f_equal. exact IH.
Qed.

Lemma blobOf_alter_received (flag : bool) (i : QUuid)
      (m : gmap QUuid EntityAction) :
  blobOf (alter (act_setReceived flag) i m) = blobOf m.
Proof.
  rewrite !blobOf_fmap. do 3 f_equal.
  apply map_eq. intros j. rewrite !lookup_fmap.
  destruct (decide (i = j)) as [<- | Ne].
  - rewrite lookup_alter_eq. destruct (m !! i); reflexivity.
  - rewrite lookup_alter_ne by exact Ne. reflexivity.
Qed.

Lemma alter_empty_iff (flag : bool) (i : QUuid)
      (m : gmap QUuid EntityAction) :
  alter (act_setReceived flag) i m = ∅ <-> m = ∅.
Proof.
  split; intros E.
  - apply map_eq. intros j. rewrite lookup_empty.
    assert (L : alter (act_setReceived flag) i m !! j = None)
      by (rewrite E; apply lookup_empty).
    destruct (decide (i = j)) as [<- | Ne].
    + rewrite lookup_alter_eq in L. destruct (m !! i); [discriminate |].
      reflexivity.
    + rewrite lookup_alter_ne in L by exact Ne. exact L.
  - subst m. apply map_eq. intros j. rewrite lookup_empty.
    destruct (decide (i = j)) as [<- | Ne].
    + rewrite lookup_alter_eq, lookup_empty. reflexivity.
    + rewrite lookup_alter_ne by exact Ne. apply lookup_empty.
Qed.

Lemma serializeActions_markAction (flag : bool) (i : QUuid)
      (result : QByteArray) (e : EntityItem) :
  serializeActions result (markAction flag i e) = serializeActions result e.
Proof.
  rewrite !serializeActions_blobOf.
  change (_objectActions (markAction flag i e))
    with (alter (act_setReceived flag) i (_objectActions e)).
  rewrite blobOf_alter_received.
  destruct (bool_decide_reflect (_objectActions e = ∅)) as [E | E].
  - rewrite bool_decide_eq_true_2 by (apply alter_empty_iff; exact E).
    reflexivity.
  - rewrite bool_decide_eq_false_2; [reflexivity |].
    intros A. apply E. apply alter_empty_iff in A. exact A.
Qed.

(** *** Pending removals *)

Lemma removeActionInternal_spec (actionID : QUuid) (now : quint64)
      (e : EntityItem) :
  let r := removeActionInternal actionID now e in
  _objectActions (snd r) = delete actionID (_objectActions e)
  /\ _previouslyDeletedActions (snd r)
     = <[actionID := now]> (_previouslyDeletedActions e)
  /\ _actionsToRemove (snd r) = _actionsToRemove e
  /\ _actionDataDirty (snd r) = _actionDataDirty e
  /\ _element (snd r) = _element e.
Proof.
  cbv zeta. unfold removeActionInternal.
  change (_objectActions (put_previouslyDeletedActions ?m e))
    with (_objectActions e).
  destruct (_objectActions e !! actionID) eqn:L.
  - destruct (serializeActions _ _) as [s d]. repeat split.
  - cbn [snd]. repeat split.
    change (_objectActions (put_previouslyDeletedActions ?m e))
      with (_objectActions e).
    symmetry. apply delete_id. exact L.
Qed.

Lemma fold_remove_spec (now : quint64) (ids : list QUuid) :
  forall e : EntityItem,
    let e' :=
      fold_left (fun e actionID => snd (removeActionInternal actionID now e))
                ids e in
    (forall i, _objectActions e' !! i =
               if bool_decide (i ∈ ids) then None else _objectActions e !! i)
    /\ (forall i, _previouslyDeletedActions e' !! i =
                  if bool_decide (i ∈ ids) then Some now
                  else _previouslyDeletedActions e !! i)
    /\ _actionsToRemove e' = _actionsToRemove e
    /\ _actionDataDirty e' = _actionDataDirty e
    /\ _element e' = _element e.
Proof.
  induction ids as [| a ids IH]; intros e; cbn [fold_left].
  - cbv zeta. repeat split.
  - destruct (removeActionInternal_spec a now e) as (Ra & Rd & Rr & Rx & Re).
    cbv zeta in Ra, Rd, Rr, Rx, Re.
    specialize (IH (snd (removeActionInternal a now e))).
    cbv zeta in IH. destruct IH as (Ia & Id & Ir & Ix & Ie).
    cbv zeta. split; [| split; [| split; [| split]]].
    + intros i. rewrite Ia, Ra.
      destruct (bool_decide_reflect (i ∈ ids)) as [In | In].
      * rewrite bool_decide_eq_true_2
          by (apply elem_of_cons; right; exact In).
        reflexivity.
      * destruct (decide (i = a)) as [-> | Ne].
        -- rewrite bool_decide_eq_true_2
             by (apply elem_of_cons; left; reflexivity).
           apply lookup_delete_eq.
        -- rewrite bool_decide_eq_false_2.
           ++ apply lookup_delete_ne. congruence.
           ++ intros C. apply elem_of_cons in C as [C | C];
                [contradiction | contradiction].
    + intros i. rewrite Id, Rd.
      destruct (bool_decide_reflect (i ∈ ids)) as [In | In].
      * rewrite bool_decide_eq_true_2
          by (apply elem_of_cons; right; exact In).
        reflexivity.
      * destruct (decide (i = a)) as [-> | Ne].
        -- rewrite bool_decide_eq_true_2
             by (apply elem_of_cons; left; reflexivity).
           apply lookup_insert_eq.
        -- rewrite bool_decide_eq_false_2.
           ++ apply lookup_insert_ne. congruence.
           ++ intros C. apply elem_of_cons in C as [C | C];
                [contradiction | contradiction].
    + congruence.
    + congruence.
    + congruence.
Qed.

(** X3.  [checkWaitingToRemove] carries out the pending removals: the
    waiting list is empty afterwards, every id that waited is out of the
    ledger and has a tombstone of the time of the call, and every other
    id has the action and the tombstone it had. *)
Theorem pending_removals_are_carried_out (now : quint64) (e : EntityItem) :
  let e' := checkWaitingToRemove now e in
  _actionsToRemove e' = []
  /\ (forall i, i ∈ _actionsToRemove e ->
                _objectActions e' !! i = None
                /\ _previouslyDeletedActions e' !! i = Some now)
  /\ (forall i, i ∉ _actionsToRemove e ->
                _objectActions e' !! i = _objectActions e !! i
                /\ _previouslyDeletedActions e' !! i
                   = _previouslyDeletedActions e !! i).
Proof.
  cbv zeta. unfold checkWaitingToRemove.
  destruct (fold_remove_spec now (_actionsToRemove e) e) as (Fa & Fd & _).
  cbv zeta in Fa, Fd.
  split; [reflexivity |].
  split; intros i Hi;
    change (_objectActions (put_actionsToRemove [] ?x))
      with (_objectActions x);
    change (_previouslyDeletedActions (put_actionsToRemove [] ?x))
      with (_previouslyDeletedActions x);
    rewrite Fa, Fd.
  - rewrite bool_decide_eq_true_2 by exact Hi. split; reflexivity.
  - rewrite bool_decide_eq_false_2 by exact Hi. split; reflexivity.
Qed.

(** *** Adding and removing *)

(** X4.  [addAction] succeeds exactly when the blob of the ledger with
    the new action in it stays below 800 bytes (pending removals are done
    first).  On success the action is in the ledger under its id, marked
    as added locally and not yet received, the cache is that blob, the
    tombstones are untouched and the physics activation bit is set.  On
    failure the id is out of the ledger and tombstoned with the time of
    the call, and the other actions are as they were. *)
Theorem add_action_outcome (action : EntityAction) (now : quint64)
        (e : EntityItem) :
  let e1 := checkWaitingToRemove now e in
  let id := act_id action in
  let grown := <[id := action]> (_objectActions e1) in
  let r := addAction action now e in
  if Z.of_nat (length (blobOf grown)) <? _maxActionsDataSize
  then fst r = true
       /\ _objectActions (snd r)
          = <[id := act_setReceived true action]> (_objectActions e1)
       /\ _allActionsDataCache (snd r) = blobOf grown
       /\ _previouslyDeletedActions (snd r) = _previouslyDeletedActions e1
       /\ Z.land (_dirtyFlags (snd r)) DIRTY_PHYSICS_ACTIVATION
          = DIRTY_PHYSICS_ACTIVATION
  else fst r = false
       /\ _objectActions (snd r) !! id = None
       /\ _previouslyDeletedActions (snd r) !! id = Some now
       /\ (forall j, j <> id ->
                     _objectActions (snd r) !! j = _objectActions e1 !! j).
Proof.
  intros e1 id grown r.
  assert (A : addActionInternal action e1 =
              if Z.of_nat (length (blobOf grown)) <? _maxActionsDataSize
              then (true,
                    or_dirty DIRTY_PHYSICS_ACTIVATION
                      (put_allActionsDataCache (blobOf grown)
                         (put_objectActions grown e1)))
              else (false, put_objectActions grown e1)).
  { unfold addActionInternal. fold id. fold grown.
    rewrite serializeActions_blobOf.
    change (_objectActions (put_objectActions grown e1)) with grown.
    rewrite bool_decide_eq_false_2 by apply insert_non_empty.
    cbv zeta. rewrite write_over_nil.
    rewrite Z.geb_leb, Z.ltb_antisym.
    destruct (_maxActionsDataSize <=? Z.of_nat (length (blobOf grown)));
      reflexivity. }
  subst r. unfold addAction. fold e1. rewrite A. fold id.
  destruct (Z.of_nat (length (blobOf grown)) <? _maxActionsDataSize).
  - cbn [negb fst snd].
    split; [reflexivity |]. split.
    { unfold markAction. cbn. apply alter_insert_eq. }
    split; [reflexivity |]. split; [reflexivity |].
    change (_dirtyFlags (markAction true id ?x)) with (_dirtyFlags x).
    change (_dirtyFlags (or_dirty ?b ?x)) with (Z.lor (_dirtyFlags x) b).
    apply land_lor_same.
  - cbn [negb fst snd].
    destruct (removeActionInternal_spec id now (put_objectActions grown e1))
      as (Ra & Rd & _).
    cbv zeta in Ra, Rd.
    change (_objectActions (put_objectActions grown e1)) with grown in Ra.
    change (_previouslyDeletedActions (put_objectActions grown e1))
      with (_previouslyDeletedActions e1) in Rd.
    split; [reflexivity |]. rewrite Ra, Rd.
    split; [apply lookup_delete_eq |].
    split; [apply lookup_insert_eq |].
    intros j Ne. rewrite lookup_delete_ne by congruence.
    apply lookup_insert_ne. congruence.
Qed.

(** What a stream opened on an array leaves in it. *)
Lemma write_over_length (written array : QByteArray) :
  length (QDataStream.write_over written array)
  = Nat.max (length written) (length array).
Proof.
  unfold QDataStream.write_over. rewrite length_app, length_drop. lia.
Qed.

Lemma write_over_idem (written array : QByteArray) :
  QDataStream.write_over written (QDataStream.write_over written array)
  = QDataStream.write_over written array.
Proof.
  unfold QDataStream.write_over at 1 2.
  rewrite drop_app_length. reflexivity.
Qed.

Lemma serializeActions_idem (result : QByteArray) (e : EntityItem) :
  serializeActions (snd (serializeActions result e)) e
  = serializeActions result e.
Proof.
  rewrite !serializeActions_blobOf.
  destruct (bool_decide (_objectActions e = ∅)); [reflexivity |].
  cbv zeta.
  assert (W : forall b : QByteArray,
             snd (if Z.of_nat (length b) >=? _maxActionsDataSize
                  then (false, b) else (true, b)) = b)
    by (intros b; destruct (_ >=? _); reflexivity).
  rewrite W, write_over_idem. reflexivity.
Qed.

(** The cache [serializeActions] leaves when it writes into the cache
    [cache] of before: nothing for no action; otherwise the blob followed
    by what the cache held beyond the length of the blob. *)
Definition cacheWrittenOver (cache : QByteArray)
           (actions : gmap QUuid EntityAction) : QByteArray :=
  if bool_decide (actions = ∅) then []
  else blobOf actions ++ drop (length (blobOf actions)) cache.

Lemma serializeActions_result (result : QByteArray) (e : EntityItem) :
  serializeActions result e
  = (bool_decide (_objectActions e = ∅)
     || (Z.of_nat (Nat.max (length (blobOf (_objectActions e)))
                           (length result)) <? _maxActionsDataSize),
     cacheWrittenOver result (_objectActions e)).
Proof.
  rewrite serializeActions_blobOf. unfold cacheWrittenOver.
  destruct (bool_decide (_objectActions e = ∅)); [reflexivity |].
  cbv zeta. rewrite write_over_length. cbn [orb].
  rewrite Z.geb_leb, Z.ltb_antisym.
  destruct (_maxActionsDataSize <=? _); reflexivity.
Qed.

(** X5.  [removeAction] (pending removals done first) always enters the
    id in the tombstones with the time of the call and leaves it out of
    the ledger.  For an id that is not in the ledger it answers false and
    changes neither the cache nor the transmit mark.  For one that is, it
    marks the data for transmission and serialises what is left into the
    cache of before: with no action left the cache is empty and the
    answer is true; otherwise the cache is the blob of what is left
    followed by what the cache of before held beyond the length of that
    blob, and the answer is whether the longer of the two, the blob and
    the cache of before, is below 800 bytes. *)
Theorem remove_action_outcome (actionID : QUuid) (now : quint64)
        (e : EntityItem) :
  let e1 := checkWaitingToRemove now e in
  let rest := delete actionID (_objectActions e1) in
  let r := removeAction actionID now e in
  _objectActions (snd r) = rest
  /\ _previouslyDeletedActions (snd r)
     = <[actionID := now]> (_previouslyDeletedActions e1)
  /\ _actionsToRemove (snd r) = []
  /\ match _objectActions e1 !! actionID with
     | None =>
         fst r = false
         /\ _allActionsDataCache (snd r) = _allActionsDataCache e1
         /\ _actionDataNeedsTransmit (snd r) = _actionDataNeedsTransmit e1
         /\ _dirtyFlags (snd r) = _dirtyFlags e1
     | Some _ =>
         fst r = (bool_decide (rest = ∅)
                  || (Z.of_nat (Nat.max (length (blobOf rest))
                                        (length (_allActionsDataCache e1)))
                      <? _maxActionsDataSize))
         /\ _allActionsDataCache (snd r)
            = (if bool_decide (rest = ∅) then []
               else blobOf rest
                    ++ drop (length (blobOf rest)) (_allActionsDataCache e1))
         /\ _actionDataNeedsTransmit (snd r) = true
         /\ Z.land (_dirtyFlags (snd r)) DIRTY_PHYSICS_ACTIVATION
            = DIRTY_PHYSICS_ACTIVATION
     end.
Proof.
  intros e1 rest r. subst r. unfold removeAction. fold e1.
  destruct (removeActionInternal_spec actionID now e1) as (Ra & Rd & Rr & _).
  cbv zeta in Ra, Rd, Rr.
  split; [exact Ra |]. split; [exact Rd |].
  split; [rewrite Rr; reflexivity |].
  unfold removeActionInternal.
  change (_objectActions (put_previouslyDeletedActions ?m e1))
    with (_objectActions e1).
  destruct (_objectActions e1 !! actionID) eqn:L.
  - rewrite serializeActions_result.
    change (_objectActions (put_objectActions ?m ?x)) with m.
    change (_allActionsDataCache (put_objectActions ?m ?x))
      with (_allActionsDataCache x).
    change (_allActionsDataCache (put_previouslyDeletedActions ?m ?x))
      with (_allActionsDataCache x).
    fold rest. unfold cacheWrittenOver.
    repeat split. cbn. apply land_lor_same.
  - repeat split.
Qed.

(** *** The cache *)

(** X6.  [getActionData] answers the cache.  When the data is dirty it
    first serialises the ledger into the cache, over what the cache
    holds: the bytes are then empty for an empty ledger, and otherwise
    the blob of the ledger followed by what the cache held beyond the
    length of the blob; the dirty mark stays when the longer of the two
    reaches 800 bytes.  It never changes the ledger, and a second call
    answers the same bytes and changes nothing.  After [addAction] the
    bytes it answers are the cache [addAction] left: the blob of the
    ledger when the addition succeeded, and what is left of the ledger
    written over the cache of before when it failed. *)
Theorem get_action_data_is_a_cache (action : EntityAction) (now : quint64)
        (e : EntityItem) :
  let g := getActionData e in
  let longer :=
    Nat.max (length (blobOf (_objectActions e)))
            (length (_allActionsDataCache e)) in
  let fits :=
    bool_decide (_objectActions e = ∅)
    || (Z.of_nat longer <? _maxActionsDataSize) in
  fst g = (if _actionDataDirty e
           then (if bool_decide (_objectActions e = ∅) then []
                 else blobOf (_objectActions e)
                      ++ drop (length (blobOf (_objectActions e)))
                              (_allActionsDataCache e))
           else _allActionsDataCache e)
  /\ _allActionsDataCache (snd g) = fst g
  /\ _actionDataDirty (snd g) = (_actionDataDirty e && negb fits)
  /\ _objectActions (snd g) = _objectActions e
  /\ getActionData (snd g) = g
  /\ (let e1 := checkWaitingToRemove now e in
      let r := addAction action now e in
      fst (getActionData (snd r)) = _allActionsDataCache (snd r)
      /\ _allActionsDataCache (snd r)
         = (if fst r then blobOf (_objectActions (snd r))
            else if bool_decide (_objectActions (snd r) = ∅) then []
                 else blobOf (_objectActions (snd r))
                      ++ drop (length (blobOf (_objectActions (snd r))))
                              (_allActionsDataCache e1))).
Proof.
  cbv zeta. unfold getActionData, getActionDataInternal.
  assert (G : forall x : EntityItem,
             _allActionsDataCache x
             = snd (serializeActions (_allActionsDataCache x) x) ->
             fst (if _actionDataDirty x
                  then
                    let '(success, data) :=
                      serializeActions (_allActionsDataCache x) x in
                    let x0 := put_allActionsDataCache data x in
                    let x1 :=
                      if success then put_actionDataDirty false x0 else x0 in
                    (_allActionsDataCache x1, x1)
                  else (_allActionsDataCache x, x))
             = _allActionsDataCache x).
  { intros x Hx. destruct (_actionDataDirty x); [| reflexivity].
    destruct (serializeActions (_allActionsDataCache x) x) as [[|] d];
      cbn in Hx |- *; congruence. }
  split; [| split; [| split; [| split; [| split]]]].
  - destruct (_actionDataDirty e); [| reflexivity].
    rewrite serializeActions_result. unfold cacheWrittenOver.
    destruct (_ || _); reflexivity.
  - destruct (_actionDataDirty e); [| reflexivity].
    destruct (serializeActions _ e) as [[|] d]; reflexivity.
  - destruct (_actionDataDirty e) eqn:D; [| cbn; exact D].
    rewrite serializeActions_result.
    destruct (_ || _); cbn; [reflexivity | exact D].
  - destruct (_actionDataDirty e); [| reflexivity].
    destruct (serializeActions _ e) as [[|] d]; reflexivity.
  - destruct (_actionDataDirty e) eqn:D.
    + destruct (serializeActions (_allActionsDataCache e) e) as [[|] d] eqn:S.
      * cbn. reflexivity.
      * cbn [snd fst].
        change (_actionDataDirty (put_allActionsDataCache d e))
          with (_actionDataDirty e).
        change (_allActionsDataCache (put_allActionsDataCache d e)) with d.
        rewrite D.
        rewrite (serializeActions_same_actions d
                   (put_allActionsDataCache d e) e) by reflexivity.
        pose proof (serializeActions_idem (_allActionsDataCache e) e) as I.
        rewrite S in I. cbn [snd] in I. rewrite I.
        destruct e; reflexivity.
    + cbn [snd]. rewrite D. reflexivity.
  - set (e1 := checkWaitingToRemove now e).
    unfold addAction. fold e1. unfold addActionInternal.
    set (e2 := put_objectActions _ e1).
    rewrite (serializeActions_result [] e2).
    assert (N2 : bool_decide (_objectActions e2 = ∅) = false)
      by (apply bool_decide_eq_false_2, insert_non_empty).
    rewrite N2. cbn [orb].
    unfold cacheWrittenOver. rewrite N2. rewrite drop_nil, app_nil_r.
    destruct (_ <? _); cbn [negb fst snd].
    + assert (C : _allActionsDataCache
                    (markAction true (act_id action)
                       (or_dirty DIRTY_PHYSICS_ACTIVATION
                          (put_allActionsDataCache
                             (blobOf (_objectActions e2)) e2)))
                  = blobOf (_objectActions
                              (markAction true (act_id action)
                                 (or_dirty DIRTY_PHYSICS_ACTIVATION
                                    (put_allActionsDataCache
                                       (blobOf (_objectActions e2)) e2))))).
      { change (_objectActions (markAction true ?i ?x))
          with (alter (act_setReceived true) i (_objectActions x)).
        rewrite blobOf_alter_received. reflexivity. }
      split; [| exact C].
      apply G. rewrite serializeActions_result. cbn [snd].
      unfold cacheWrittenOver. rewrite C at 2. rewrite drop_all, app_nil_r.
      rewrite bool_decide_eq_false_2; [exact C |].
      change (_objectActions (markAction true ?i ?x))
        with (alter (act_setReceived true) i (_objectActions x)).
      intros B. apply alter_empty_iff in B.
      apply bool_decide_eq_false_1 in N2. contradiction.
    + unfold removeActionInternal.
      change (_objectActions (put_previouslyDeletedActions ?m e2))
        with (_objectActions e2).
      subst e2.
      change (_objectActions (put_objectActions ?m ?x)) with m.
      rewrite lookup_insert_eq.
      rewrite serializeActions_result.
      change (_objectActions (put_objectActions ?m ?x)) with m.
      change (_allActionsDataCache (put_objectActions ?m ?x))
        with (_allActionsDataCache x).
      change (_allActionsDataCache (put_previouslyDeletedActions ?m ?x))
        with (_allActionsDataCache x).
      change (_allActionsDataCache (put_objectActions ?m ?x))
        with (_allActionsDataCache x).
      cbn [snd].
      match goal with
      | |- fst (if _actionDataDirty ?x then _ else _) = _ /\ _ =>
          set (e3 := x)
      end.
      assert (C : _allActionsDataCache e3
                  = cacheWrittenOver (_allActionsDataCache e1)
                      (_objectActions e3)) by reflexivity.
      split.
      * apply G. rewrite serializeActions_result. cbn [snd].
        rewrite C at 2. unfold cacheWrittenOver.
        destruct (bool_decide (_objectActions e3 = ∅)) eqn:B.
        -- rewrite C. unfold cacheWrittenOver. rewrite B. reflexivity.
        -- rewrite drop_app_length. rewrite C. unfold cacheWrittenOver.
           rewrite B. reflexivity.
      * exact C.
Qed.

(** X7.  The ledger operations change the ledger members and the dirty
    flags of the record and nothing else: position, velocities,
    timestamps, owner and the other properties are those of before. *)
Theorem ledger_operations_change_the_ledger_only
        (action : EntityAction) (actionID : QUuid) (actionData : QByteArray)
        (now : quint64) (e : EntityItem) :
  ledger_only e (snd (addAction action now e))
  /\ ledger_only e (snd (removeAction actionID now e))
  /\ ledger_only e (snd (clearActions e))
  /\ ledger_only e (setActionData actionData now e)
  /\ ledger_only e (snd (getActionData e)).
Proof.
  split; [| split; [| split; [| split]]].
  - unfold addAction.
    pose proof (checkWaitingToRemove_ledger_only now e) as C.
    pose proof (addActionInternal_ledger_only action
                  (checkWaitingToRemove now e)) as A.
    destruct (addActionInternal action (checkWaitingToRemove now e))
      as [[|] e2]; cbn [negb snd] in *.
    + eapply ledger_only_trans; [exact C |].
      eapply ledger_only_trans; [exact A |].
      apply markAction_ledger_only.
    + eapply ledger_only_trans; [exact C |].
      eapply ledger_only_trans; [exact A |].
      apply removeActionInternal_ledger_only.
  - unfold removeAction.
    eapply ledger_only_trans; [apply checkWaitingToRemove_ledger_only |].
    apply removeActionInternal_ledger_only.
  - destruct e; reflexivity.
  - apply setActionData_ledger_only.
  - unfold getActionData, getActionDataInternal.
    destruct (_actionDataDirty e); [| apply ledger_only_refl].
    destruct (serializeActions _ e) as [[|] d]; destruct e; reflexivity.
Qed.
End LedgerOperations.

(** *** Reconciliation with an incoming blob *)

Section Reconciliation.
Context `{SimulationFlags} `{EntityActionFactoryInterface}.

(** The factory builds the action whose id the stream names. *)
Definition factoryKeepsId : Prop :=
  forall b a, factoryBA b = Some a -> act_id a = stream_actionID b.

(** [i] is named by one of the incoming actions and is not tombstoned. *)
Definition named (deleted : gmap QUuid quint64) (bs : list QByteArray)
           (i : QUuid) : Prop :=
  exists b, b ∈ bs /\ stream_actionID b = i /\ deleted !! i = None.

Lemma named_nil (deleted : gmap QUuid quint64) (i : QUuid) :
  ~ named deleted [] i.
Proof. intros (b & Hb & _). inversion Hb. Qed.

Lemma named_cons (deleted : gmap QUuid quint64) (b : QByteArray)
      (bs : list QByteArray) (i : QUuid) :
  named deleted (b :: bs) i <->
  (stream_actionID b = i /\ deleted !! i = None) \/ named deleted bs i.
Proof.
  unfold named. split.
  - intros (b' & Hb & Hi & Hd). apply elem_of_cons in Hb as [-> | Hb].
    + left. split; assumption.
    + right. exists b'. repeat split; assumption.
  - intros [[Hi Hd] | (b' & Hb & Hi & Hd)].
    + exists b. repeat split; [apply elem_of_cons; left; reflexivity | ..];
        assumption.
    + exists b'. repeat split; [apply elem_of_cons; right | ..]; assumption.
Qed.

Lemma named_dec (deleted : gmap QUuid quint64) (bs : list QByteArray)
      (i : QUuid) : named deleted bs i \/ ~ named deleted bs i.
Proof.
  induction bs as [| b bs IH].
  - right. apply named_nil.
  - rewrite named_cons.
    destruct IH as [IH | IH]; [tauto |].
    destruct (decide (stream_actionID b = i)) as [E | E]; [| tauto].
    destruct (deleted !! i) eqn:D; [| tauto].
    right. intros [[_ ?] | ?]; [congruence | contradiction].
Qed.

Lemma deserializeOne_cases (Hf : factoryKeepsId) (e : EntityItem)
      (u : gset QUuid) (b : QByteArray) :
  let i0 := stream_actionID b in
  let st' := deserializeOne (e, u) b in
  _previouslyDeletedActions (fst st') = _previouslyDeletedActions e
  /\ _actionsToRemove (fst st') = _actionsToRemove e
  /\ ((is_Some (_previouslyDeletedActions e !! i0) /\ st' = (e, u))
      \/ (_previouslyDeletedActions e !! i0 = None
          /\ snd st' = u ∪ {[i0]}
          /\ ((exists a',
                  _objectActions (fst st') = <[i0 := a']> (_objectActions e)
                  /\ locallyAddedButNotYetReceived a' = false
                  /\ (is_Some (_objectActions e !! i0)
                      \/ is_Some (factoryBA b)))
              \/ (_objectActions (fst st') = _objectActions e
                  /\ _objectActions e !! i0 = None
                  /\ factoryBA b = None)))).
Proof.
  intros i0 st'. subst st'. unfold deserializeOne. fold i0.
  destruct (bool_decide_reflect
              (is_Some (_previouslyDeletedActions e !! i0))) as [T | T].
  { repeat split. left. split; [exact T | reflexivity]. }
  assert (N : _previouslyDeletedActions e !! i0 = None).
  { destruct (_previouslyDeletedActions e !! i0) eqn:E; [| reflexivity].
    exfalso. apply T. eauto. }
  destruct (_objectActions e !! i0) as [a |] eqn:L.
  { cbn [fst snd]. repeat split. right. repeat split; [exact N |].
    left. eexists. repeat split. left. eauto. }
  destruct (factoryBA b) as [a |] eqn:F.
  - pose proof (Hf b a F) as Ea. fold i0 in Ea.
    cbn [fst snd]. unfold addActionInternal. rewrite Ea.
    destruct (serializeActions _) as [[|] d]; cbn [snd];
      (split; [reflexivity |]); (split; [reflexivity |]);
      right; (split; [exact N |]); (split; [reflexivity |]);
      left; exists (act_setReceived false a);
      (split; [unfold markAction; cbn; apply alter_insert_eq |]);
      (split; [reflexivity |]); right; eauto.
  - cbn [fst snd]. repeat split. right. repeat split; [exact N |].
    right. repeat split.
Qed.

Lemma foreach_spec (Hf : factoryKeepsId) (bs : list QByteArray) :
  forall (e : EntityItem) (u : gset QUuid),
    let st' := fold_left deserializeOne bs (e, u) in
    let deleted := _previouslyDeletedActions e in
    _previouslyDeletedActions (fst st') = deleted
    /\ _actionsToRemove (fst st') = _actionsToRemove e
    /\ (forall i, i ∈ snd st' <-> i ∈ u \/ named deleted bs i)
    /\ (forall i, ~ named deleted bs i ->
                  _objectActions (fst st') !! i = _objectActions e !! i)
    /\ (forall i,
           is_Some (_objectActions (fst st') !! i) <->
           is_Some (_objectActions e !! i)
           \/ (exists b, b ∈ bs /\ stream_actionID b = i
                         /\ deleted !! i = None /\ is_Some (factoryBA b)))
    /\ (forall i a', named deleted bs i ->
                     _objectActions (fst st') !! i = Some a' ->
                     locallyAddedButNotYetReceived a' = false).
Proof.
  induction bs as [| b bs IH]; intros e u; cbn [fold_left].
  - cbn [fst snd]. repeat split.
    + intros Hi. left. exact Hi.
    + intros [Hi | Hn]; [exact Hi | destruct (named_nil _ _ Hn)].
    + intros Hi. left. exact Hi.
    + intros [Hi | (b & Hb & _)]; [exact Hi | inversion Hb].
    + intros i a' Hn. destruct (named_nil _ _ Hn).
  - destruct (deserializeOne_cases Hf e u b) as (Td & Tr & Cases).
    cbv zeta in Td, Tr, Cases.
    destruct (deserializeOne (e, u) b) as [e1 u1] eqn:E1.
    cbn [fst snd] in Td, Tr, Cases.
    specialize (IH e1 u1). cbv zeta in IH. rewrite Td in IH.
    destruct IH as (I1 & I2 & I3 & I4 & I5 & I6).
    set (deleted := _previouslyDeletedActions e) in *.
    set (i0 := stream_actionID b) in *.
    split; [exact I1 |]. split; [congruence |].
    assert (Step : forall i,
      (is_Some (_objectActions e1 !! i) <->
       is_Some (_objectActions e !! i)
       \/ (i0 = i /\ deleted !! i = None /\ is_Some (factoryBA b)))
      /\ (~ (i0 = i /\ deleted !! i = None) ->
          _objectActions e1 !! i = _objectActions e !! i)
      /\ (i0 = i -> deleted !! i = None -> forall a',
          _objectActions e1 !! i = Some a' ->
          locallyAddedButNotYetReceived a' = false
          \/ (_objectActions e !! i = None /\ False))
      /\ (i ∈ u1 <-> i ∈ u \/ (i0 = i /\ deleted !! i = None))).
    { intros i.
      destruct Cases as
        [[T Eq] | (N & Eu & [(a' & Ea & Fa & Pa) | (Ea & La & Fa)])].
      - injection Eq as -> ->. destruct T as [t T].
        split; [| split; [| split]].
        + split; [tauto |]. intros [? | (<- & D & _)]; [assumption |].
          congruence.
        + reflexivity.
        + intros <- D. congruence.
        + split; [tauto |]. intros [? | (<- & D)]; [assumption |].
          congruence.
      - rewrite Ea, Eu. destruct (decide (i0 = i)) as [<- | Ne].
        + rewrite lookup_insert_eq.
          split; [| split; [| split]].
          * split; [| eauto]. intros _.
            destruct Pa; [left; assumption | right; tauto].
          * intros Hn. exfalso. apply Hn. tauto.
          * intros _ _ a'' Ha. injection Ha as <-. left. exact Fa.
          * split; [intros _; right; tauto |].
            intros _. apply elem_of_union. right.
            apply elem_of_singleton. reflexivity.
        + rewrite lookup_insert_ne by exact Ne.
          split; [| split; [| split]].
          * split; [tauto |].
            intros [? | (? & _)]; [assumption | contradiction].
          * reflexivity.
          * intros ?. contradiction.
          * split.
            -- intros Hu. left.
               apply elem_of_union in Hu as [Hu | Hu]; [assumption |].
               apply elem_of_singleton in Hu. congruence.
            -- intros [? | (? & _)]; [| contradiction].
               apply elem_of_union. left. assumption.
      - rewrite Ea, Eu.
        split; [| split; [| split]].
        + split; [tauto |]. intros [? | (<- & _ & F)]; [assumption |].
          rewrite Fa in F. destruct F; discriminate.
        + reflexivity.
        + intros <- _ a' Ha. congruence.
        + split.
          * intros Hu. apply elem_of_union in Hu as [Hu | Hu]; [tauto |].
            apply elem_of_singleton in Hu. right. split; [congruence |].
            subst i. exact N.
          * intros [? | (<- & _)]; apply elem_of_union;
              [left; assumption | right; apply elem_of_singleton; reflexivity]. }
    split; [| split; [| split]].
    + intros i. rewrite I3, named_cons.
      destruct (Step i) as (_ & _ & _ & S4). rewrite S4. tauto.
    + intros i Hn. rewrite named_cons in Hn.
      rewrite I4 by tauto. apply Step. tauto.
    + intros i. rewrite I5. destruct (Step i) as (S1 & _). rewrite S1.
      split.
      * intros [[? | (Ei & D & F)] | (b' & Hb & Hi & D & F)].
        -- left; assumption.
        -- right. exists b. repeat split; try assumption.
           apply elem_of_cons. left. reflexivity.
        -- right. exists b'. repeat split; try assumption.
           apply elem_of_cons. right. assumption.
      * intros [? | (b' & Hb & Hi & D & F)]; [tauto |].
        apply elem_of_cons in Hb as [-> | Hb].
        -- left. right. tauto.
        -- right. exists b'. tauto.
    + intros i a' Hn Ha.
      destruct (named_dec deleted bs i) as [Hbs | Hbs].
      * exact (I6 i a' Hbs Ha).
      * rewrite (I4 i Hbs) in Ha. rewrite named_cons in Hn.
        destruct Hn as [[Ei D] | Hn]; [| contradiction].
        destruct (Step i) as (_ & _ & S3 & _).
        destruct (S3 Ei D a' Ha) as [? | [_ []]]. assumption.
Qed.

(** The second loop: what it schedules. *)
Definition scheduled (u : gset QUuid) (kv : QUuid * EntityAction) : bool :=
  negb (bool_decide (fst kv ∈ u))
  && negb (locallyAddedButNotYetReceived (snd kv)).

Definition scheduledIds (u : gset QUuid) (l : list (QUuid * EntityAction))
  : list QUuid := map fst (List.filter (scheduled u) l).

Lemma scheduleRemoval_scheduled (u : gset QUuid) (now : quint64)
      (e : EntityItem) (kv : QUuid * EntityAction) :
  scheduleRemoval u now e kv =
    if scheduled u kv
    then put_previouslyDeletedActions
           (<[fst kv := now]> (_previouslyDeletedActions e))
           (put_actionsToRemove (_actionsToRemove e ++ [fst kv]) e)
    else e.
Proof.
  destruct kv as [i a]. unfold scheduleRemoval, scheduled. cbn [fst snd].
  destruct (negb (bool_decide (i ∈ u))); [| reflexivity].
  destruct (negb (locallyAddedButNotYetReceived a)); reflexivity.
Qed.

Lemma fold_schedule_spec (u : gset QUuid) (now : quint64)
      (l : list (QUuid * EntityAction)) :
  forall e : EntityItem,
    let e' := fold_left (scheduleRemoval u now) l e in
    _objectActions e' = _objectActions e
    /\ _actionsToRemove e' = _actionsToRemove e ++ scheduledIds u l
    /\ (forall i, _previouslyDeletedActions e' !! i =
                  if bool_decide (i ∈ scheduledIds u l) then Some now
                  else _previouslyDeletedActions e !! i).
Proof.
  induction l as [| kv l IH]; intros e; cbn [fold_left].
  - cbv zeta. unfold scheduledIds. cbn.
    split; [reflexivity |]. split; [rewrite app_nil_r; reflexivity |].
    intros i. rewrite bool_decide_eq_false_2; [reflexivity |].
    intros C. inversion C.
  - specialize (IH (scheduleRemoval u now e kv)). cbv zeta in IH.
    destruct IH as (Ia & Ir & Id). cbv zeta.
    rewrite scheduleRemoval_scheduled in Ia, Ir, Id |- *.
    unfold scheduledIds in *. cbn [List.filter].
    destruct (scheduled u kv) eqn:S; cbn [map].
    + split; [exact Ia |].
      split.
      { rewrite Ir. cbn. rewrite <- app_assoc. reflexivity. }
      intros i. rewrite Id.
      change (_previouslyDeletedActions (put_previouslyDeletedActions ?m ?x))
        with m.
      destruct (bool_decide_reflect
                  (i ∈ map fst (List.filter (scheduled u) l))) as [In | In].
      * rewrite bool_decide_eq_true_2
          by (apply elem_of_cons; right; exact In).
        reflexivity.
      * destruct (decide (i = fst kv)) as [-> | Ne].
        -- rewrite bool_decide_eq_true_2
             by (apply elem_of_cons; left; reflexivity).
           apply lookup_insert_eq.
        -- rewrite bool_decide_eq_false_2.
           ++ apply lookup_insert_ne. congruence.
           ++ intros C. apply elem_of_cons in C as [C | C]; contradiction.
    + split; [exact Ia |]. split; [exact Ir |]. exact Id.
Qed.

Lemma elem_of_scheduledIds (u : gset QUuid) (m : gmap QUuid EntityAction)
      (i : QUuid) :
  i ∈ scheduledIds u (map_to_list m) <->
  exists a, m !! i = Some a /\ (i ∉ u)
            /\ locallyAddedButNotYetReceived a = false.
Proof.
  unfold scheduledIds. rewrite list_elem_of_In, in_map_iff. split.
  - intros ([j a] & <- & Hin). apply filter_In in Hin as [Hin S].
    apply list_elem_of_In, elem_of_map_to_list in Hin.
    unfold scheduled in S. cbn [fst snd] in *.
    apply andb_true_iff in S as [S1 S2].
    apply negb_true_iff in S1, S2. apply bool_decide_eq_false in S1.
    exists a. repeat split; assumption.
  - intros (a & L & Hu & F). exists (i, a). split; [reflexivity |].
    apply filter_In. split.
    + apply list_elem_of_In, elem_of_map_to_list. exact L.
    + unfold scheduled. cbn [fst snd]. rewrite F.
      rewrite bool_decide_eq_false_2 by exact Hu. reflexivity.
Qed.

(** The tombstone that a pass keeps: one not older than the window. *)
Definition keptTombstone (now : quint64) (t : option quint64)
  : option quint64 :=
  match t with
  | Some t =>
      if wrap64 (now - t) >? _rememberDeletedActionTime then None else Some t
  | None => None
  end.

Lemma trimPreviouslyDeleted_lookup (now : quint64)
      (deleted : gmap QUuid quint64) (i : QUuid) :
  trimPreviouslyDeleted now deleted !! i = keptTombstone now (deleted !! i).
Proof.
  unfold trimPreviouslyDeleted, keptTombstone.
  destruct (deleted !! i) as [t |] eqn:L.
  - destruct (Z.gtb_spec (wrap64 (now - t)) _rememberDeletedActionTime)
      as [G | G].
    + apply map_lookup_filter_None. right. intros t' L' C.
      rewrite L in L'. injection L' as <-. cbn in C. lia.
    + apply map_lookup_filter_Some. split; [exact L |]. cbn. lia.
  - apply map_lookup_filter_None. left. exact L.
Qed.


(** The actions an incoming blob holds. *)
Definition actionsIn (actionData : QByteArray) : list QByteArray :=
  if (0 <? length actionData)%nat
  then QDataStream.read_QVector actionData else [].

(** What a pass leaves of an action the blob does not name, and of its
    tombstone. *)
Definition unnamedAction (a : option EntityAction) : option EntityAction :=
  match a with
  | Some a => if locallyAddedButNotYetReceived a then Some a else None
  | None => None
  end.

Definition unnamedTombstone (now : quint64) (a : option EntityAction)
           (t : option quint64) : option quint64 :=
  match a with
  | Some a =>
      if locallyAddedButNotYetReceived a then keptTombstone now t
      else Some now
  | None => keptTombstone now t
  end.

(** X8.  Reconciliation.  A record in a tree element, with nothing
    waiting for removal, is handed action data that differs from its
    cache, and the factory builds actions under the id their bytes name.
    Afterwards nothing waits for removal and the data is dirty.  An id
    that the data names and that has no tombstone is in the ledger if it
    was before or if the factory accepted one of its entries, marked as
    received, and still has no tombstone.  For every other id, a
    tombstoned one that the data names included, the ledger keeps the
    action only if it was added locally and not yet received, and
    removes it otherwise, with a tombstone of the time of the pass; an
    id that was not in the ledger stays out of it; an older tombstone is
    kept unless it is more than twenty seconds old. *)
Theorem set_action_data_reconciles (actionData : QByteArray)
        (now : quint64) (e : EntityItem) :
  factoryKeepsId ->
  is_Some (_element e) ->
  _actionsToRemove e = [] ->
  QByteArray_eqb (_allActionsDataCache e) actionData = false ->
  let incoming := actionsIn actionData in
  let deleted := _previouslyDeletedActions e in
  let e' := setActionData actionData now e in
  _actionsToRemove e' = []
  /\ _actionDataDirty e' = true
  /\ (forall i, named deleted incoming i ->
        (is_Some (_objectActions e' !! i) <->
         is_Some (_objectActions e !! i)
         \/ (exists b, b ∈ incoming /\ stream_actionID b = i
                       /\ is_Some (factoryBA b)))
        /\ (forall a', _objectActions e' !! i = Some a' ->
                       locallyAddedButNotYetReceived a' = false)
        /\ _previouslyDeletedActions e' !! i = None)
  /\ (forall i, ~ named deleted incoming i ->
        _objectActions e' !! i = unnamedAction (_objectActions e !! i)
        /\ _previouslyDeletedActions e' !! i
           = unnamedTombstone now (_objectActions e !! i) (deleted !! i)).
Proof.
  intros Hf [el Hel] Hw Hd incoming deleted e'.
  subst e'. unfold setActionData, setActionDataInternal.
  rewrite Hd. cbn [negb]. unfold deserializeActionsInternal.
  change (_element (put_allActionsDataCache actionData e)) with (_element e).
  rewrite Hel.
  change (if (0 <? length (_allActionsDataCache
                             (put_allActionsDataCache actionData e)))%nat
          then QDataStream.read_QVector
                 (_allActionsDataCache (put_allActionsDataCache actionData e))
          else []) with incoming.
  set (e0 := put_allActionsDataCache actionData e).
  destruct (foreach_spec Hf incoming e0 ∅) as (F1 & F2 & F3 & F4 & F5 & F6).
  cbv zeta in F1, F2, F3, F4, F5, F6.
  destruct (fold_left deserializeOne incoming (e0, ∅)) as [e1 u1].
  cbn [fst snd] in F1, F2, F3, F4, F5, F6.
  change (_previouslyDeletedActions e0) with deleted in *.
  change (_actionsToRemove e0) with (_actionsToRemove e) in F2.
  change (_objectActions e0) with (_objectActions e) in *.
  destruct (fold_schedule_spec u1 now (map_to_list (_objectActions e1)) e1)
    as (S1 & S2 & S3).
  cbv zeta in S1, S2, S3.
  set (e2 := fold_left (scheduleRemoval u1 now)
                       (map_to_list (_objectActions e1)) e1) in *.
  set (e3 := put_actionDataDirty true
               (put_previouslyDeletedActions
                  (trimPreviouslyDeleted now (_previouslyDeletedActions e2))
                  e2)).
  unfold checkWaitingToRemove.
  destruct (fold_remove_spec now (_actionsToRemove e3) e3)
    as (R1 & R2 & R3 & R4 & R5).
  cbv zeta in R1, R2, R3, R4, R5.
  set (e4 := fold_left
               (fun e actionID => snd (removeActionInternal actionID now e))
               (_actionsToRemove e3) e3) in *.
  change (_actionsToRemove (put_actionsToRemove [] e4)) with (@nil QUuid).
  change (_actionDataDirty (put_actionsToRemove [] e4))
    with (_actionDataDirty e4).
  change (_objectActions (put_actionsToRemove [] e4))
    with (_objectActions e4).
  change (_previouslyDeletedActions (put_actionsToRemove [] e4))
    with (_previouslyDeletedActions e4).
  change (_actionsToRemove e3) with (_actionsToRemove e2) in R1, R2.
  change (_objectActions e3) with (_objectActions e2) in R1.
  change (_previouslyDeletedActions e3)
    with (trimPreviouslyDeleted now (_previouslyDeletedActions e2)) in R2.
  change (_actionDataDirty e3) with true in R4.
  rewrite S2, F2, Hw in R1, R2. cbn [app] in R1, R2.
  rewrite S1 in R1.
  assert (Sch : forall i,
             i ∈ scheduledIds u1 (map_to_list (_objectActions e1)) <->
             ~ named deleted incoming i
             /\ exists a, _objectActions e !! i = Some a
                          /\ locallyAddedButNotYetReceived a = false).
  { intros i. rewrite elem_of_scheduledIds. split.
    - intros (a & L & Hu & Fl).
      assert (Nn : ~ named deleted incoming i).
      { intros Hn. apply Hu. apply F3. right. exact Hn. }
      split; [exact Nn |]. exists a. rewrite <- (F4 i Nn). tauto.
    - intros (Nn & a & L & Fl). exists a. rewrite (F4 i Nn).
      split; [exact L |]. split; [| exact Fl].
      intros Hu. apply F3 in Hu as [Hu | Hu]; [| contradiction].
      apply elem_of_empty in Hu. exact Hu. }
  split; [reflexivity |]. split; [exact R4 |].
  split.
  - intros i Hn.
    assert (Ns : i ∉ scheduledIds u1 (map_to_list (_objectActions e1))).
    { intros C. apply Sch in C as [C _]. contradiction. }
    rewrite R1, R2, bool_decide_eq_false_2 by exact Ns.
    assert (D : deleted !! i = None) by (destruct Hn as (b & _ & _ & D); exact D).
    split.
    { rewrite F5. split.
      - intros [? | (b & Hb & Hi & _ & Fb)]; [left; assumption |].
        right. exists b. tauto.
      - intros [? | (b & Hb & Hi & Fb)]; [left; assumption |].
        right. exists b. tauto. }
    split; [intros a' Ha; exact (F6 i a' Hn Ha) |].
    rewrite trimPreviouslyDeleted_lookup, S3.
    rewrite bool_decide_eq_false_2 by exact Ns.
    rewrite F1, D. reflexivity.
  - intros i Nn. rewrite R1, R2.
    rewrite trimPreviouslyDeleted_lookup, S3.
    rewrite (F4 i Nn), F1.
    unfold unnamedAction, unnamedTombstone.
    destruct (_objectActions e !! i) as [a |] eqn:L.
    + destruct (locallyAddedButNotYetReceived a) eqn:Fl.
      * assert (Ns : i ∉ scheduledIds u1 (map_to_list (_objectActions e1))).
        { intros C. apply Sch in C as (_ & a' & La & Fa). congruence. }
        rewrite !bool_decide_eq_false_2 by exact Ns. split; reflexivity.
      * assert (Ys : i ∈ scheduledIds u1 (map_to_list (_objectActions e1))).
        { apply Sch. split; [exact Nn |]. exists a. tauto. }
        rewrite !bool_decide_eq_true_2 by exact Ys. split; reflexivity.
    + assert (Ns : i ∉ scheduledIds u1 (map_to_list (_objectActions e1))).
      { intros C. apply Sch in C as (_ & a' & La & Fa). congruence. }
      rewrite !bool_decide_eq_false_2 by exact Ns. split; reflexivity.
Qed.
End Reconciliation.

Section ReconciliationExample.
Import Reference.

Definition pull : EntityAction := mkEntityAction 5%N 1 [] false true false.
Definition spring : EntityAction := mkEntityAction 6%N 2 [] false true false.

Lemma reference_factoryKeepsId : factoryKeepsId.
Proof.
  intros b a Fb. cbn in Fb.
  destruct (stream_actionType b <? 16); [| discriminate].
  injection Fb as <-. reflexivity.
Qed.

(** A record that holds the action 5, received earlier, is handed the
    blob of a ledger that holds the action 6 only: 6 is built, 5 is
    removed and tombstoned. *)
Lemma set_action_data_reconciles_witness :
  let e := put_objectActions {[5%N := pull]} (newEntity 1%N 0) in
  let e' := setActionData (blobOf {[6%N := spring]}) 100 e in
  is_Some (_objectActions e' !! 6%N)
  /\ _objectActions e' !! 5%N = None
  /\ _previouslyDeletedActions e' !! 5%N = Some 100.
Proof.
  intros e e'. subst e'.
  assert (In : actionsIn (blobOf {[6%N := spring]})
               = [action_serialize spring]) by (vm_compute; reflexivity).
  destruct (set_action_data_reconciles (blobOf {[6%N := spring]}) 100 e
              reference_factoryKeepsId) as (_ & _ & Tn & Tu).
  - vm_compute. eauto.
  - reflexivity.
  - vm_compute. reflexivity.
  - rewrite In in Tn, Tu. split; [| split].
    + apply (Tn 6%N).
      * exists (action_serialize spring).
        split; [apply list_elem_of_singleton; reflexivity |].
        split; vm_compute; reflexivity.
      * right. exists (action_serialize spring).
        split; [apply list_elem_of_singleton; reflexivity |].
        split; vm_compute; eauto.
    + destruct (Tu 5%N) as [A _];
        [| refine (eq_trans A _); vm_compute; reflexivity].
      intros (b & Hb & Hi & _). apply list_elem_of_singleton in Hb.
      subst b. vm_compute in Hi. discriminate.
    + destruct (Tu 5%N) as [_ T];
        [| refine (eq_trans T _); vm_compute; reflexivity].
      intros (b & Hb & Hi & _). apply list_elem_of_singleton in Hb.
      subst b. vm_compute in Hi. discriminate.
Defined.
End ReconciliationExample.

(** *** The pass itself *)

Section ReconciliationPass.
Context `{SimulationFlags} `{EntityActionFactoryInterface}.

End ReconciliationPass.

Section LedgerExamples.
Import Reference.

(** An action whose arguments alone take 800 bytes. *)
Definition heavy : EntityAction :=
  mkEntityAction 8%N 1 (repeat Byte.x00 800) false true false.

(** Adding it to a record without actions fails and leaves no action in
    the ledger. *)
Lemma add_action_overflow_rolls_back_witness :
  let r := addAction heavy 50 (newEntity 1%N 0) in
  fst r = false /\ _objectActions (snd r) = ∅.
Proof.
  destruct (add_action_overflow_rolls_back heavy 50 (newEntity 1%N 0))
    as (T1 & T2 & _).
  - apply Z.leb_le. vm_compute. reflexivity.
  - split; [exact T1 |].
    refine (eq_trans T2 _). vm_compute. reflexivity.
Defined.

(** The failed addition is not without trace: the record had no
    tombstone, and has one for the rejected action afterwards. *)
Lemma add_action_overflow_leaves_a_tombstone :
  let e := newEntity 1%N 0 in
  let r := addAction heavy 50 e in
  fst r = false
  /\ _previouslyDeletedActions e = ∅
  /\ _previouslyDeletedActions (snd r) = {[8%N := 50]}.
Proof. vm_compute. repeat split. Qed.


End LedgerExamples.

(** ** setProperties: what it reports and the stamps it sets *)

Definition marked {T : Type} (p : option T) : bool :=
  match p with Some _ => true | None => false end.

(** Some property of the set is marked as changed. *)
Definition anyChanged (p : EntityItemProperties) : bool :=
  false
  || marked (p_simulationOwner p) || marked (p_position p)
  || marked (p_rotation p) || marked (p_velocity p)
  || marked (p_angularVelocity p) || marked (p_acceleration p)
  || marked (p_dimensions p) || marked (p_registrationPoint p)
  || marked (p_density p) || marked (p_gravity p) || marked (p_damping p)
  || marked (p_angularDamping p) || marked (p_restitution p)
  || marked (p_friction p) || marked (p_collisionless p)
  || marked (p_collisionMask p) || marked (p_dynamic p)
  || p_createdChanged p || marked (p_lifetime p) || marked (p_script p)
  || marked (p_scriptTimestamp p) || marked (p_collisionSoundURL p)
  || marked (p_glowLevel p) || marked (p_localRenderAlpha p)
  || marked (p_visible p) || marked (p_locked p) || marked (p_userData p)
  || marked (p_marketplaceID p) || marked (p_name p) || marked (p_href p)
  || marked (p_description p) || marked (p_actionData p)
  || marked (p_parentID p) || marked (p_parentJointIndex p)
  || marked (p_queryAACube p).

Section SetPropertiesProperties.
Context `{GlmCommon} `{SimulationFlags} `{PhysicsCollisionGroups}
        `{EntityItemPropertiesDefaults} `{EntityActionFactoryInterface}.

Lemma SET_reports {T : Type} (p : option T)
      (M : T -> EntityItem -> EntityItem) (st : EntityItem * bool) :
  snd (SET_ENTITY_PROPERTY_FROM_PROPERTIES p M st) = snd st || marked p.
Proof.
  unfold SET_ENTITY_PROPERTY_FROM_PROPERTIES.
  destruct p; cbn; [rewrite orb_true_r | rewrite orb_false_r]; reflexivity.
Qed.

Ltac case_ifs :=
  repeat match goal with
         | |- context [if ?c then _ else _] => destruct c
         end.

(** A setter of [setProperties] leaves the member [proj] alone. *)
Ltac setter_keeps :=
  intros;
  first
    [ match goal with
      | |- _ (setActionData ?d ?n ?e) = _ =>
          rewrite (setActionData_ledger_only d n e); reflexivity
      end
    | unfold updateSimulationOwner, SimulationOwner_set, updateCreated,
        setGlowLevel, setLocalRenderAlpha,
        updateDimensions, setDimensions, updateDensity, updateGravity,
        updateDamping, updateRestitution, updateFriction, updateLifetime,
        setScript, setScriptTimestamp, setRegistrationPoint,
        updateAngularDamping, setVisible, updateCollisionless,
        updateCollisionMask, updateDynamic, setLocked, setUserData,
        setMarketplaceID, setName, setCollisionSoundURL, setHref,
        setDescription, setParentID, setParentJointIndex, setQueryAACube,
        updatePosition, updateRotation, updateVelocity,
        updateAngularVelocity, setAcceleration, setLocalPosition,
        setLocalOrientation, locationChanged, setScale,
        requiresRecalcBoxes, or_dirty;
      cbv beta iota zeta; case_ifs; reflexivity ].

(** The record and the mark after the [SET_ENTITY_PROPERTY_FROM_PROPERTIES]
    lines. *)
Definition afterSetters (properties : EntityItemProperties) (now : quint64)
           (e : EntityItem) : EntityItem * bool :=
  let st := (e, false) in
  let st := SET_ENTITY_PROPERTY_FROM_PROPERTIES (p_simulationOwner properties) updateSimulationOwner st in
  let st := SET_ENTITY_PROPERTY_FROM_PROPERTIES (p_position properties) updatePosition st in
  let st := SET_ENTITY_PROPERTY_FROM_PROPERTIES (p_rotation properties) updateRotation st in
  let st := SET_ENTITY_PROPERTY_FROM_PROPERTIES (p_velocity properties) updateVelocity st in
  let st := SET_ENTITY_PROPERTY_FROM_PROPERTIES (p_angularVelocity properties) updateAngularVelocity st in
  let st := SET_ENTITY_PROPERTY_FROM_PROPERTIES (p_acceleration properties) setAcceleration st in
  let st := SET_ENTITY_PROPERTY_FROM_PROPERTIES (p_dimensions properties) updateDimensions st in
  let st := SET_ENTITY_PROPERTY_FROM_PROPERTIES (p_registrationPoint properties) setRegistrationPoint st in
  let st := SET_ENTITY_PROPERTY_FROM_PROPERTIES (p_density properties) updateDensity st in
  let st := SET_ENTITY_PROPERTY_FROM_PROPERTIES (p_gravity properties) updateGravity st in
  let st := SET_ENTITY_PROPERTY_FROM_PROPERTIES (p_damping properties) updateDamping st in
  let st := SET_ENTITY_PROPERTY_FROM_PROPERTIES (p_angularDamping properties) updateAngularDamping st in
  let st := SET_ENTITY_PROPERTY_FROM_PROPERTIES (p_restitution properties) updateRestitution st in
  let st := SET_ENTITY_PROPERTY_FROM_PROPERTIES (p_friction properties) updateFriction st in
  let st := SET_ENTITY_PROPERTY_FROM_PROPERTIES (p_collisionless properties) updateCollisionless st in
  let st := SET_ENTITY_PROPERTY_FROM_PROPERTIES (p_collisionMask properties) updateCollisionMask st in
  let st := SET_ENTITY_PROPERTY_FROM_PROPERTIES (p_dynamic properties) updateDynamic st in
  let st :=
    SET_ENTITY_PROPERTY_FROM_PROPERTIES
      (if p_createdChanged properties then Some (p_created properties)
       else None) updateCreated st in
  let st := SET_ENTITY_PROPERTY_FROM_PROPERTIES (p_lifetime properties) updateLifetime st in
  let st := SET_ENTITY_PROPERTY_FROM_PROPERTIES (p_script properties) setScript st in
  let st := SET_ENTITY_PROPERTY_FROM_PROPERTIES (p_scriptTimestamp properties) setScriptTimestamp st in
  let st := SET_ENTITY_PROPERTY_FROM_PROPERTIES (p_collisionSoundURL properties) setCollisionSoundURL st in
  let st := SET_ENTITY_PROPERTY_FROM_PROPERTIES (p_glowLevel properties) setGlowLevel st in
  let st := SET_ENTITY_PROPERTY_FROM_PROPERTIES (p_localRenderAlpha properties) setLocalRenderAlpha st in
  let st := SET_ENTITY_PROPERTY_FROM_PROPERTIES (p_visible properties) setVisible st in
  let st := SET_ENTITY_PROPERTY_FROM_PROPERTIES (p_locked properties) setLocked st in
  let st := SET_ENTITY_PROPERTY_FROM_PROPERTIES (p_userData properties) setUserData st in
  let st := SET_ENTITY_PROPERTY_FROM_PROPERTIES (p_marketplaceID properties) setMarketplaceID st in
  let st := SET_ENTITY_PROPERTY_FROM_PROPERTIES (p_name properties) setName st in
  let st := SET_ENTITY_PROPERTY_FROM_PROPERTIES (p_href properties) setHref st in
  let st := SET_ENTITY_PROPERTY_FROM_PROPERTIES (p_description properties) setDescription st in
  let st := SET_ENTITY_PROPERTY_FROM_PROPERTIES (p_actionData properties) (fun d => setActionData d now) st in
  let st := SET_ENTITY_PROPERTY_FROM_PROPERTIES (p_parentID properties) setParentID st in
  let st := SET_ENTITY_PROPERTY_FROM_PROPERTIES (p_parentJointIndex properties) setParentJointIndex st in
  let st := SET_ENTITY_PROPERTY_FROM_PROPERTIES (p_queryAACube properties) setQueryAACube st in
  st.

Lemma setProperties_afterSetters (properties : EntityItemProperties)
      (now : quint64) (e : EntityItem) :
  setProperties properties now e =
    let st := afterSetters properties now e in
    let somethingChanged := snd st in
    let e := fst st in
    let e :=
      if somethingChanged then
        let e := setLastEdited now e in
        if negb (Z.land (_dirtyFlags e) (Z.lor DIRTY_TRANSFORM DIRTY_VELOCITIES)
                 =? 0)
        then put_lastSimulated now e
        else e
      else e in
    let timestamp := p_created properties in
    let e :=
      if (_created e =? UNKNOWN_CREATED_TIME)
         && negb (timestamp =? UNKNOWN_CREATED_TIME)
      then
        let timestamp := if timestamp >? now then now else timestamp in
        put_created timestamp e
      else e in
    (somethingChanged, e).
Proof. reflexivity. Qed.

Lemma afterSetters_reports (properties : EntityItemProperties)
      (now : quint64) (e : EntityItem) :
  snd (afterSetters properties now e) = anyChanged properties.
Proof.
  unfold afterSetters. cbv zeta. rewrite !SET_reports. cbn [snd].
  unfold anyChanged. destruct (p_createdChanged properties); reflexivity.
Qed.

Lemma afterSetters_keeps {A : Type} (proj : EntityItem -> A)
      (properties : EntityItemProperties) (now : quint64) (e : EntityItem) :
  (forall v e, proj (updateSimulationOwner v e) = proj e) ->
  (forall v e, proj (updatePosition v e) = proj e) ->
  (forall v e, proj (updateRotation v e) = proj e) ->
  (forall v e, proj (updateVelocity v e) = proj e) ->
  (forall v e, proj (updateAngularVelocity v e) = proj e) ->
  (forall v e, proj (setAcceleration v e) = proj e) ->
  (forall v e, proj (updateDimensions v e) = proj e) ->
  (forall v e, proj (setRegistrationPoint v e) = proj e) ->
  (forall v e, proj (updateDensity v e) = proj e) ->
  (forall v e, proj (updateGravity v e) = proj e) ->
  (forall v e, proj (updateDamping v e) = proj e) ->
  (forall v e, proj (updateAngularDamping v e) = proj e) ->
  (forall v e, proj (updateRestitution v e) = proj e) ->
  (forall v e, proj (updateFriction v e) = proj e) ->
  (forall v e, proj (updateCollisionless v e) = proj e) ->
  (forall v e, proj (updateCollisionMask v e) = proj e) ->
  (forall v e, proj (updateDynamic v e) = proj e) ->
  (forall v e, proj (updateCreated v e) = proj e) ->
  (forall v e, proj (updateLifetime v e) = proj e) ->
  (forall v e, proj (setScript v e) = proj e) ->
  (forall v e, proj (setScriptTimestamp v e) = proj e) ->
  (forall v e, proj (setCollisionSoundURL v e) = proj e) ->
  (forall v e, proj (setGlowLevel v e) = proj e) ->
  (forall v e, proj (setLocalRenderAlpha v e) = proj e) ->
  (forall v e, proj (setVisible v e) = proj e) ->
  (forall v e, proj (setLocked v e) = proj e) ->
  (forall v e, proj (setUserData v e) = proj e) ->
  (forall v e, proj (setMarketplaceID v e) = proj e) ->
  (forall v e, proj (setName v e) = proj e) ->
  (forall v e, proj (setHref v e) = proj e) ->
  (forall v e, proj (setDescription v e) = proj e) ->
  (forall v e, proj (setActionData v now e) = proj e) ->
  (forall v e, proj (setParentID v e) = proj e) ->
  (forall v e, proj (setParentJointIndex v e) = proj e) ->
  (forall v e, proj (setQueryAACube v e) = proj e) ->
  proj (fst (afterSetters properties now e)) = proj e.
Proof.
  intros. unfold afterSetters. cbv zeta.
  repeat (rewrite (SET_keeps proj) by assumption). reflexivity.
Qed.

Lemma afterSetters_stamps (properties : EntityItemProperties)
      (now : quint64) (e : EntityItem) :
  let e1 := fst (afterSetters properties now e) in
  _lastEdited e1 = _lastEdited e
  /\ _lastUpdated e1 = _lastUpdated e
  /\ _changedOnServer e1 = _changedOnServer e
  /\ _lastSimulated e1 = _lastSimulated e.
Proof.
  cbv zeta. repeat split.
  - apply (afterSetters_keeps _lastEdited); setter_keeps.
  - apply (afterSetters_keeps _lastUpdated); setter_keeps.
  - apply (afterSetters_keeps _changedOnServer); setter_keeps.
  - apply (afterSetters_keeps _lastSimulated); setter_keeps.
Qed.

(** X9.  [setProperties] reports a change exactly when the property set
    marks some property as changed, whether or not the value differs
    from the stored one.  When it does, the edit and update stamps of
    the record are the time of the call and the server-side change time
    does not go back; the simulation stamp is the time of the call when
    a transform or velocity bit is dirty afterwards, and is kept
    otherwise.  When it reports none, the four stamps are kept. *)
Theorem set_properties_reports_and_stamps
        (properties : EntityItemProperties) (now : quint64) (e : EntityItem) :
  let r := setProperties properties now e in
  fst r = anyChanged properties
  /\ (if fst r
      then _lastEdited (snd r) = now
           /\ _lastUpdated (snd r) = now
           /\ _changedOnServer (snd r) = Z.max now (_changedOnServer e)
           /\ _lastSimulated (snd r)
              = (if Z.land (_dirtyFlags (snd r))
                           (Z.lor DIRTY_TRANSFORM DIRTY_VELOCITIES) =? 0
                 then _lastSimulated e else now)
      else _lastEdited (snd r) = _lastEdited e
           /\ _lastUpdated (snd r) = _lastUpdated e
           /\ _changedOnServer (snd r) = _changedOnServer e
           /\ _lastSimulated (snd r) = _lastSimulated e).
Proof.
  cbv zeta. rewrite setProperties_afterSetters. cbv zeta. cbn [fst snd].
  split; [apply afterSetters_reports |].
  destruct (afterSetters_stamps properties now e) as (SE & SU & SC & SS).
  cbv zeta in SE, SU, SC, SS.
  set (st := afterSetters properties now e) in *.
  destruct (snd st).
  - unfold setLastEdited.
    change (_dirtyFlags
              (put_changedOnServer ?a (put_lastUpdated ?b
                 (put_lastEdited ?c (fst st)))))
      with (_dirtyFlags (fst st)).
    destruct (Z.land (_dirtyFlags (fst st))
                     (Z.lor DIRTY_TRANSFORM DIRTY_VELOCITIES) =? 0) eqn:D;
      cbn [negb];
      match goal with
      | |- context [if ?c then put_created _ _ else _] => destruct c
      end; cbn; rewrite ?D, ?SC, ?SS; repeat split; reflexivity.
  - match goal with
    | |- context [if ?c then put_created _ _ else _] => destruct c
    end; cbn; repeat split; assumption.
Qed.

(** X10.  A record whose creation time is unknown takes it from a
    property set that carries one without marking it as changed, cut
    down to the time of the call: [setProperties] does not put the
    creation time in the future this way.  A property set that carries
    none leaves it unknown. *)
Theorem set_properties_takes_created_not_later_than_now
        (properties : EntityItemProperties) (now : quint64) (e : EntityItem) :
  _created e = UNKNOWN_CREATED_TIME ->
  p_createdChanged properties = false ->
  _created (snd (setProperties properties now e))
  = (if p_created properties =? UNKNOWN_CREATED_TIME
     then UNKNOWN_CREATED_TIME
     else Z.min (p_created properties) now).
Proof.
  intros U NC. rewrite setProperties_afterSetters. cbv zeta. cbn [snd].
  assert (C : _created (fst (afterSetters properties now e)) = _created e).
  { unfold afterSetters. cbv zeta. rewrite NC.
    repeat (rewrite (SET_keeps _created) by setter_keeps).
    unfold SET_ENTITY_PROPERTY_FROM_PROPERTIES at 1.
    repeat (rewrite (SET_keeps _created) by setter_keeps).
    reflexivity. }
  set (st := afterSetters properties now e) in *.
  set (e1 := if snd st then _ else fst st).
  assert (C1 : _created e1 = _created e).
  { subst e1. rewrite <- C. unfold setLastEdited. case_ifs; reflexivity. }
  rewrite C1, U, Z.eqb_refl. cbn [andb].
  destruct (p_created properties =? UNKNOWN_CREATED_TIME); cbn [negb].
  - rewrite C1. exact U.
  - cbn. destruct (Z.gtb_spec (p_created properties) now); lia.
Qed.
End SetPropertiesProperties.

Section SetPropertiesExample.
Import Reference.

(** A property set that carries the creation time [t], unmarked, and
    nothing else. *)
Definition carriesCreated (t : quint64) : EntityItemProperties :=
  match noProperties with
  | mkEntityItemProperties a b c d e f g h i j k l m n o p q _ _
                           r s t' u v w x y z a1 b1 c1 d1 e1 f1 g1 h1 =>
      mkEntityItemProperties a b c d e f g h i j k l m n o p q t false
                             r s t' u v w x y z a1 b1 c1 d1 e1 f1 g1 h1
  end.

(** A new record, told at time 100 that it was created at 5000, was
    created at 100. *)
Lemma set_properties_takes_created_not_later_than_now_witness :
  _created (snd (setProperties (carriesCreated 5000) 100 (newEntity 1%N 0)))
  = 100.
Proof.
  refine (eq_trans
            (set_properties_takes_created_not_later_than_now
               (carriesCreated 5000) 100 (newEntity 1%N 0) _ _) _);
    reflexivity.
Defined.
End SetPropertiesExample.

(** ** Invariants of the material of a record *)

(** No component is zero or below. *)
Definition positive3 (v : vec3) : bool :=
  negb (Float32.leb (vx v) Float32.zero || Float32.leb (vy v) Float32.zero
        || Float32.leb (vz v) Float32.zero).

Definition material (e : EntityItem) : float * float * vec3 * Z :=
  (_restitution e, _friction e, _scale e, _collisionMask e).

Section MaterialInvariants.
Context `{GlmCommon} `{PropertyFlagBits} `{OctreeWire} `{SimulationFlags}
        `{PhysicsCollisionGroups} `{EntityItemPropertiesDefaults}
        `{PacketVersions} `{PhysicsHelpers} `{EntityActionFactoryInterface}.

(** Restitution and friction within their bounds, dimensions above zero,
    and a collision mask within the bits of the default mask. *)
Definition saneMaterial (m : float * float * vec3 * Z) : Prop :=
  let '(restitution, friction, dimensions, mask) := m in
  within ENTITY_ITEM_MIN_RESTITUTION ENTITY_ITEM_MAX_RESTITUTION restitution
  = true
  /\ within ENTITY_ITEM_MIN_FRICTION ENTITY_ITEM_MAX_FRICTION friction = true
  /\ positive3 dimensions = true
  /\ Z.land mask ENTITY_COLLISION_MASK_DEFAULT = mask.

Definition sane (e : EntityItem) : Prop := saneMaterial (material e).

Hypothesis restitution_bounds :
  Float32.leb ENTITY_ITEM_MIN_RESTITUTION ENTITY_ITEM_MAX_RESTITUTION = true.
Hypothesis friction_bounds :
  Float32.leb ENTITY_ITEM_MIN_FRICTION ENTITY_ITEM_MAX_FRICTION = true.

Ltac branch_ifs :=
  repeat match goal with
         | |- context [if ?c then _ else _] => destruct c
         end.

(** A setter that leaves the material alone. *)
Ltac keeps_material :=
  intros;
  first
    [ match goal with
      | |- _ (setActionData ?d ?n ?e) = _ =>
          rewrite (setActionData_ledger_only d n e); reflexivity
      end
    | unfold material, updateSimulationOwner, SimulationOwner_set,
        updateCreated, setGlowLevel, setLocalRenderAlpha,
        updateDensity, updateGravity, updateDamping, updateLifetime,
        setScript, setScriptTimestamp, setRegistrationPoint,
        updateAngularDamping, setVisible, updateCollisionless,
        updateDynamic, setLocked, setUserData,
        setMarketplaceID, setName, setCollisionSoundURL, setHref,
        setDescription, setParentID, setParentJointIndex, setQueryAACube,
        updatePosition, updateRotation, updateVelocity,
        updateAngularVelocity, setAcceleration, setLocalPosition,
        setLocalOrientation, locationChanged,
        requiresRecalcBoxes, or_dirty;
      cbv beta iota zeta; branch_ifs; reflexivity ].

Lemma sane_material_eq (e e' : EntityItem) :
  material e' = material e -> sane e -> sane e'.
Proof. unfold sane. intros ->. tauto. Qed.

Lemma updateRestitution_sane (v : float) (e : EntityItem) :
  sane e -> sane (updateRestitution v e).
Proof.
  unfold sane, material, saneMaterial. intros (_ & F & D & M).
  split.
  { rewrite updateRestitution_stores. cbv zeta.
    apply stored_unless_equal_within, max_min_bound_first,
      restitution_bounds. }
  unfold updateRestitution, or_dirty. cbv zeta.
  branch_ifs; repeat split; assumption.
Qed.

Lemma updateFriction_sane (v : float) (e : EntityItem) :
  sane e -> sane (updateFriction v e).
Proof.
  unfold sane, material, saneMaterial. intros (R & _ & D & M).
  split; [| split].
  2:{ rewrite updateFriction_stores. cbv zeta.
      apply stored_unless_equal_within, max_min_bound_first,
        friction_bounds. }
  all: unfold updateFriction, or_dirty; cbv zeta;
    branch_ifs; repeat split; assumption.
Qed.

Lemma updateDimensions_sane (v : vec3) (e : EntityItem) :
  sane e -> sane (updateDimensions v e).
Proof.
  unfold sane, material, saneMaterial. intros (R & F & D & M).
  unfold updateDimensions, setDimensions, getDimensions, or_dirty,
    requiresRecalcBoxes, setScale.
  destruct (Vec3.neb (_scale e) v); [| tauto].
  destruct (Float32.leb (vx v) Float32.zero
            || Float32.leb (vy v) Float32.zero
            || Float32.leb (vz v) Float32.zero) eqn:P; cbn.
  - tauto.
  - repeat split; try assumption. unfold positive3. rewrite P. reflexivity.
Qed.

Lemma updateCollisionMask_sane (v : Z) (e : EntityItem) :
  sane e -> sane (updateCollisionMask v e).
Proof.
  unfold sane, material, saneMaterial. intros (R & F & D & M).
  unfold updateCollisionMask, or_dirty.
  destruct (negb _); cbn; [| tauto].
  repeat split; try assumption.
  rewrite <- Z.land_assoc, Z.land_diag. reflexivity.
Qed.

Lemma READ_preserves {T : Type} (Q : EntityItem -> Prop)
      (flags : EntityPropertyFlags) (ow : bool) (P : EntityPropertyList)
      (w : Wire T) (S : T -> EntityItem -> EntityItem) (st : ReadState) :
  (forall v e, Q e -> Q (S v e)) ->
  Q (rs_entity st) ->
  Q (rs_entity (READ_ENTITY_PROPERTY flags ow P w S st)).
Proof.
  intros K Q0. unfold READ_ENTITY_PROPERTY.
  destruct (getHasProperty flags P); [| exact Q0].
  cbn. destruct ow; [apply K; exact Q0 | exact Q0].
Qed.

Lemma SET_preserves {T : Type} (Q : EntityItem -> Prop) (p : option T)
      (M : T -> EntityItem -> EntityItem) (st : EntityItem * bool) :
  (forall v e, Q e -> Q (M v e)) ->
  Q (fst st) ->
  Q (fst (SET_ENTITY_PROPERTY_FROM_PROPERTIES p M st)).
Proof.
  intros K Q0. unfold SET_ENTITY_PROPERTY_FROM_PROPERTIES.
  destruct p; [apply K; exact Q0 | exact Q0].
Qed.

(** Every update method keeps the material sane. *)
Ltac setter_sane :=
  first
    [ exact updateRestitution_sane
    | exact updateFriction_sane
    | exact updateDimensions_sane
    | exact updateCollisionMask_sane
    | let v := fresh "v" in
      let e0 := fresh "e" in
      let Q0 := fresh "Q" in
      intros v e0 Q0;
      refine (sane_material_eq e0 _ _ Q0);
      keeps_material ].

Lemma readOtherProperties_sane (flags : EntityPropertyFlags) (ow : bool)
      (version : Z) (now : quint64) (st : ReadState) :
  sane (rs_entity st) ->
  sane (rs_entity (readOtherProperties flags ow version now st)).
Proof.
  intros Q0. unfold readOtherProperties. cbv zeta.
  destruct (version >=? VERSION_ENTITIES_HAS_MARKETPLACE_ID);
    repeat (apply READ_preserves; [setter_sane |]); exact Q0.
Qed.

Lemma afterSetters_sane (properties : EntityItemProperties) (now : quint64)
      (e : EntityItem) :
  sane e -> sane (fst (afterSetters properties now e)).
Proof.
  intros Q0. unfold afterSetters. cbv zeta.
  repeat (apply SET_preserves; [setter_sane |]). exact Q0.
Qed.

Lemma simulateKinematicMotion_material (t : float) (setFlags : bool)
      (e : EntityItem) :
  material (simulateKinematicMotion t setFlags e) = material e.
Proof.
  unfold material, simulateKinematicMotion, simulateLinear, simulateAngular,
    setVelocity, setPosition, setRotation, setLocalPosition,
    setLocalOrientation, locationChanged, requiresRecalcBoxes, or_dirty.
  branch_ifs; reflexivity.
Qed.

Lemma headerStage_material (data : QByteArray)
      (args : ReadBitstreamToTreeParams) (now : quint64) (e : EntityItem) :
  material (headerStage data args now e) = material e.
Proof.
  unfold headerStage, acceptCreated, material. cbv zeta.
  branch_ifs; reflexivity.
Qed.

Lemma readSimulationOwner_material (flags : EntityPropertyFlags)
      (st : ReadState) :
  material (rs_entity (readSimulationOwner flags st))
  = material (rs_entity st).
Proof.
  unfold readSimulationOwner, SimulationOwner_set, or_dirty, material.
  destruct (getHasProperty flags PROP_SIMULATION_OWNER); cbn;
    branch_ifs; reflexivity.
Qed.

(** X11.  With ordered bounds, decoding a buffer, whatever its bytes,
    and [setProperties], whatever the property set, keep a record
    within these limits when it was within them: restitution and
    friction within their bounds, no dimension at or below zero, and no
    bit in the collision mask outside the default mask. *)
Theorem decoding_and_editing_keep_the_material_sane (e : EntityItem) :
  sane e ->
  (forall data args now myNodeID,
      sane (snd (fst (readEntityDataFromBuffer data args now myNodeID e))))
  /\ (forall properties now,
         sane (snd (setProperties properties now e))).
Proof.
  intros Q0. split.
  - intros data args now myNodeID.
    destruct (bitstreamVersion args <? VERSION_ENTITIES_SUPPORT_SPLIT_MTU)
      eqn:Hv.
    { unfold readEntityDataFromBuffer. rewrite Hv. exact Q0. }
    destruct (Nat.ltb_spec (length data) MINIMUM_HEADER_BYTES) as [L | L].
    { unfold readEntityDataFromBuffer. rewrite Hv. cbv zeta.
      apply Nat.ltb_lt in L. rewrite L. cbn [fst snd].
      refine (sane_material_eq e _ _ Q0). reflexivity. }
    rewrite (readEntityDataFromBuffer_phases data args now myNodeID e Hv L).
    cbn [snd].
    refine (sane_material_eq _ _ _ _).
    { apply (finishRead_keeps material);
        [keeps_material
        | intros; apply simulateKinematicMotion_material
        | reflexivity]. }
    apply readOtherProperties_sane.
    refine (sane_material_eq _ _ _ _).
    { apply (readTerseProperties_keeps material); keeps_material. }
    refine (sane_material_eq _ _ _ _).
    { apply readSimulationOwner_material. }
    cbn [rs_entity].
    refine (sane_material_eq e _ _ Q0). apply headerStage_material.
  - intros properties now. rewrite setProperties_afterSetters.
    cbv zeta. cbn [snd].
    pose proof (afterSetters_sane properties now e Q0) as Q1.
    set (st := afterSetters properties now e) in *.
    refine (sane_material_eq (fst st) _ _ Q1).
    unfold setLastEdited, material. branch_ifs; reflexivity.
Qed.
End MaterialInvariants.

(** ** The decoder as a parser *)

(** Where a read stands: the bytes ahead and the count of bytes read. *)
Definition cursor (st : ReadState) : QByteArray * nat :=
  (rs_dataAt st, rs_bytesRead st).

Section DecoderCursor.
Context `{GlmCommon} `{PropertyFlagBits} `{OctreeWire} `{SimulationFlags}
        `{PhysicsCollisionGroups} `{EntityItemPropertiesDefaults}
        `{PacketVersions} `{PhysicsHelpers} `{EntityActionFactoryInterface}.

Lemma READ_cursor {T : Type} (flags : EntityPropertyFlags) (ow ow' : bool)
      (P : EntityPropertyList) (w : Wire T)
      (S S' : T -> EntityItem -> EntityItem) (st st' : ReadState) :
  cursor st = cursor st' ->
  cursor (READ_ENTITY_PROPERTY flags ow P w S st)
  = cursor (READ_ENTITY_PROPERTY flags ow' P w S' st').
Proof.
  unfold cursor, READ_ENTITY_PROPERTY. intros E.
  injection E as E1 E2.
  destruct (getHasProperty flags P); cbn; rewrite E1, E2; reflexivity.
Qed.

Lemma readSimulationOwner_cursor (flags : EntityPropertyFlags)
      (st st' : ReadState) :
  cursor st = cursor st' ->
  cursor (readSimulationOwner flags st)
  = cursor (readSimulationOwner flags st').
Proof.
  unfold cursor, readSimulationOwner. intros E. injection E as E1 E2.
  destruct (getHasProperty flags PROP_SIMULATION_OWNER); cbn;
    rewrite E1, E2; reflexivity.
Qed.

Lemma readTerseProperties_cursor (flags : EntityPropertyFlags)
      (ow ow' weOwn weOwn' : bool) (st st' : ReadState) :
  cursor st = cursor st' ->
  cursor (readTerseProperties flags ow weOwn st)
  = cursor (readTerseProperties flags ow' weOwn' st').
Proof.
  intros E. unfold readTerseProperties. cbv zeta.
  repeat apply READ_cursor. exact E.
Qed.

Lemma readOtherProperties_cursor (flags : EntityPropertyFlags)
      (ow ow' : bool) (version : Z) (now now' : quint64)
      (st st' : ReadState) :
  cursor st = cursor st' ->
  cursor (readOtherProperties flags ow version now st)
  = cursor (readOtherProperties flags ow' version now' st').
Proof.
  intros E. unfold readOtherProperties. cbv zeta.
  destruct (version >=? VERSION_ENTITIES_HAS_MARKETPLACE_ID);
    repeat apply READ_cursor; exact E.
Qed.

Lemma finishRead_cursor (flags : EntityPropertyFlags) (ow ow' : bool)
      (version : Z) (now now' lsa lsa' : quint64) (myNodeID myNodeID' : QUuid)
      (st st' : ReadState) :
  cursor st = cursor st' ->
  cursor (finishRead flags ow version now lsa myNodeID st)
  = cursor (finishRead flags ow' version now' lsa' myNodeID' st').
Proof.
  intros E. unfold finishRead.
  set (s1 := if version =? VERSION_ENTITIES_HAS_MARKETPLACE_ID_DAMAGED
             then READ_ENTITY_PROPERTY flags ow PROP_MARKETPLACE_ID
                    wire_QString setMarketplaceID st
             else st).
  set (s2 := if version =? VERSION_ENTITIES_HAS_MARKETPLACE_ID_DAMAGED
             then READ_ENTITY_PROPERTY flags ow' PROP_MARKETPLACE_ID
                    wire_QString setMarketplaceID st'
             else st').
  assert (C : cursor s1 = cursor s2).
  { subst s1 s2. destruct (version =? _); [apply READ_cursor |]; exact E. }
  unfold cursor in *. cbn. exact C.
Qed.

(** X12.  The count of bytes that [readEntityDataFromBuffer] reports,
    and what it leaves in the parameters, are determined by the buffer
    and the parameters: they are the same for every record, clock and
    node id.  A packet that one receiver ignores as stale is skipped by
    the count another receiver reads. *)
Theorem bytes_read_do_not_depend_on_the_record
        (data : QByteArray) (args : ReadBitstreamToTreeParams)
        (now now' : quint64) (myNodeID myNodeID' : QUuid)
        (e e' : EntityItem) :
  let r := readEntityDataFromBuffer data args now myNodeID e in
  let r' := readEntityDataFromBuffer data args now' myNodeID' e' in
  fst (fst r) = fst (fst r') /\ snd r = snd r'.
Proof.
  cbv zeta. split.
  - destruct (bitstreamVersion args <? VERSION_ENTITIES_SUPPORT_SPLIT_MTU)
      eqn:Hv.
    { unfold readEntityDataFromBuffer. rewrite Hv. reflexivity. }
    destruct (Nat.ltb_spec (length data) MINIMUM_HEADER_BYTES) as [L | L].
    { unfold readEntityDataFromBuffer. rewrite Hv. cbv zeta.
      apply Nat.ltb_lt in L. rewrite L. reflexivity. }
    rewrite (readEntityDataFromBuffer_phases data args now myNodeID e Hv L).
    rewrite (readEntityDataFromBuffer_phases data args now' myNodeID' e' Hv L).
    cbn [fst].
    match goal with
    | |- rs_bytesRead ?a = rs_bytesRead ?b =>
        assert (C : cursor a = cursor b)
    end.
    { apply finishRead_cursor, readOtherProperties_cursor,
        readTerseProperties_cursor, readSimulationOwner_cursor.
      reflexivity. }
    unfold cursor in C. injection C as _ C. exact C.
  - unfold readEntityDataFromBuffer.
    destruct (bitstreamVersion args <? VERSION_ENTITIES_SUPPORT_SPLIT_MTU);
      [reflexivity |].
    cbv zeta.
    destruct (length data <? MINIMUM_HEADER_BYTES)%nat; reflexivity.
Qed.

(** X13.  A record whose creation time is unknown takes it from the
    header of any buffer of a supported stream version and of 27 bytes
    or more, an ignored one included: the time of the packet less the
    clock skew, or the time of the call when that is later than the
    call or unknown itself.  The creation time is at most the time of
    the call afterwards. *)
Theorem decoding_sets_an_unknown_creation_time
        (data : QByteArray) (args : ReadBitstreamToTreeParams)
        (now : quint64) (myNodeID : QUuid) (e : EntityItem) :
  (bitstreamVersion args <? VERSION_ENTITIES_SUPPORT_SPLIT_MTU) = false ->
  (MINIMUM_HEADER_BYTES <= length data)%nat ->
  _created e = UNKNOWN_CREATED_TIME ->
  let e' := snd (fst (readEntityDataFromBuffer data args now myNodeID e)) in
  let sent := wrap64 (packet_created data - clockSkewOf args) in
  _created e'
  = (if (sent >? now) || (sent =? UNKNOWN_CREATED_TIME) then now else sent)
  /\ _created e' <= now.
Proof.
  intros Hv L U e' sent.
  destruct (times_after_header data args now myNodeID e Hv L) as [T _].
  destruct (headerStage_frame data args now e) as (_ & _ & _ & C).
  cbv zeta in T, C. unfold times in T.
  assert (E : _created e'
              = _created (acceptCreated (packet_created data)
                            (clockSkewOf args) now e)).
  { rewrite <- C. subst e'. congruence. }
  rewrite E. unfold acceptCreated. rewrite U, Z.eqb_refl. fold sent.
  change (_created (put_created ?t e)) with t.
  split; [reflexivity |].
  destruct (Z.gtb_spec sent now); cbn [orb]; [lia |].
  destruct (sent =? UNKNOWN_CREATED_TIME); lia.
Qed.
End DecoderCursor.

Section DecoderInvariantExamples.
Import Reference.

(** The material of a new record is sane, and stays so under the packet
    of the example. *)
Lemma decoding_and_editing_keep_the_material_sane_witness :
  sane (snd (fst (readEntityDataFromBuffer positionPacket exampleArgs
                    2000000 9%N (newEntity 1%N 0)))).
Proof.
  refine (proj1 (decoding_and_editing_keep_the_material_sane _ _
                   (newEntity 1%N 0) _)
                positionPacket exampleArgs 2000000 9%N);
    [reflexivity | reflexivity | vm_compute; repeat split].
Defined.

(** The packet of the example carries the unknown creation time of its
    sender: a new record takes the time of the call. *)
Lemma decoding_sets_an_unknown_creation_time_witness :
  _created (snd (fst (readEntityDataFromBuffer positionPacket exampleArgs
                        2000000 9%N (newEntity 1%N 0)))) = 2000000.
Proof.
  refine (eq_trans
            (proj1 (decoding_sets_an_unknown_creation_time positionPacket
                      exampleArgs 2000000 9%N (newEntity 1%N 0) _ _ _)) _).
  - reflexivity.
  - vm_compute. lia.
  - reflexivity.
  - vm_compute. reflexivity.
Defined.
End DecoderInvariantExamples.

(** ** The encoder and the packet it writes into *)

(** [pd'] has the budget of [pd] and its bytes in front, holds [m] bytes
    at least, and is within the budget if [pd] was. *)
Definition extends (pd pd' : OctreePacketData) (m : nat) : Prop :=
  pd_budget pd' = pd_budget pd
  /\ take (length (pd_bytes pd)) (pd_bytes pd') = pd_bytes pd
  /\ (m <= length (pd_bytes pd'))%nat
  /\ (length (pd_bytes pd')
      <= Nat.max (pd_budget pd) (length (pd_bytes pd)))%nat.

Lemma extends_refl (pd : OctreePacketData) :
  extends pd pd (length (pd_bytes pd)).
Proof.
  unfold extends. repeat split.
  - apply take_ge. lia.
  - lia.
  - lia.
Qed.

Lemma extends_weaken (pd pd' : OctreePacketData) (m m' : nat) :
  (m' <= m)%nat -> extends pd pd' m -> extends pd pd' m'.
Proof. unfold extends. intros L (A & B & C & D). repeat split; try assumption. lia. Qed.

Lemma appendRawData_extends (pd pd' : OctreePacketData) (m : nat)
      (b : QByteArray) :
  (length (pd_bytes pd) <= m)%nat ->
  extends pd pd' m ->
  extends pd (snd (appendRawData b pd')) m
  /\ (fst (appendRawData b pd') = true ->
      extends pd (snd (appendRawData b pd'))
              (length (pd_bytes pd') + length b)).
Proof.
  unfold extends, appendRawData. intros L (A & B & C & D).
  destruct (Nat.leb_spec (length (pd_bytes pd') + length b) (pd_budget pd'))
    as [F | F]; cbn [fst snd pd_bytes pd_budget].
  - assert (T : take (length (pd_bytes pd)) (pd_bytes pd' ++ b)
                = pd_bytes pd).
    { rewrite take_app_le by lia. exact B. }
    rewrite length_app.
    split; [| intros _]; repeat split; try assumption; lia.
  - split; [| discriminate]. repeat split; assumption.
Qed.

Section EncoderProperties.
Context `{GlmCommon} `{PropertyFlagBits} `{OctreeWire} `{SimulationFlags}
        `{PhysicsHelpers} `{EntityActionFactoryInterface}.

Lemma APPEND_extends (pd : OctreePacketData) (m : nat)
      (requested : EntityPropertyFlags) (st : EncodeState)
      (PV : EntityPropertyList * QByteArray) :
  (length (pd_bytes pd) <= m)%nat ->
  extends pd (es_packetData st) m ->
  extends pd (es_packetData (APPEND_ENTITY_PROPERTY requested st PV)) m.
Proof.
  intros L E. destruct PV as [P V]. unfold APPEND_ENTITY_PROPERTY.
  destruct (getHasProperty requested P); [| exact E].
  destruct (appendRawData_extends pd (es_packetData st) m V L E) as [A _].
  unfold appendRawData in *.
  destruct (length (pd_bytes (es_packetData st)) + length V
            <=? pd_budget (es_packetData st))%nat;
    cbn [fst snd es_packetData] in *.
  - exact A.
  - unfold discardLevel, startLevel. cbn [pd_bytes pd_budget].
    rewrite take_ge by lia.
    destruct (es_packetData st); exact E.
Qed.

Lemma fold_APPEND_extends (pd : OctreePacketData) (m : nat)
      (requested : EntityPropertyFlags)
      (l : list (EntityPropertyList * QByteArray)) :
  (length (pd_bytes pd) <= m)%nat ->
  forall st : EncodeState,
    extends pd (es_packetData st) m ->
    extends pd
      (es_packetData (fold_left (APPEND_ENTITY_PROPERTY requested) l st)) m.
Proof.
  intros L. induction l as [| PV l IH]; intros st E; cbn [fold_left].
  - exact E.
  - apply IH. apply APPEND_extends; assumption.
Qed.

Lemma updatePriorBytes_extends (pd pd' : OctreePacketData) (m offset : nat)
      (replacement : QByteArray) :
  (length (pd_bytes pd) <= offset)%nat ->
  extends pd pd' m ->
  extends pd (updatePriorBytes offset replacement pd') m
  /\ length (pd_bytes (updatePriorBytes offset replacement pd'))
     = length (pd_bytes pd').
Proof.
  unfold extends, updatePriorBytes. intros L (A & B & C & D).
  destruct (Nat.leb_spec (offset + length replacement)
                         (length (pd_bytes pd'))) as [F | F];
    cbn [pd_bytes pd_budget]; [| repeat split; assumption].
  assert (Len : length (take offset (pd_bytes pd') ++ replacement
                        ++ drop (offset + length replacement) (pd_bytes pd'))
                = length (pd_bytes pd')).
  { rewrite !length_app, length_take, length_drop. lia. }
  rewrite Len.
  repeat split; try assumption.
  rewrite take_app_le by (rewrite length_take; lia).
  rewrite take_take.
  replace (length (pd_bytes pd) `min` offset)%nat
    with (length (pd_bytes pd)) by lia.
  exact B.
Qed.

Lemma setUncompressedSize_extends (pd pd' : OctreePacketData)
      (m newSize : nat) :
  (length (pd_bytes pd) <= newSize)%nat ->
  (length (pd_bytes pd) <= m)%nat ->
  extends pd pd' m ->
  extends pd (setUncompressedSize newSize pd') (length (pd_bytes pd)).
Proof.
  unfold extends, setUncompressedSize. intros L Lm (A & B & C & D).
  cbn [pd_bytes pd_budget]. rewrite length_take, take_take.
  replace (length (pd_bytes pd) `min` newSize)%nat
    with (length (pd_bytes pd)) by lia.
  repeat split; try assumption; lia.
Qed.

Lemma rewritePropertyFlags_extends (pd pd' : OctreePacketData)
      (offset oldLength start : nat) (flags : EntityPropertyFlags) :
  (length (pd_bytes pd) <= offset)%nat ->
  extends pd pd' (offset + oldLength) ->
  extends pd (rewritePropertyFlags offset oldLength start flags pd')
          (length (pd_bytes pd)).
Proof.
  intros L E. unfold rewritePropertyFlags. cbv zeta.
  destruct (updatePriorBytes_extends pd pd' (offset + oldLength) offset
              (pack wire_flags flags) L E) as [E1 Len1].
  set (pd1 := updatePriorBytes offset (pack wire_flags flags) pd') in *.
  destruct (Nat.ltb_spec (length (pack wire_flags flags)) oldLength)
    as [S | S].
  - match goal with
    | |- context [updatePriorBytes ?o ?r pd1] =>
        destruct (updatePriorBytes_extends pd pd1 (offset + oldLength) o r)
          as [E2 Len2]; [lia | exact E1 |];
        set (pd2 := updatePriorBytes o r pd1) in *
    end.
    apply (setUncompressedSize_extends pd pd2 (offset + oldLength));
      [| lia | exact E2].
    unfold getUncompressedSize.
    destruct E1 as (_ & _ & C & _). lia.
  - apply (extends_weaken pd pd1 (offset + oldLength)); [lia | exact E1].
Qed.

Lemma discardLevel_start (pd pd' : OctreePacketData) (m : nat) :
  extends pd pd' m -> discardLevel (startLevel pd) pd' = pd.
Proof.
  unfold extends, discardLevel, startLevel. intros (A & B & _).
  rewrite A, B. destruct pd; reflexivity.
Qed.

(** *** What a pass writes *)

(** The header of the packet of a record, up to the flags, and the flags
    as they are first written: the flag of [PROP_LAST_ITEM] alone, which
    reserves their room. *)
Definition sentHeader (e : EntityItem) : QByteArray :=
  pack wire_rfc4122 (_id e) ++ pack wire_count32 (_type e)
  ++ pack wire_quint64 (_created e) ++ pack wire_quint64 (_lastEdited e)
  ++ pack wire_count64
       (if _lastUpdated e <=? _lastEdited e then 0
        else wrap64 (_lastUpdated e - _lastEdited e))
  ++ pack wire_count64
       (if _lastSimulated e <=? _lastEdited e then 0
        else wrap64 (_lastSimulated e - _lastEdited e)).

Definition reservedFlags : QByteArray :=
  pack wire_flags (flags_add 0%N PROP_LAST_ITEM).

(** The properties a pass is asked for: those the extra encode data holds
    for the entity, every property of the base class when it holds
    none. *)
Definition requestedOf (extra : option (gmap QUuid EntityPropertyFlags))
           (e : EntityItem) : EntityPropertyFlags :=
  match extra with
  | Some entities =>
      match entities !! _id e with
      | Some requested => requested
      | None => getEntityProperties
      end
  | None => getEntityProperties
  end.

(** What [appendEntityData] does once the header is in the packet. *)
Definition afterHeader (packetData : OctreePacketData)
           (extra : option (gmap QUuid EntityPropertyFlags))
           (e : EntityItem)
  : option (AppendState * OctreePacketData
            * option (gmap QUuid EntityPropertyFlags)) :=
  let st :=
    fold_left (APPEND_ENTITY_PROPERTY (requestedOf extra e))
      (entityPropertyValues e)
      (mkEncodeState
         (mkOctreePacketData
            (pd_bytes packetData ++ sentHeader e ++ reservedFlags)
            (pd_budget packetData))
         (flags_sub (flags_add 0%N PROP_LAST_ITEM) PROP_LAST_ITEM)
         getEntityProperties 0%nat COMPLETED) in
  let result :=
    if (0 <? es_propertyCount st)%nat then
      (es_appendState st,
       rewritePropertyFlags
         (length (pd_bytes packetData ++ sentHeader e))
         (length reservedFlags)
         (length (pd_bytes packetData ++ sentHeader e ++ reservedFlags))
         (es_propertyFlags st) (es_packetData st))
    else (NONE, discardLevel (startLevel packetData) (es_packetData st)) in
  if negb (AppendState_eqb (fst result) COMPLETED)
  then
    match extra with
    | Some entities =>
        Some (fst result, snd result,
              Some (<[_id e := es_propertiesDidntFit st]> entities))
    | None => None
    end
  else Some (fst result, snd result, extra).

(** What [appendEntityData] answers when the header does not fit. *)
Definition nothingFits (packetData : OctreePacketData)
           (extra : option (gmap QUuid EntityPropertyFlags))
           (e : EntityItem)
  : option (AppendState * OctreePacketData
            * option (gmap QUuid EntityPropertyFlags)) :=
  match extra with
  | Some entities =>
      Some (NONE, packetData,
            Some (<[_id e := getEntityProperties]> entities))
  | None => None
  end.

Lemma discardLevel_app (pd : OctreePacketData) (b : QByteArray) :
  discardLevel (startLevel pd)
    (mkOctreePacketData (pd_bytes pd ++ b) (pd_budget pd)) = pd.
Proof.
  unfold discardLevel, startLevel. cbn [pd_bytes pd_budget].
  rewrite take_app_length. destruct pd; reflexivity.
Qed.

Lemma discardLevel_same (pd : OctreePacketData) :
  discardLevel (startLevel pd) pd = pd.
Proof.
  unfold discardLevel, startLevel. rewrite take_ge by lia.
  destruct pd; reflexivity.
Qed.

Lemma appendRawData_fits (b : QByteArray) (pd : OctreePacketData) :
  (length (pd_bytes pd) + length b <= pd_budget pd)%nat ->
  appendRawData b pd
  = (true, mkOctreePacketData (pd_bytes pd ++ b) (pd_budget pd)).
Proof.
  intros F. unfold appendRawData.
  rewrite (proj2 (Nat.leb_le _ _) F). reflexivity.
Qed.

Lemma appendRawData_full (b : QByteArray) (pd : OctreePacketData) :
  (pd_budget pd < length (pd_bytes pd) + length b)%nat ->
  appendRawData b pd = (false, pd).
Proof.
  intros F. unfold appendRawData.
  rewrite (proj2 (Nat.leb_gt _ _) F). reflexivity.
Qed.

(** Sums of lengths of packed values. *)
Ltac lengths :=
  unfold sentHeader, reservedFlags in *; rewrite ?length_app in *;
  repeat match goal with
         | |- context [length (pack ?w ?v)] =>
             let n := fresh "n" in set (n := length (pack w v)) in *
         end;
  repeat match goal with
         | F : context [length (pack ?w ?v)] |- _ =>
             match goal with
             | n := length (pack w _) |- _ =>
                 progress change (length (pack w v)) with n in F
             end
         end;
  repeat match goal with n := _ : nat |- _ => clearbody n end;
  lia.

(** One append of the header: it fits, or nothing is written. *)
Ltac header_step :=
  match goal with
  | |- context [appendRawData ?b ?p] =>
      first [is_var p
            | lazymatch p with mkOctreePacketData _ _ => idtac end];
      let F := fresh "F" in
      destruct (Nat.leb_spec (length (pd_bytes p) + length b) (pd_budget p))
        as [F | F];
      [rewrite (appendRawData_fits b p F)
      | rewrite (appendRawData_full b p F)];
      cbn [fst snd pd_bytes pd_budget andb] in *
  end.

Ltac header_full :=
  match goal with
  | |- _ = if (?a <=? ?b)%nat then _ else _ =>
      let X := fresh "X" in
      assert (X : (b < a)%nat) by lengths;
      rewrite (proj2 (Nat.leb_gt a b) X); clear X
  end;
  cbn [Nat.ltb Nat.leb es_propertyCount es_packetData es_appendState
       es_propertiesDidntFit AppendState_eqb negb fst snd];
  unfold nothingFits;
  rewrite <- ?app_assoc;
  first [rewrite discardLevel_app | rewrite discardLevel_same];
  reflexivity.

Lemma appendEntityData_header (packetData : OctreePacketData)
      (extra : option (gmap QUuid EntityPropertyFlags)) (e : EntityItem) :
  appendEntityData packetData extra e =
    if (length (pd_bytes packetData)
        + length (sentHeader e ++ reservedFlags)
        <=? pd_budget packetData)%nat
    then afterHeader packetData extra e
    else nothingFits packetData extra e.
Proof.
  unfold appendEntityData, appendValue. cbv zeta.
  header_step; [| header_full].
  header_step; [| header_full].
  header_step; [| header_full].
  header_step; [| header_full].
  header_step; [| header_full].
  header_step; [| header_full].
  header_step; [| header_full].
  match goal with
  | |- _ = if (?a <=? ?b)%nat then _ else _ =>
      let X := fresh "X" in
      assert (X : (a <= b)%nat) by lengths;
      rewrite (proj2 (Nat.leb_le a b) X); clear X
  end.
  unfold afterHeader, getUncompressedByteOffset.
  cbn [fst snd es_packetData es_propertyFlags es_propertiesDidntFit
       es_propertyCount es_appendState pd_bytes pd_budget].
  unfold sentHeader, reservedFlags. rewrite <- !app_assoc.
  reflexivity.
Qed.
End EncoderProperties.

(** *** The pass over the properties *)

Section EncoderPass.
Context `{GlmCommon} `{PropertyFlagBits} `{OctreeWire} `{SimulationFlags}
        `{PhysicsHelpers} `{EntityActionFactoryInterface}.

(** What a pass writes, in the words of the specification: in the
    declared order, a property that was asked for is written when its
    value fits in the room that those written before it left, and it is
    cleared from the set of the properties that did not fit when it was
    written or was not asked for.  The answer is the properties written,
    with their values, and the properties cleared. *)
Fixpoint packInOrder (requested : EntityPropertyFlags) (room : nat)
         (items : list (EntityPropertyList * QByteArray))
  : list (EntityPropertyList * QByteArray) * list EntityPropertyList :=
  match items with
  | [] => ([], [])
  | (P, V) :: items =>
      if getHasProperty requested P then
        if (length V <=? room)%nat then
          let pass := packInOrder requested (room - length V) items in
          ((P, V) :: fst pass, P :: snd pass)
        else packInOrder requested room items
      else
        let pass := packInOrder requested room items in
        (fst pass, P :: snd pass)
  end.

Lemma packInOrder_cleared_length (requested : EntityPropertyFlags)
      (items : list (EntityPropertyList * QByteArray)) :
  forall room : nat,
    (length (snd (packInOrder requested room items)) <= length items)%nat.
Proof.
  induction items as [| [P V] items IH]; intros room; cbn [packInOrder].
  - cbn. lia.
  - destruct (getHasProperty requested P).
    + destruct (length V <=? room)%nat; cbn [snd length].
      * specialize (IH (room - length V)%nat). lia.
      * specialize (IH room). lia.
    + cbn [snd length]. specialize (IH room). lia.
Qed.

(** The loop of [APPEND_ENTITY_PROPERTY] lines does what the
    specification says. *)
Lemma fold_APPEND_packInOrder (requested : EntityPropertyFlags)
      (items : list (EntityPropertyList * QByteArray)) :
  forall st : EncodeState,
    (length (pd_bytes (es_packetData st)) <= pd_budget (es_packetData st))%nat ->
    let pass :=
      packInOrder requested
        (pd_budget (es_packetData st) - length (pd_bytes (es_packetData st)))
        items in
    let st' := fold_left (APPEND_ENTITY_PROPERTY requested) items st in
    es_packetData st'
    = mkOctreePacketData
        (pd_bytes (es_packetData st) ++ concat (map snd (fst pass)))
        (pd_budget (es_packetData st))
    /\ es_propertyFlags st'
       = fold_left flags_add (map fst (fst pass)) (es_propertyFlags st)
    /\ es_propertiesDidntFit st'
       = fold_left flags_sub (snd pass) (es_propertiesDidntFit st)
    /\ es_propertyCount st' = (es_propertyCount st + length (fst pass))%nat
    /\ es_appendState st'
       = (if (length (snd pass) <? length items)%nat then PARTIAL
          else es_appendState st)
    /\ (length (pd_bytes (es_packetData st'))
        <= pd_budget (es_packetData st))%nat.
Proof.
  induction items as [| [P V] items IH]; intros st Fit;
    cbn [fold_left packInOrder].
  - cbv zeta. cbn. rewrite app_nil_r, Nat.add_0_r.
    destruct st as [[b n] f d c a]. cbn in *. repeat split. exact Fit.
  - set (room := (pd_budget (es_packetData st)
                  - length (pd_bytes (es_packetData st)))%nat).
    assert (Lt : forall n m : nat,
               (n <= m)%nat ->
               (Datatypes.S n <? Datatypes.S m)%nat = (n <? m)%nat).
    { intros n m _. destruct (Nat.ltb_spec n m);
        destruct (Nat.ltb_spec (Datatypes.S n) (Datatypes.S m));
        try reflexivity; lia. }
    destruct (getHasProperty requested P) eqn:Rq.
    + destruct (Nat.leb_spec (length (pd_bytes (es_packetData st)) + length V)
                             (pd_budget (es_packetData st))) as [F | F].
      * assert (Step : APPEND_ENTITY_PROPERTY requested st (P, V)
                       = mkEncodeState
                           (mkOctreePacketData
                              (pd_bytes (es_packetData st) ++ V)
                              (pd_budget (es_packetData st)))
                           (flags_add (es_propertyFlags st) P)
                           (flags_sub (es_propertiesDidntFit st) P)
                           (Datatypes.S (es_propertyCount st))
                           (es_appendState st)).
        { unfold APPEND_ENTITY_PROPERTY. rewrite Rq.
          unfold appendRawData, endLevel.
          rewrite (proj2 (Nat.leb_le _ _) F). reflexivity. }
        rewrite Step.
        rewrite (proj2 (Nat.leb_le (length V) room)) by (subst room; lia).
        match goal with
        | |- context [fold_left _ items ?s] => specialize (IH s)
        end.
        cbn [es_packetData es_propertyFlags es_propertiesDidntFit
             es_propertyCount es_appendState pd_bytes pd_budget] in IH.
        cbv zeta in IH.
        rewrite length_app in IH.
        replace (pd_budget (es_packetData st)
                 - (length (pd_bytes (es_packetData st)) + length V))%nat
          with (room - length V)%nat in IH by (subst room; lia).
        destruct IH as (I1 & I2 & I3 & I4 & I5 & I6); [lia |].
        pose proof (packInOrder_cleared_length requested items
                      (room - length V)) as L.
        cbv zeta. cbn [fst snd map concat fold_left length].
        rewrite I2, I3, I4, I5, (Lt _ _ L). rewrite I1 in I6 |- *.
        cbn [pd_bytes] in I6 |- *. rewrite <- app_assoc in I6 |- *.
        repeat split; try lia.
      * assert (Step : APPEND_ENTITY_PROPERTY requested st (P, V)
                       = mkEncodeState (es_packetData st)
                           (es_propertyFlags st) (es_propertiesDidntFit st)
                           (es_propertyCount st) PARTIAL).
        { unfold APPEND_ENTITY_PROPERTY. rewrite Rq.
          unfold appendRawData, discardLevel, startLevel.
          rewrite (proj2 (Nat.leb_gt _ _) F). cbn [fst snd].
          rewrite take_ge by lia. destruct (es_packetData st); reflexivity. }
        rewrite Step.
        rewrite (proj2 (Nat.leb_gt (length V) room)) by (subst room; lia).
        match goal with
        | |- context [fold_left _ items ?s] => specialize (IH s)
        end.
        cbn [es_packetData es_propertyFlags es_propertiesDidntFit
             es_propertyCount es_appendState pd_bytes pd_budget] in IH.
        cbv zeta in IH. fold room in IH.
        destruct IH as (I1 & I2 & I3 & I4 & I5 & I6); [exact Fit |].
        pose proof (packInOrder_cleared_length requested items room) as L.
        cbv zeta. cbn [length].
        rewrite I2, I3, I4, I5. rewrite I1 in I6 |- *.
        rewrite (proj2 (Nat.ltb_lt _ (Datatypes.S (length items)))) by lia.
        repeat split; try lia.
        destruct (_ <? _)%nat; reflexivity.
    + assert (Step : APPEND_ENTITY_PROPERTY requested st (P, V)
                     = mkEncodeState (es_packetData st)
                         (es_propertyFlags st)
                         (flags_sub (es_propertiesDidntFit st) P)
                         (es_propertyCount st) (es_appendState st)).
      { unfold APPEND_ENTITY_PROPERTY. rewrite Rq. reflexivity. }
      rewrite Step.
      match goal with
      | |- context [fold_left _ items ?s] => specialize (IH s)
      end.
      cbn [es_packetData es_propertyFlags es_propertiesDidntFit
           es_propertyCount es_appendState pd_bytes pd_budget] in IH.
      cbv zeta in IH. fold room in IH.
      destruct IH as (I1 & I2 & I3 & I4 & I5 & I6); [exact Fit |].
      pose proof (packInOrder_cleared_length requested items room) as L.
      cbv zeta. cbn [fst snd fold_left length].
      rewrite I2, I3, I4, I5, (Lt _ _ L). rewrite I1 in I6 |- *.
      repeat split; try lia.
Qed.

Lemma flags_sub_add_empty (P : EntityPropertyList) :
  flags_sub (flags_add 0%N P) P = 0%N.
Proof.
  unfold flags_sub, flags_add. apply N.bits_inj. intros n.
  rewrite N.clearbit_eqb, N.setbit_eqb, N.bits_0.
  destruct (N.eqb_spec (flagBit P) n); reflexivity.
Qed.

(** The flags written again, where they were reserved. *)
Lemma rewritePropertyFlags_bytes (pd : OctreePacketData)
      (pre old props : QByteArray) (f : EntityPropertyFlags) :
  pd_bytes pd = pre ++ old ++ props ->
  (length (pack wire_flags f) <= length old)%nat ->
  pd_bytes (rewritePropertyFlags (length pre) (length old)
              (length pre + length old) f pd)
  = pre ++ pack wire_flags f ++ props.
Proof.
  intros B L. unfold rewritePropertyFlags, getUncompressedByteOffset,
    getUncompressedSize, getUncompressedData, setUncompressedSize.
  cbv zeta.
  set (enc := pack wire_flags f) in *.
  assert (Len : length (pd_bytes pd)
                = (length pre + length old + length props)%nat).
  { rewrite B, !length_app. lia. }
  assert (U1 : pd_bytes (updatePriorBytes (length pre) enc pd)
               = pre ++ enc ++ drop (length enc) old ++ props).
  { unfold updatePriorBytes.
    destruct (Nat.leb_spec (length pre + length enc) (length (pd_bytes pd)))
      as [F | F]; [| lia].
    cbn [pd_bytes]. rewrite B.
    rewrite take_app_length.
    rewrite drop_app_ge by lia.
    replace (length pre + length enc - length pre)%nat
      with (length enc) by lia.
    rewrite drop_app_le by lia. reflexivity. }
  set (pd1 := updatePriorBytes (length pre) enc pd) in *.
  assert (Len1 : length (pd_bytes pd1) = length (pd_bytes pd)).
  { rewrite U1, Len, !length_app, length_drop. lia. }
  destruct (Nat.ltb_spec (length enc) (length old)) as [S | S].
  - assert (D : drop (length pre + length old) (pd_bytes pd1) = props).
    { rewrite U1. rewrite drop_app_ge by lia.
      rewrite drop_app_ge by lia.
      rewrite drop_app_ge by (rewrite length_drop; lia).
      rewrite length_drop.
      replace (length pre + length old - length pre - length enc
               - (length old - length enc))%nat with 0%nat by lia.
      reflexivity. }
    rewrite D.
    replace (length (pd_bytes pd) - (length pre + length old))%nat
      with (length props) by lia.
    rewrite (take_ge props) by lia.
    assert (A1 : take (length pre + length enc) (pd_bytes pd1) = pre ++ enc).
    { rewrite U1, (app_assoc pre enc).
      apply take_app_length'. rewrite length_app. reflexivity. }
    unfold updatePriorBytes at 1.
    destruct (Nat.leb_spec (length pre + length enc + length props)
                           (length (pd_bytes pd1))) as [F | F]; [| lia].
    cbn [pd_bytes]. rewrite A1.
    rewrite (app_assoc (pre ++ enc) props), <- (app_assoc pre enc props).
    apply take_app_length'. rewrite !length_app. lia.
  - assert (El : length enc = length old) by lia.
    rewrite U1. rewrite El, drop_all. reflexivity.
Qed.


(** X14.  [appendEntityData] is a transaction on the packet, and what it
    writes is what the specification says.  With a null extra encode
    data it has no result (a fault) when the append is not completed.
    Otherwise: the state is NONE when the header does not fit or no
    property is written, PARTIAL when a property asked for did not fit,
    and COMPLETED else; the extra encode data is untouched on COMPLETED,
    and otherwise the entity is entered in it with the properties that
    did not fit, which are all the properties of the base class when the
    header did not fit, and else those but the ones written and the
    ones not asked for.  The budget of the packet and the bytes that were
    in it are kept, the packet stays within its budget when it was, and
    on NONE it is the packet that was handed in.  When something is
    written and the flags of the written properties take no more bytes
    than the reserved ones, the packet is the one of before, the header,
    the flags of the properties written and their values in order. *)
Theorem append_entity_data_is_a_transaction
        (packetData : OctreePacketData)
        (extra : option (gmap QUuid EntityPropertyFlags)) (e : EntityItem) :
  let header := sentHeader e ++ reservedFlags in
  let headerFits :=
    (length (pd_bytes packetData) + length header
     <=? pd_budget packetData)%nat in
  let pass :=
    packInOrder (requestedOf extra e)
      (pd_budget packetData - (length (pd_bytes packetData) + length header))
      (entityPropertyValues e) in
  let written := fst pass in
  let cleared := snd pass in
  let state :=
    if headerFits && (0 <? length written)%nat
    then (if (length cleared <? length (entityPropertyValues e))%nat
          then PARTIAL else COMPLETED)
    else NONE in
  let didntFit :=
    if headerFits then fold_left flags_sub cleared getEntityProperties
    else getEntityProperties in
  let flags := fold_left flags_add (map fst written) 0%N in
  match appendEntityData packetData extra e with
  | None => extra = None /\ state <> COMPLETED
  | Some r =>
      fst (fst r) = state
      /\ snd r = (if AppendState_eqb state COMPLETED then extra
                  else option_map (insert (_id e) didntFit) extra)
      /\ (state <> COMPLETED -> is_Some extra)
      /\ pd_budget (snd (fst r)) = pd_budget packetData
      /\ take (length (pd_bytes packetData)) (pd_bytes (snd (fst r)))
         = pd_bytes packetData
      /\ ((length (pd_bytes packetData) <= pd_budget packetData)%nat ->
          (length (pd_bytes (snd (fst r))) <= pd_budget packetData)%nat)
      /\ (state = NONE -> snd (fst r) = packetData)
      /\ (state <> NONE ->
          (length (pack wire_flags flags) <= length reservedFlags)%nat ->
          pd_bytes (snd (fst r))
          = pd_bytes packetData ++ sentHeader e ++ pack wire_flags flags
            ++ concat (map snd written))
  end.
Proof.
  intros header headerFits pass written cleared state didntFit flags.
  rewrite appendEntityData_header. fold header. fold headerFits.
  destruct headerFits eqn:HF.
  - (* the header fits *)
    apply Nat.leb_le in HF.
    pose proof (fold_APPEND_packInOrder (requestedOf extra e)
                  (entityPropertyValues e)
                  (mkEncodeState
                     (mkOctreePacketData
                        (pd_bytes packetData ++ sentHeader e ++ reservedFlags)
                        (pd_budget packetData))
                     (flags_sub (flags_add 0%N PROP_LAST_ITEM) PROP_LAST_ITEM)
                     getEntityProperties 0%nat COMPLETED)) as Pass.
    cbn [es_packetData es_propertyFlags es_propertiesDidntFit
         es_propertyCount es_appendState pd_bytes pd_budget] in Pass.
    rewrite flags_sub_add_empty in Pass.
    unfold afterHeader.
    rewrite flags_sub_add_empty.
    cbv zeta in Pass.
    match goal with
    | |- context [fold_left ?f ?l ?s] => set (st := fold_left f l s) in *
    end.
    rewrite length_app in Pass. fold header in Pass.
    fold pass in Pass. fold written in Pass. fold cleared in Pass.
    fold flags in Pass.
    destruct Pass as (P1 & P2 & P3 & P4 & P5 & P6); [exact HF |].
    rewrite P4. cbn [Nat.add andb]. subst state didntFit. cbn [andb].
    destruct (0 <? length written)%nat eqn:Any.
    + (* something is written *)
      cbn [fst snd]. rewrite P5, P3, P2.
      assert (Est : extends packetData (es_packetData st)
                      (length (pd_bytes packetData ++ sentHeader e)
                       + length reservedFlags)).
      { rewrite P1 in P6 |- *. unfold extends. unfold header in *.
        cbn [pd_bytes pd_budget] in *.
        rewrite <- !app_assoc in *.
        split; [reflexivity |].
        split; [apply take_app_length |].
        rewrite !length_app in *. split; lia. }
      pose proof (rewritePropertyFlags_extends packetData (es_packetData st)
                    (length (pd_bytes packetData ++ sentHeader e))
                    (length reservedFlags)
                    (length (pd_bytes packetData ++ sentHeader e
                             ++ reservedFlags))
                    flags) as (R1 & R2 & R3 & R4);
        [rewrite length_app; lia | exact Est |].
      assert (Bytes :
                (length (pack wire_flags flags) <= length reservedFlags)%nat ->
                pd_bytes
                  (rewritePropertyFlags
                     (length (pd_bytes packetData ++ sentHeader e))
                     (length reservedFlags)
                     (length (pd_bytes packetData ++ sentHeader e
                              ++ reservedFlags))
                     flags (es_packetData st))
                = pd_bytes packetData ++ sentHeader e
                  ++ pack wire_flags flags ++ concat (map snd written)).
      { intros Lf.
        replace (length (pd_bytes packetData ++ sentHeader e ++ reservedFlags))
          with (length (pd_bytes packetData ++ sentHeader e)
                + length reservedFlags)%nat
          by (rewrite !length_app; lia).
        rewrite (rewritePropertyFlags_bytes (es_packetData st)
                   (pd_bytes packetData ++ sentHeader e) reservedFlags
                   (concat (map snd written)) flags);
          [rewrite <- app_assoc; reflexivity
          | rewrite P1; unfold header; cbn [pd_bytes];
            rewrite <- !app_assoc; reflexivity
          | exact Lf]. }
      destruct (length cleared <? length (entityPropertyValues e))%nat;
        cbn [AppendState_eqb negb].
      * destruct extra as [entities |]; cbn [fst snd option_map].
        -- split; [reflexivity |]. split; [reflexivity |].
           split; [eauto |]. split; [exact R1 |]. split; [exact R2 |].
           split; [lia |]. split; [discriminate |].
           intros _. exact Bytes.
        -- split; [reflexivity | discriminate].
      * cbn [fst snd].
        split; [reflexivity |]. split; [reflexivity |].
        split; [intros C; contradiction |].
        split; [exact R1 |]. split; [exact R2 |].
        split; [lia |]. split; [discriminate |].
        intros _. exact Bytes.
    + (* nothing is written *)
      cbn [fst snd AppendState_eqb negb].
      assert (Back : discardLevel (startLevel packetData) (es_packetData st)
                     = packetData).
      { rewrite P1, <- app_assoc. apply discardLevel_app. }
      rewrite Back, P3.
      destruct extra as [entities |]; cbn [fst snd option_map].
      * split; [reflexivity |]. split; [reflexivity |].
        split; [eauto |]. split; [reflexivity |].
        split; [apply take_ge; lia |]. split; [tauto |].
        split; [reflexivity |]. intros C; contradiction.
      * split; [reflexivity | discriminate].
  - (* the header does not fit *)
    subst state didntFit. cbn [andb]. unfold nothingFits.
    destruct extra as [entities |]; cbn [fst snd option_map AppendState_eqb].
    + split; [reflexivity |]. split; [reflexivity |].
      split; [eauto |]. split; [reflexivity |].
      split; [apply take_ge; lia |]. split; [tauto |].
      split; [reflexivity |]. intros C; contradiction.
    + split; [reflexivity | discriminate].
Qed.
End EncoderPass.

Section EncoderExample.
Import Reference.

(** A packet of 200 bytes takes the header of the example sender and
    three of its properties: the pass is partial, and stays within the
    200 bytes.  With a null extra encode data the same pass faults. *)
Lemma append_entity_data_is_a_transaction_witness :
  (exists r,
      appendEntityData (mkOctreePacketData [] 200) (Some ∅) exampleSender
      = Some r
      /\ fst (fst r) = PARTIAL
      /\ (length (pd_bytes (snd (fst r))) <= 200)%nat
      /\ length (fst (packInOrder getEntityProperties (200 - 89)
                        (entityPropertyValues exampleSender))) = 3%nat)
  /\ appendEntityData (mkOctreePacketData [] 200) None exampleSender = None.
Proof.
  pose proof (append_entity_data_is_a_transaction
                (mkOctreePacketData [] 200) (Some ∅) exampleSender) as T.
  cbv zeta in T.
  destruct (appendEntityData (mkOctreePacketData [] 200) (Some ∅)
                             exampleSender) as [r |].
  - destruct T as (T1 & _ & _ & _ & _ & T6 & _).
    split; [| vm_compute; reflexivity].
    exists r. split; [reflexivity |].
    split; [rewrite T1; vm_compute; reflexivity |].
    split; [apply T6; cbn; lia | vm_compute; reflexivity].
  - destruct T as [T _]. discriminate.
Defined.
End EncoderExample.
